(** * Email-Dashboard: the paginated aggregation engine of [app.py]

    A shallow embedding of the helpers and request handlers of [src/app.py]
    (a Flask service over the Gmail API) together with the properties of
    its specification.

    Conventions.
    - A Python [str] is a Rocq [string] holding its UTF-8 bytes.
    - A Python [int] is a [Z]; a [len] and the running totals are [nat].
    - A raised exception is a value of type [exn]; a computation that may
      raise returns [exn + A] ([inl] is the raise).
    - A JSON object read with [d['k']] has an optional field per key, the
      absent key raising [KeyError]; [d.get('k')] and ['k' in d] read the
      same optional field without raising.
    - The remote service is an interface ([Provider]) whose calls take and
      return the provider's state; the three [while True] loops take a
      bound on the number of iterations and return [None] when the bound
      is reached before the loop ends. *)

From Stdlib Require Import ZArith List String Ascii Bool Lia Arith.
Import ListNotations.

Open Scope string_scope.
Open Scope Z_scope.

(* ===================================================================== *)
(** ** Python runtime: exceptions, results, truthiness, decimal text       *)
(* ===================================================================== *)

Module Py.

(** The exceptions the program can meet.  [ClientError] stands for any
    [Exception] raised inside the Google client library or the credential
    loader (HttpError, OSError, ...); its second field tells whether its
    class derives from [ValueError]. *)
Inductive exn : Type :=
| ValueError (msg : string)
| BinasciiError (msg : string)
| UnicodeDecodeError (msg : string)
| KeyError (key : string)
| OverflowError (msg : string)
| ClientError (type_name : string) (is_value_error : bool) (msg : string).

(** [isinstance(e, ValueError)]: [binascii.Error] and [UnicodeDecodeError]
    are subclasses of [ValueError]; [KeyError] and [OverflowError] are not. *)
Definition isinstance_ValueError (e : exn) : bool :=
  match e with
  | ValueError _ | BinasciiError _ | UnicodeDecodeError _ => true
  | KeyError _ | OverflowError _ => false
  | ClientError _ b _ => b
  end.

(** [type(e).__name__] *)
Definition type_name (e : exn) : string :=
  match e with
  | ValueError _ => "ValueError"
  | BinasciiError _ => "Error"
  | UnicodeDecodeError _ => "UnicodeDecodeError"
  | KeyError _ => "KeyError"
  | OverflowError _ => "OverflowError"
  | ClientError n _ _ => n
  end.

(** [str(e)]; a [KeyError] prints the [repr] of its key. *)
Definition str (e : exn) : string :=
  match e with
  | ValueError m | BinasciiError m | UnicodeDecodeError m
  | OverflowError m | ClientError _ _ m => m
  | KeyError k => "'" ++ k ++ "'"
  end.

Definition result (A : Type) : Type := (exn + A)%type.

Definition ret {A} (a : A) : result A := inr a.
Definition raise {A} (e : exn) : result A := inl e.
Definition bind {A B} (c : result A) (k : A -> result B) : result B :=
  match c with
  | inl e => inl e
  | inr a => k a
  end.

(** [d['k']] on a JSON object *)
Definition getitem {A} (key : string) (field : option A) : result A :=
  match field with
  | Some v => inr v
  | None => inl (KeyError key)
  end.

(** [d.get('k', default)] *)
Definition get_default {A} (field : option A) (default : A) : A :=
  match field with
  | Some v => v
  | None => default
  end.

(** Truth value of an optional string: [None] and [''] are false. *)
Definition truthy (s : option string) : bool :=
  match s with
  | None => false
  | Some EmptyString => false
  | Some (String _ _) => true
  end.

Definition code (c : ascii) : Z := Z.of_N (N_of_ascii c).

Definition digit_char (n : Z) : ascii := ascii_of_N (Z.to_N (48 + n)).

(** ['%02d' % n] and ['%04d' % n] for [0 <= n < 100], [0 <= n < 10000] *)
Definition zpad2 (n : Z) : string :=
  String (digit_char (n / 10)) (String (digit_char (n mod 10)) "").

Definition zpad4 (n : Z) : string :=
  String (digit_char (n / 1000))
    (String (digit_char ((n / 100) mod 10))
       (String (digit_char ((n / 10) mod 10))
          (String (digit_char (n mod 10)) ""))).

(** Decimal text of a natural number, as [str(n)] and [%zd] print it. *)
Fixpoint decimal_digits (fuel : nat) (n : Z) (acc : string) : string :=
  match fuel with
  | O => acc
  | S fuel' =>
      let acc' := String (digit_char (n mod 10)) acc in
      if n / 10 =? 0 then acc' else decimal_digits fuel' (n / 10) acc'
  end.

Definition decimal (n : Z) : string :=
  decimal_digits (S (Z.to_nat (Z.log2 n))) n "".

End Py.

Export Py.

Declare Scope py_scope.
Delimit Scope py_scope with py.
Notation "x <- c ;; k" := (Py.bind c (fun x => k))
  (at level 61, c at next level, right associativity) : py_scope.

(** What the interpreter and the C library decide and the program does
    not: which non-ASCII characters the regular expression class [\d]
    takes for decimal digits (a table of the Unicode database the
    interpreter was built with), how [%Y] prints a year below 1000 (the C
    library pads it or not), and the text of a [UnicodeDecodeError]. *)
Class Platform : Type := {
  (** [\d] at the head of a text that starts with a non-ASCII byte: the
      digit's value and the rest of the text *)
  unicode_digit : string -> option (Z * string);
  (** [%Y] of a year in [1, 999] *)
  libc_year : Z -> string;
  (** [str] of the [UnicodeDecodeError] raised for these bytes *)
  utf8_error_text : string -> string
}.

(* ===================================================================== *)
(** ** [datetime.date] as CPython implements it                            *)
(* ===================================================================== *)

Module Datetime.

Record date : Type := mkdate { year : Z; month : Z; day : Z }.

Definition MINYEAR : Z := 1.
Definition MAXYEAR : Z := 9999.
Definition MAXORDINAL : Z := 3652059.

Definition DI400Y : Z := 146097.
Definition DI100Y : Z := 36524.
Definition DI4Y : Z := 1461.

Definition is_leap (y : Z) : bool :=
  (Z.rem y 4 =? 0) && (negb (Z.rem y 100 =? 0) || (Z.rem y 400 =? 0)).

Definition _days_in_month : list Z :=
  [0; 31; 28; 31; 30; 31; 30; 31; 31; 30; 31; 30; 31].

Definition _days_before_month : list Z :=
  [0; 0; 31; 59; 90; 120; 151; 181; 212; 243; 273; 304; 334].

Definition days_in_month (y m : Z) : Z :=
  if (m =? 2) && is_leap y then 29
  else nth (Z.to_nat m) _days_in_month 0.

Definition days_before_month (y m : Z) : Z :=
  let days := nth (Z.to_nat m) _days_before_month 0 in
  if (2 <? m) && is_leap y then days + 1 else days.

Definition days_before_year (y : Z) : Z :=
  let y' := y - 1 in
  y' * 365 + Z.quot y' 4 - Z.quot y' 100 + Z.quot y' 400.

Definition ymd_to_ord (y m d : Z) : Z :=
  days_before_year y + days_before_month y m + d.

Definition toordinal (dt : date) : Z :=
  ymd_to_ord (year dt) (month dt) (day dt).

Definition ord_to_ymd (ordinal : Z) : Z * Z * Z :=
  let ordinal := ordinal - 1 in
  let n400 := Z.quot ordinal DI400Y in
  let n := Z.rem ordinal DI400Y in
  let y := n400 * 400 + 1 in
  let n100 := Z.quot n DI100Y in
  let n := Z.rem n DI100Y in
  let n4 := Z.quot n DI4Y in
  let n := Z.rem n DI4Y in
  let n1 := Z.quot n 365 in
  let n := Z.rem n 365 in
  let y := y + (n100 * 100 + n4 * 4 + n1) in
  if (n1 =? 4) || (n100 =? 4) then (y - 1, 12, 31)
  else
    let leapyear := (n1 =? 3) && (negb (n4 =? 24) || (n100 =? 3)) in
    let m := Z.shiftr (n + 50) 5 in
    let preceding :=
      nth (Z.to_nat m) _days_before_month 0
      + (if (2 <? m) && leapyear then 1 else 0) in
    if n <? preceding then
      let m := m - 1 in
      let preceding := preceding - days_in_month y m in
      (y, m, n - preceding + 1)
    else (y, m, n - preceding + 1).

(** The argument check of the [date] constructor: the year in
    [MINYEAR, MAXYEAR], the month in [1, 12], the day in the month. *)
Definition check_date_args (y m d : Z) : bool :=
  (MINYEAR <=? y) && (y <=? MAXYEAR)
  && (1 <=? m) && (m <=? 12)
  && (1 <=? d) && (d <=? days_in_month y m).

Definition valid (dt : date) : bool :=
  check_date_args (year dt) (month dt) (day dt).

(** [normalize_y_m_d]: bring a day that left its month back into a date;
    one day off is handled without ordinals. *)
Definition normalize_y_m_d (y m d : Z) : result date :=
  let dim := days_in_month y m in
  let in_range (r : Z * Z * Z) : result date :=
    let '(y, m, d) := r in
    if (MINYEAR <=? y) && (y <=? MAXYEAR) then ret (mkdate y m d)
    else raise (OverflowError "date value out of range") in
  if (d <? 1) || (dim <? d) then
    if d =? 0 then
      let m := m - 1 in
      if 0 <? m then in_range (y, m, days_in_month y m)
      else in_range (y - 1, 12, 31)
    else if d =? dim + 1 then
      let m := m + 1 in
      if 12 <? m then in_range (y + 1, 1, 1)
      else in_range (y, m, 1)
    else
      let ordinal := ymd_to_ord y m 1 + d - 1 in
      if (ordinal <? 1) || (MAXORDINAL <? ordinal)
      then raise (OverflowError "date value out of range")
      else let '(y, m, d) := ord_to_ymd ordinal in ret (mkdate y m d)
  else in_range (y, m, d).

(** [dt + timedelta(days=n)] *)
Definition add_days (dt : date) (n : Z) : result date :=
  normalize_y_m_d (year dt) (month dt) (day dt + n).

(** [a < b] on dates: the (year, month, day) triples in lexicographic
    order. *)
Definition date_ltb (a b : date) : bool :=
  (year a <? year b)
  || ((year a =? year b)
      && ((month a <? month b)
          || ((month a =? month b) && (day a <? day b)))).

(** [dt.strftime('%Y/%m/%d')]: the month and the day take two digits; the
    year takes four from 1000 on and is the C library's below. *)
Definition strftime_Y `{Platform} (y : Z) : string :=
  if 1000 <=? y then zpad4 y else libc_year y.

Definition strftime_Ymd `{Platform} (dt : date) : string :=
  strftime_Y (year dt) ++ "/" ++ zpad2 (month dt) ++ "/" ++ zpad2 (day dt).

End Datetime.

Export Datetime.

(* ===================================================================== *)
(** ** [datetime.strptime(s, "%Y-%m-%d").date()]                           *)
(* ===================================================================== *)

(** [_strptime] compiles the format to the regular expression
    [(?P<Y>\d\d\d\d)-(?P<m>1[0-2]|0[1-9]|[1-9])-(?P<d>3[0-1]|[1-2]\d|0[1-9]|[1-9]| [1-9])],
    matches it at the head of the text, rejects a match that leaves text
    over, converts the three groups with [int] and builds the date, whose
    constructor rejects the year 0 and a day that is not in the month.
    A matcher returns its matches in the order the backtracking engine
    tries them.  Every failure is a [ValueError]; its text is not kept
    because the one caller replaces it. *)

Module Strptime.

Section WithPlatform.
Context `{Platform}.

Definition matcher (A : Type) : Type := string -> list (A * string).

Definition in_range (lo hi : ascii) (c : ascii) : bool :=
  (code lo <=? code c) && (code c <=? code hi).

(** [\d]: an ASCII digit, or what the platform's table takes for one. *)
Definition re_digit : matcher Z := fun s =>
  match s with
  | EmptyString => []
  | String c rest =>
      if code c <? 128 then
        if in_range "0" "9" c then [(code c - 48, rest)] else []
      else
        match unicode_digit s with
        | Some r => [r]
        | None => []
        end
  end.

(** A character class of ASCII digits, [[lo-hi]]. *)
Definition re_class (lo hi : ascii) : matcher Z := fun s =>
  match s with
  | EmptyString => []
  | String c rest => if in_range lo hi c then [(code c - 48, rest)] else []
  end.

(** A literal character. *)
Definition re_char (a : ascii) : matcher unit := fun s =>
  match s with
  | EmptyString => []
  | String c rest => if Ascii.eqb c a then [(tt, rest)] else []
  end.

(** Sequence and alternation. *)
Definition re_seq {A B C} (f : A -> B -> C) (p : matcher A) (q : matcher B)
  : matcher C := fun s =>
  flat_map (fun '(a, s1) => map (fun '(b, s2) => (f a b, s2)) (q s1)) (p s).

Definition re_alt {A} (p q : matcher A) : matcher A :=
  fun s => (p s ++ q s)%list.

Definition tens (a b : Z) : Z := 10 * a + b.

(** [(?P<Y>\d\d\d\d)] *)
Definition re_Y : matcher Z :=
  re_seq tens (re_seq tens (re_seq tens re_digit re_digit) re_digit) re_digit.

(** [(?P<m>1[0-2]|0[1-9]|[1-9])] *)
Definition re_m : matcher Z :=
  re_alt (re_seq tens (re_class "1" "1") (re_class "0" "2"))
    (re_alt (re_seq tens (re_class "0" "0") (re_class "1" "9"))
       (re_class "1" "9")).

(** [(?P<d>3[0-1]|[1-2]\d|0[1-9]|[1-9]| [1-9])] *)
Definition re_d : matcher Z :=
  re_alt (re_seq tens (re_class "3" "3") (re_class "0" "1"))
    (re_alt (re_seq tens (re_class "1" "2") re_digit)
       (re_alt (re_seq tens (re_class "0" "0") (re_class "1" "9"))
          (re_alt (re_class "1" "9")
             (re_seq (fun _ b => b) (re_char " ") (re_class "1" "9"))))).

Definition re_Ymd : matcher (Z * Z * Z) :=
  re_seq (fun ym d => (ym, d))
    (re_seq (fun y m => (y, m))
       (re_seq (fun y _ => y) re_Y (re_char "-"))
       (re_seq (fun m _ => m) re_m (re_char "-")))
    re_d.

Definition strptime_Ymd (data_string : string) : result date :=
  match re_Ymd data_string with
  | [] =>
      raise (ValueError "time data does not match format")
  | ((y, m, d), rest) :: _ =>
      match rest with
      | String _ _ => raise (ValueError "unconverted data remains")
      | EmptyString =>
          if check_date_args y m d then ret (mkdate y m d)
          else raise (ValueError "date out of range")
      end
  end.

End WithPlatform.

End Strptime.

Export Strptime.

(* ===================================================================== *)
(** ** [base64.urlsafe_b64decode] and [bytes.decode('utf-8')]              *)
(* ===================================================================== *)

Module Base64.

(** [table_a2b_base64]: the six bits of a character of the alphabet. *)
Definition table_a2b_base64 (c : ascii) : option Z :=
  let n := code c in
  if (65 <=? n) && (n <=? 90) then Some (n - 65)
  else if (97 <=? n) && (n <=? 122) then Some (n - 97 + 26)
  else if (48 <=? n) && (n <=? 57) then Some (n - 48 + 52)
  else if n =? 43 then Some 62
  else if n =? 47 then Some 63
  else None.

Definition byte_of (n : Z) : ascii := ascii_of_N (Z.to_N (Z.land n 255)).

(** [binascii.a2b_base64] without strict mode: characters outside the
    alphabet are skipped, a complete run of padding ends the data, and
    what is left of an unfinished quad at the end of the text is an
    error. *)
Fixpoint a2b_base64 (ascii_data : string) (quad_pos leftchar pads : Z)
  (bin_data : string) : result string :=
  match ascii_data with
  | EmptyString =>
      if quad_pos =? 0 then ret bin_data
      else if quad_pos =? 1 then
        raise (BinasciiError
          ("Invalid base64-encoded string: number of data characters ("
           ++ decimal (Z.of_nat (String.length bin_data) / 3 * 4 + 1)
           ++ ") cannot be 1 more than a multiple of 4"))
      else raise (BinasciiError "Incorrect padding")
  | String this_ch rest =>
      if Ascii.eqb this_ch "=" then
        if 2 <=? quad_pos then
          let pads := pads + 1 in
          if 4 <=? quad_pos + pads then ret bin_data
          else a2b_base64 rest quad_pos leftchar pads bin_data
        else a2b_base64 rest quad_pos leftchar pads bin_data
      else
        match table_a2b_base64 this_ch with
        | None => a2b_base64 rest quad_pos leftchar pads bin_data
        | Some this_ch =>
            let pads := 0 in
            if quad_pos =? 0 then
              a2b_base64 rest 1 this_ch pads bin_data
            else if quad_pos =? 1 then
              a2b_base64 rest 2 (Z.land this_ch 15) pads
                (bin_data ++ String
                   (byte_of (Z.lor (Z.shiftl leftchar 2) (Z.shiftr this_ch 4)))
                   "")
            else if quad_pos =? 2 then
              a2b_base64 rest 3 (Z.land this_ch 3) pads
                (bin_data ++ String
                   (byte_of (Z.lor (Z.shiftl leftchar 4) (Z.shiftr this_ch 2)))
                   "")
            else
              a2b_base64 rest 0 0 pads
                (bin_data ++ String
                   (byte_of (Z.lor (Z.shiftl leftchar 6) this_ch)) "")
        end
  end.

Fixpoint all_ascii (s : string) : bool :=
  match s with
  | EmptyString => true
  | String c rest => (code c <? 128) && all_ascii rest
  end.

(** [_urlsafe_decode_translation]: ['-'] to ['+'] and ['_'] to ['/'] *)
Fixpoint translate_urlsafe (s : string) : string :=
  match s with
  | EmptyString => EmptyString
  | String c rest =>
      String (if Ascii.eqb c "-" then "+"%char
              else if Ascii.eqb c "_" then "/"%char else c)
             (translate_urlsafe rest)
  end.

Definition urlsafe_b64decode (s : string) : result string :=
  if all_ascii s then a2b_base64 (translate_urlsafe s) 0 0 0 ""
  else raise (ValueError "string argument should contain only ASCII characters").

End Base64.

Export Base64.

Module Utf8.

Definition between (lo hi : Z) (c : ascii) : bool :=
  (lo <=? code c) && (code c <=? hi).

(** Well-formed UTF-8: the shortest form of a scalar value that is not a
    surrogate and not above U+10FFFF. *)
Fixpoint well_formed (s : string) : bool :=
  match s with
  | EmptyString => true
  | String b0 s1 =>
      let c0 := code b0 in
      if c0 <? 128 then well_formed s1
      else if c0 <? 194 then false
      else if c0 <? 224 then
        match s1 with
        | String b1 s2 => between 128 191 b1 && well_formed s2
        | _ => false
        end
      else if c0 <? 240 then
        match s1 with
        | String b1 (String b2 s3) =>
            between (if c0 =? 224 then 160 else 128)
                    (if c0 =? 237 then 159 else 191) b1
            && between 128 191 b2 && well_formed s3
        | _ => false
        end
      else if c0 <? 245 then
        match s1 with
        | String b1 (String b2 (String b3 s4)) =>
            between (if c0 =? 240 then 144 else 128)
                    (if c0 =? 244 then 143 else 191) b1
            && between 128 191 b2 && between 128 191 b3 && well_formed s4
        | _ => false
        end
      else false
  end.

(** [data.decode('utf-8')]: the text whose UTF-8 bytes these are. *)
Definition decode_utf8 `{Platform} (data : string) : result string :=
  if well_formed data then ret data
  else raise (UnicodeDecodeError (utf8_error_text data)).

End Utf8.

Export Utf8.

(* ===================================================================== *)
(** ** [app.py]: the date range compiler                                   *)
(* ===================================================================== *)

Section DateRangeCompiler.
Context `{Platform}.

Open Scope py_scope.

(** [build_date_query], lines 54-66.  The [try] covers the two [strptime]
    calls and replaces any [ValueError] of theirs; the comparison, the
    addition of one day and the formatting are outside it. *)
Definition build_date_query (start_yyyy_mm_dd end_yyyy_mm_dd : string)
  : result string :=
  let parsed :=
    start_dt <- strptime_Ymd start_yyyy_mm_dd ;;
    end_dt <- strptime_Ymd end_yyyy_mm_dd ;;
    ret (start_dt, end_dt) in
  match parsed with
  | inl e =>
      if isinstance_ValueError e
      then raise (ValueError "Dates must be in YYYY-MM-DD format")
      else raise e
  | inr (start_dt, end_dt) =>
      if date_ltb end_dt start_dt
      then raise (ValueError "End date must be on or after start date")
      else
        before_exclusive <- add_days end_dt 1 ;;
        ret ("after:" ++ strftime_Ymd start_dt
             ++ " before:" ++ strftime_Ymd before_exclusive)
  end.

End DateRangeCompiler.



(* ===================================================================== *)
(** ** The Gmail API: the JSON the program reads, the calls it makes       *)
(* ===================================================================== *)

Module Gmail.

(** One entry of [payload.headers]. *)
Record Header : Type := mkHeader {
  header_name : option string;
  header_value : option string
}.

Record PartBody : Type := mkPartBody { body_data : option string }.

(** One entry of [payload.parts]. *)
Record Part : Type := mkPart {
  part_mimeType : option string;
  part_body : option PartBody
}.

Record Payload : Type := mkPayload {
  payload_headers : option (list Header);
  payload_parts : option (list Part)
}.

(** The full representation that [messages.get] returns. *)
Record Message : Type := mkMessage { message_payload : option Payload }.

(** An entry of a listing: a message or a thread known by its id. *)
Record Stub : Type := mkStub { stub_id : option string }.

(** The response of [messages.list]. *)
Record ListResponse : Type := mkListResponse {
  resp_messages : option (list Stub);
  resp_nextPageToken : option string
}.

(** The response of [threads.list]. *)
Record ThreadsResponse : Type := mkThreadsResponse {
  resp_threads : option (list Stub);
  threads_nextPageToken : option string
}.

(** The service object: [connect] is [get_workspace_credentials] followed
    by [build('gmail', 'v1', ...)]; the other three are the [execute()] of
    a request built with the arguments shown.  A call takes the state of
    the provider and returns the next one with its response or the
    exception it raised. *)
Class Provider (Svc : Type) : Type := {
  connect : string -> result Svc;
  (** [messages().list(userId, q, pageToken, includeSpamTrash)] *)
  messages_list :
    Svc -> string -> string -> option string -> bool
    -> Svc * result ListResponse;
  (** [threads().list(userId, q, pageToken)] *)
  threads_list :
    Svc -> string -> string -> option string -> Svc * result ThreadsResponse;
  (** [messages().get(userId, id)] *)
  messages_get : Svc -> string -> string -> Svc * result Message
}.

End Gmail.

Export Gmail.

(** Computations that talk to the provider: from a provider state to the
    next state and a result, or to [None] when a loop inside was cut by
    its bound. *)
Module Remote.

Section Monad.
Context {Svc : Type}.

Definition M (A : Type) : Type := Svc -> option (Svc * result A).

Definition mret {A} (a : A) : M A := fun s => Some (s, inr a).

Definition mbind {A B} (c : M A) (k : A -> M B) : M B := fun s =>
  match c s with
  | None => None
  | Some (s', inl e) => Some (s', inl e)
  | Some (s', inr a) => k a s'
  end.

(** A local computation that may raise. *)
Definition lift {A} (r : result A) : M A := fun s => Some (s, r).

(** A remote call. *)
Definition call {A} (f : Svc -> Svc * result A) : M A := fun s => Some (f s).

(** The bound of a loop was reached. *)
Definition cut {A} : M A := fun _ => None.

End Monad.

End Remote.

Export Remote.

Declare Scope remote_scope.
Delimit Scope remote_scope with remote.
Notation "x <~ c ;; k" := (Remote.mbind c (fun x => k))
  (at level 61, c at next level, right associativity) : remote_scope.

(* ===================================================================== *)
(** ** [app.py]: counting, detail extraction, request handlers             *)
(* ===================================================================== *)

(** The dictionary [email_data]: only these four keys are ever set. *)
Record EmailData : Type := mkEmailData {
  field_to : option string;
  field_subject : option string;
  field_date : option string;
  field_message : option string
}.

Definition empty_email_data : EmailData := mkEmailData None None None None.

Definition set_to (v : string) (d : EmailData) : EmailData :=
  mkEmailData (Some v) (field_subject d) (field_date d) (field_message d).
Definition set_subject (v : string) (d : EmailData) : EmailData :=
  mkEmailData (field_to d) (Some v) (field_date d) (field_message d).
Definition set_date (v : string) (d : EmailData) : EmailData :=
  mkEmailData (field_to d) (field_subject d) (Some v) (field_message d).
Definition set_message (v : string) (d : EmailData) : EmailData :=
  mkEmailData (field_to d) (field_subject d) (field_date d) (Some v).

Section Extraction.
Context `{Platform}.

Open Scope py_scope.

(** Lines 124-130: [for header in headers], no [break]. *)
Fixpoint for_header_in (headers : list Header) (email_data : EmailData)
  : result EmailData :=
  match headers with
  | [] => ret email_data
  | header :: rest =>
      name <- getitem "name" (header_name header) ;;
      if String.eqb name "To" then
        value <- getitem "value" (header_value header) ;;
        for_header_in rest (set_to value email_data)
      else if String.eqb name "Subject" then
        value <- getitem "value" (header_value header) ;;
        for_header_in rest (set_subject value email_data)
      else if String.eqb name "Date" then
        value <- getitem "value" (header_value header) ;;
        for_header_in rest (set_date value email_data)
      else for_header_in rest email_data
  end.

(** Lines 134-139: [for part in message['payload']['parts']], left by
    [break] at the first [text/plain] part. *)
Fixpoint for_part_in (parts : list Part) (email_data : EmailData)
  : result EmailData :=
  match parts with
  | [] => ret email_data
  | part :: rest =>
      mimeType <- getitem "mimeType" (part_mimeType part) ;;
      if String.eqb mimeType "text/plain" then
        body <- getitem "body" (part_body part) ;;
        data <- getitem "data" (body_data body) ;;
        decoded <- urlsafe_b64decode data ;;
        decoded_message <- decode_utf8 decoded ;;
        ret (set_message decoded_message email_data)
      else for_part_in rest email_data
  end.

(** Lines 122-139: the record of one fetched message. *)
Definition extract_email_data (message : Message) : result EmailData :=
  let email_data := empty_email_data in
  payload <- getitem "payload" (message_payload message) ;;
  headers <- getitem "headers" (payload_headers payload) ;;
  email_data <- for_header_in headers email_data ;;
  match payload_parts payload with
  | Some parts => for_part_in parts email_data
  | None => ret email_data
  end.

End Extraction.

Section Aggregation.
Context `{Platform} {Svc : Type} `{Provider Svc}.

Open Scope remote_scope.

(** [count_messages], lines 28-51.  The [print] calls leave no trace in
    the result and are left out. *)
Fixpoint count_messages_loop (bound : nat) (user_id query : string)
  (total : nat) (page_token : option string) : M (Svc := Svc) nat :=
  match bound with
  | O => cut
  | S bound' =>
      resp <~ call (fun s => messages_list s user_id query page_token false) ;;
      let count := List.length (get_default (resp_messages resp) []) in
      let total := (total + count)%nat in
      let page_token := resp_nextPageToken resp in
      if negb (truthy page_token) then mret total
      else count_messages_loop bound' user_id query total page_token
  end.

Definition count_messages (bound : nat) (user_id query : string) : M nat :=
  count_messages_loop bound user_id query 0%nat None.

(** [count_messages_by_thread], lines 90-103. *)
Fixpoint count_messages_by_thread_loop (bound : nat) (user_id query : string)
  (total : nat) (page_token : option string) : M (Svc := Svc) nat :=
  match bound with
  | O => cut
  | S bound' =>
      response <~ call (fun s => threads_list s user_id query page_token) ;;
      let count := List.length (get_default (resp_threads response) []) in
      let total := (total + count)%nat in
      let page_token := threads_nextPageToken response in
      if negb (truthy page_token) then mret total
      else count_messages_by_thread_loop bound' user_id query total page_token
  end.

Definition count_messages_by_thread (bound : nat) (user_id query : string)
  : M nat :=
  count_messages_by_thread_loop bound user_id query 0%nat None.

(** Lines 118-141: [for msg in resp.get('messages', [])], one fetch and
    one appended record per stub. *)
Fixpoint for_msg_in (user_id : string) (msgs : list Stub)
  (email_details : list EmailData) : M (Svc := Svc) (list EmailData) :=
  match msgs with
  | [] => mret email_details
  | msg :: rest =>
      id <~ lift (getitem "id" (stub_id msg)) ;;
      message <~ call (fun s => messages_get s user_id id) ;;
      email_data <~ lift (extract_email_data message) ;;
      for_msg_in user_id rest (email_details ++ [email_data])
  end.

(** [get_sent_email_details], lines 106-147. *)
Fixpoint get_sent_email_details_loop (bound : nat) (user_id query : string)
  (email_details : list EmailData) (page_token : option string)
  : M (Svc := Svc) (list EmailData) :=
  match bound with
  | O => cut
  | S bound' =>
      resp <~ call (fun s => messages_list s user_id query page_token false) ;;
      email_details <~
        for_msg_in user_id (get_default (resp_messages resp) [])
          email_details ;;
      let page_token := resp_nextPageToken resp in
      if negb (truthy page_token) then mret email_details
      else get_sent_email_details_loop bound' user_id query email_details
             page_token
  end.

Definition get_sent_email_details (bound : nat) (user_id query : string)
  : M (list EmailData) :=
  get_sent_email_details_loop bound user_id query [] None.

(** What a handler returns: the JSON body and the HTTP status. *)
Inductive body : Type :=
| CountsBody (sent received : nat) (date_range : string)
| DetailsBody (email_details : list EmailData)
| ErrorBody (error : string).

Definition response : Type := (body * Z)%type.

(** The two [except] clauses shared by the handlers, lines 192-196 and
    225-228. *)
Definition handle_exception (e : exn) : response :=
  if isinstance_ValueError e then (ErrorBody (str e), 400)
  else (ErrorBody ("Failed to fetch Gmail data: " ++ type_name e), 500).

(** A handler's [try] statement: the block starts with the connection
    ([creds = ...; service = build(...)]) and goes on with the service;
    whatever it raises is handled by the two clauses. *)
Definition try_except (email : string) (block : M (Svc := Svc) response)
  : option response :=
  match connect email with
  | inl e => Some (handle_exception e)
  | inr service =>
      match block service with
      | None => None
      | Some (_, inl e) => Some (handle_exception e)
      | Some (_, inr r) => Some r
      end
  end.

(** [if not email or not start_date or not end_date] *)
Definition missing_parameters (email start_date end_date : option string)
  : bool :=
  negb (truthy email) || negb (truthy start_date) || negb (truthy end_date).

(** [request.args.get(k)] after the check: the value of a present key. *)
Definition arg (v : option string) : string := get_default v "".

(** [dashboard], lines 153-196. *)
Definition dashboard (bound : nat) (email start_date end_date : option string)
  : option response :=
  if missing_parameters email start_date end_date
  then Some (ErrorBody "Missing email or date parameters", 400)
  else
    try_except (arg email) (
      date_q <~ lift (build_date_query (arg start_date) (arg end_date)) ;;
      let sent_q := date_q ++ " label:sent" in
      let received_q :=
        date_q ++
        " label:inbox -label:sent -label:drafts -label:spam -label:trash -from:me"
      in
      sent_count <~ count_messages bound "me" sent_q ;;
      received_count <~ count_messages bound "me" received_q ;;
      mret (CountsBody sent_count received_count
              (arg start_date ++ " to " ++ arg end_date), 200)).

(** [sent_details], lines 198-228. *)
Definition sent_details (bound : nat)
  (email start_date end_date : option string) : option response :=
  if missing_parameters email start_date end_date
  then Some (ErrorBody "Missing email or date parameters", 400)
  else
    try_except (arg email) (
      date_q <~ lift (build_date_query (arg start_date) (arg end_date)) ;;
      let sent_q := date_q ++ " label:sent" in
      email_details <~ get_sent_email_details bound "me" sent_q ;;
      mret (DetailsBody email_details, 200)).

End Aggregation.

(* ===================================================================== *)
(** ** Vocabulary of the specification                                     *)
(* ===================================================================== *)

(** *** Calendar days *)

(** The day after, read off the calendar: the next day of the month, or
    the first of the next month, or the first of January. *)
Definition tomorrow (dt : date) : date :=
  if day dt <? days_in_month (year dt) (month dt)
  then mkdate (year dt) (month dt) (day dt + 1)
  else if month dt <? 12
       then mkdate (year dt) (month dt + 1) 1
       else mkdate (year dt + 1) 1 1.

(** The last date a [date] holds. *)
Definition date_max : date := mkdate 9999 12 31.

(** *** Dates in the exact form YYYY-MM-DD *)

Definition is_digit (c : ascii) : bool := (48 <=? code c) && (code c <=? 57).


(** *** The terms of a provider query *)

(** A query is a conjunction of terms separated by spaces; a term with a
    leading dash is negated. *)
Inductive Term : Type :=
| Has (t : string)
| Not (t : string).

(** [s.split(' ')] *)
Fixpoint split_spaces (s : string) : list string :=
  match s with
  | EmptyString => [EmptyString]
  | String c rest =>
      if Ascii.eqb c " " then EmptyString :: split_spaces rest
      else
        match split_spaces rest with
        | w :: ws => String c w :: ws
        | [] => [String c EmptyString]
        end
  end.

Definition term_of (w : string) : Term :=
  match w with
  | String "-" t => Not t
  | _ => Has w
  end.

Definition query_terms (q : string) : list Term := map term_of (split_spaces q).

(** *** Headers and parts *)

Definition header_is (n : string) (h : Header) : bool :=
  match header_name h with
  | Some x => String.eqb x n
  | None => false
  end.

(** The values of the headers named exactly [n], in the order of the
    list. *)
Definition occurrences (n : string) (headers : list Header) : list string :=
  flat_map (fun h => if header_is n h
                     then match header_value h with
                          | Some v => [v]
                          | None => []
                          end
                     else []) headers.

Definition first_occurrence (n : string) (headers : list Header)
  : option string := hd_error (occurrences n headers).

Definition last_occurrence (n : string) (headers : list Header)
  : option string := last (map Some (occurrences n headers)) None.

Definition is_text_plain (p : Part) : bool :=
  match part_mimeType p with
  | Some m => String.eqb m "text/plain"
  | None => false
  end.

(** A part that declares a MIME type other than [text/plain]. *)
Definition other_type (p : Part) : Prop :=
  exists m, part_mimeType p = Some m /\ String.eqb m "text/plain" = false.

(** A message without ['payload'], or without ['headers'] in it, or
    whose first [text/plain] part has no ['body']['data']. *)
Inductive lacks_key : Message -> Prop :=
| lacks_payload : lacks_key (mkMessage None)
| lacks_headers parts : lacks_key (mkMessage (Some (mkPayload None parts)))
| lacks_data headers before part after :
    (forall p, In p before -> is_text_plain p = false) ->
    is_text_plain part = true ->
    (part_body part = None \/ part_body part = Some (mkPartBody None)) ->
    lacks_key (mkMessage (Some (mkPayload headers
                                  (Some (before ++ part :: after)%list)))).

(** *** Runs against the provider *)

Definition page_size (r : ListResponse) : nat :=
  List.length (get_default (resp_messages r) []).

Definition thread_page_size (r : ThreadsResponse) : nat :=
  List.length (get_default (resp_threads r) []).

Definition page_stubs (r : ListResponse) : list Stub :=
  get_default (resp_messages r) [].

Section Runs.
Context `{Platform} {Svc : Type} `{Provider Svc}.
Variables user_id query : string.

(** The responses to the successive [messages.list] calls of a counting
    run that starts in state [s] with cursor [tok]: each response but the
    last carries a cursor, which the next call sends; the last carries
    none. *)
Inductive pages : Svc -> option string -> list ListResponse -> Svc -> Prop :=
| pages_last s tok s' r :
    messages_list s user_id query tok false = (s', inr r) ->
    truthy (resp_nextPageToken r) = false ->
    pages s tok [r] s'
| pages_more s tok s1 r rs s' :
    messages_list s user_id query tok false = (s1, inr r) ->
    truthy (resp_nextPageToken r) = true ->
    pages s1 (resp_nextPageToken r) rs s' ->
    pages s tok (r :: rs) s'.

(** The first [n] responses all carry a cursor. *)
Inductive open_pages : Svc -> option string -> nat -> Prop :=
| open_zero s tok : open_pages s tok O
| open_succ s tok s1 r n :
    messages_list s user_id query tok false = (s1, inr r) ->
    truthy (resp_nextPageToken r) = true ->
    open_pages s1 (resp_nextPageToken r) n ->
    open_pages s tok (S n).

(** The same for [threads.list]. *)
Inductive thread_pages
  : Svc -> option string -> list ThreadsResponse -> Svc -> Prop :=
| thread_pages_last s tok s' r :
    threads_list s user_id query tok = (s', inr r) ->
    truthy (threads_nextPageToken r) = false ->
    thread_pages s tok [r] s'
| thread_pages_more s tok s1 r rs s' :
    threads_list s user_id query tok = (s1, inr r) ->
    truthy (threads_nextPageToken r) = true ->
    thread_pages s1 (threads_nextPageToken r) rs s' ->
    thread_pages s tok (r :: rs) s'.

Inductive open_thread_pages : Svc -> option string -> nat -> Prop :=
| open_thread_zero s tok : open_thread_pages s tok O
| open_thread_succ s tok s1 r n :
    threads_list s user_id query tok = (s1, inr r) ->
    truthy (threads_nextPageToken r) = true ->
    open_thread_pages s1 (threads_nextPageToken r) n ->
    open_thread_pages s tok (S n).

(** A details run: after each listing response the messages of the page
    are fetched and their records appended to the list so far. *)
Inductive detail_pages
  : Svc -> option string -> list EmailData
    -> list ListResponse -> list EmailData -> Svc -> Prop :=
| detail_pages_last s tok acc s1 r s2 acc' :
    messages_list s user_id query tok false = (s1, inr r) ->
    for_msg_in user_id (page_stubs r) acc s1 = Some (s2, inr acc') ->
    truthy (resp_nextPageToken r) = false ->
    detail_pages s tok acc [r] acc' s2
| detail_pages_more s tok acc s1 r s2 acc' rs acc'' s3 :
    messages_list s user_id query tok false = (s1, inr r) ->
    for_msg_in user_id (page_stubs r) acc s1 = Some (s2, inr acc') ->
    truthy (resp_nextPageToken r) = true ->
    detail_pages s2 (resp_nextPageToken r) acc' rs acc'' s3 ->
    detail_pages s tok acc (r :: rs) acc'' s3.

(** [completed n s tok acc s' tok' acc']: from the loop head [(s, tok,
    acc)] a details run completes [n] pages, each with a cursor, and is
    back at the loop head with [(s', tok', acc')]. *)
Inductive completed
  : nat -> Svc -> option string -> list EmailData
    -> Svc -> option string -> list EmailData -> Prop :=
| completed_zero s tok acc : completed O s tok acc s tok acc
| completed_succ n s tok acc s1 r s2 acc2 s' tok' acc' :
    messages_list s user_id query tok false = (s1, inr r) ->
    for_msg_in user_id (page_stubs r) acc s1 = Some (s2, inr acc2) ->
    truthy (resp_nextPageToken r) = true ->
    completed n s2 (resp_nextPageToken r) acc2 s' tok' acc' ->
    completed (S n) s tok acc s' tok' acc'.

(** The record [rec] is the extraction of a message fetched for the stub. *)
Definition fetched_for (stub : Stub) (rec : EmailData) : Prop :=
  exists id s s' message,
    stub_id stub = Some id
    /\ messages_get s user_id id = (s', inr message)
    /\ extract_email_data message = inr rec.

End Runs.

(* ===================================================================== *)
(** ** Providers to run the definitions on                                 *)
(* ===================================================================== *)

(** A platform to run the definitions on: no digits beyond ASCII, the
    year printed without padding as glibc does. *)
Definition sample_platform : Platform := {|
  unicode_digit := fun _ => None;
  libc_year := fun y => decimal y;
  utf8_error_text := fun _ => "'utf-8' codec can't decode bytes"
|}.

(** A provider that answers from a script: the listing calls take their
    responses from the head of a list, the fetches look the id up. *)
Record Script : Type := mkScript {
  list_script : list (result ListResponse);
  threads_script : list (result ThreadsResponse);
  mailbox : list (string * result Message)
}.

Definition exhausted {A} : result A :=
  raise (ClientError "HttpError" false "no response left in the script").

Fixpoint lookup_message (id : string) (box : list (string * result Message))
  : result Message :=
  match box with
  | [] => raise (ClientError "HttpError" false "404")
  | (k, m) :: rest => if String.eqb k id then m else lookup_message id rest
  end.

Definition scripted (init : Script) : Provider Script := {|
  connect := fun _ => ret init;
  messages_list := fun s _ _ _ _ =>
    match list_script s with
    | [] => (s, exhausted)
    | r :: rest => (mkScript rest (threads_script s) (mailbox s), r)
    end;
  threads_list := fun s _ _ _ =>
    match threads_script s with
    | [] => (s, exhausted)
    | r :: rest => (mkScript (list_script s) rest (mailbox s), r)
    end;
  messages_get := fun s _ id => (s, lookup_message id (mailbox s))
|}.

(** A provider that answers every listing call with one entry and the
    same cursor. *)
Definition echoing : Provider unit := {|
  connect := fun _ => ret tt;
  messages_list := fun s _ _ _ _ =>
    (s, ret (mkListResponse (Some [mkStub (Some "m1")]) (Some "again")));
  threads_list := fun s _ _ _ =>
    (s, ret (mkThreadsResponse (Some [mkStub (Some "t1")]) (Some "again")));
  messages_get := fun s _ _ => (s, ret (mkMessage None))
|}.

Definition stubs_upto (n : nat) : list Stub :=
  map (fun _ => mkStub None) (seq 0 n).

(** A message with two [To] headers and one named [to]. *)
Definition two_recipients_headers : list Header :=
  [mkHeader (Some "To") (Some "first@x");
   mkHeader (Some "to") (Some "lower@x");
   mkHeader (Some "To") (Some "second@x")].

Definition two_recipients : Message :=
  mkMessage (Some (mkPayload (Some two_recipients_headers) None)).

(** The message of the specification's example, between an HTML part and
    a second plain-text part: the body is [hi], base64 [aGk=]. *)
Definition hi_headers : list Header :=
  [mkHeader (Some "To") (Some "a@x");
   mkHeader (Some "Subject") (Some "S");
   mkHeader (Some "Date") (Some "D")].

Definition html_part : Part :=
  mkPart (Some "text/html") (Some (mkPartBody (Some "PGI-aGk8L2I-"))).

Definition hi_part : Part :=
  mkPart (Some "text/plain") (Some (mkPartBody (Some "aGk="))).

Definition bye_part : Part :=
  mkPart (Some "text/plain") (Some (mkPartBody (Some "Ynll"))).

Definition hi_message : Message :=
  mkMessage (Some (mkPayload (Some hi_headers)
                     (Some [html_part; hi_part; bye_part]))).

Definition hi_record : EmailData :=
  mkEmailData (Some "a@x") (Some "S") (Some "D") (Some "hi").

(** The specification's scenario: the sent query answered by two pages of
    50 and 13 entries. *)
Definition two_pages : Script :=
  mkScript
    [ret (mkListResponse (Some (stubs_upto 50)) (Some "page-2"));
     ret (mkListResponse (Some (stubs_upto 13)) None)]
    [ret (mkThreadsResponse (Some (stubs_upto 50)) (Some "page-2"));
     ret (mkThreadsResponse (Some (stubs_upto 13)) None)]
    [].

(** An empty result set: one response without ['messages'] and without a
    cursor. *)
Definition no_results : Script :=
  mkScript [ret (mkListResponse None None)]
           [ret (mkThreadsResponse None None)] [].

(** A mailbox of three sent messages listed on two pages. *)
Definition three_sent : Script :=
  mkScript
    [ret (mkListResponse (Some [mkStub (Some "m1"); mkStub (Some "m2")])
            (Some "page-2"));
     ret (mkListResponse (Some [mkStub (Some "m3")]) None)]
    []
    [("m1", ret hi_message); ("m2", ret two_recipients);
     ("m3", ret hi_message)].

(** The same listing when the fetch of the second message fails. *)
Definition second_fetch_fails : Script :=
  mkScript
    [ret (mkListResponse (Some [mkStub (Some "m1"); mkStub (Some "m2")])
            (Some "page-2"));
     ret (mkListResponse (Some [mkStub (Some "m3")]) None)]
    []
    [("m1", ret hi_message);
     ("m2", raise (ClientError "HttpError" false "503"));
     ("m3", ret hi_message)].

(** A plain-text part whose body has no ['data']. *)
Definition no_data_message : Message :=
  mkMessage (Some (mkPayload (Some hi_headers)
                     (Some [html_part;
                            mkPart (Some "text/plain")
                              (Some (mkPartBody None))]))).

(** The same listing when the second message has no part data. *)
Definition second_lacks_data : Script :=
  mkScript
    [ret (mkListResponse (Some [mkStub (Some "m1"); mkStub (Some "m2")])
            (Some "page-2"));
     ret (mkListResponse (Some [mkStub (Some "m3")]) None)]
    []
    [("m1", ret hi_message); ("m2", ret no_data_message);
     ("m3", ret hi_message)].

(** Sent mail on two pages of 50 and 13 entries, then received mail on
    one page of 7. *)
Definition sent_then_received : Script :=
  mkScript
    [ret (mkListResponse (Some (stubs_upto 50)) (Some "page-2"));
     ret (mkListResponse (Some (stubs_upto 13)) None);
     ret (mkListResponse (Some (stubs_upto 7)) None)]
    [] [].

(* ===================================================================== *)
(** ** Further vocabulary: the calls a run makes                           *)
(* ===================================================================== *)

(** A remote call with the arguments the program passed. *)
Inductive Call : Type :=
| ListCall (user_id q : string) (page_token : option string)
    (includeSpamTrash : bool)
| ThreadsCall (user_id q : string) (page_token : option string)
| GetCall (user_id id : string).

(** A provider that answers as [P] does and writes every call down. *)
Definition logged {Svc : Type} (P : Provider Svc)
  : Provider (Svc * list Call) := {|
  connect := fun email =>
    match connect email with
    | inl e => inl e
    | inr s => inr (s, [])
    end;
  messages_list := fun sl user_id q tok spam =>
    let '(s', r) := messages_list (fst sl) user_id q tok spam in
    ((s', (snd sl ++ [ListCall user_id q tok spam])%list), r);
  threads_list := fun sl user_id q tok =>
    let '(s', r) := threads_list (fst sl) user_id q tok in
    ((s', (snd sl ++ [ThreadsCall user_id q tok])%list), r);
  messages_get := fun sl user_id id =>
    let '(s', r) := messages_get (fst sl) user_id id in
    ((s', (snd sl ++ [GetCall user_id id])%list), r)
|}.

(** The cursors sent while the responses [rs] come in: the one given
    first, then the cursor of each response but the last. *)
Fixpoint cursors (tok : option string) (rs : list ListResponse)
  : list (option string) :=
  match rs with
  | [] => []
  | r :: rest => tok :: cursors (resp_nextPageToken r) rest
  end.

Fixpoint thread_cursors (tok : option string) (rs : list ThreadsResponse)
  : list (option string) :=
  match rs with
  | [] => []
  | r :: rest => tok :: thread_cursors (threads_nextPageToken r) rest
  end.

Definition stub_ids (stubs : list Stub) : list string :=
  flat_map (fun st => match stub_id st with
                      | Some id => [id]
                      | None => []
                      end) stubs.

(** The calls of a details run: for each page its listing call, then one
    fetch per stub of the page. *)
Fixpoint detail_calls (user_id q : string) (tok : option string)
  (rs : list ListResponse) : list Call :=
  match rs with
  | [] => []
  | r :: rest =>
      (ListCall user_id q tok false
       :: map (GetCall user_id) (stub_ids (page_stubs r))
       ++ detail_calls user_id q (resp_nextPageToken r) rest)%list
  end.

(** The three shapes a handler's response can have. *)
Definition counts_or_error (r : response) : Prop :=
  (exists sent received date_range,
      r = (CountsBody sent received date_range, 200))
  \/ (exists text, r = (ErrorBody text, 400))
  \/ (exists text, r = (ErrorBody text, 500)).

Definition details_or_error (r : response) : Prop :=
  (exists email_details, r = (DetailsBody email_details, 200))
  \/ (exists text, r = (ErrorBody text, 400))
  \/ (exists text, r = (ErrorBody text, 500)).

(* ===================================================================== *)
(** ** Further vocabulary: the provider's encoding of a body               *)
(* ===================================================================== *)

(** The URL-safe alphabet of RFC 4648, section 5. *)
Definition b64url_char (v : Z) : ascii :=
  if v <? 26 then ascii_of_N (Z.to_N (65 + v))
  else if v <? 52 then ascii_of_N (Z.to_N (97 + (v - 26)))
  else if v <? 62 then ascii_of_N (Z.to_N (48 + (v - 52)))
  else if v =? 62 then "-"%char
  else "_"%char.

(** The base64url text of a byte string: three bytes give four
    characters; one or two bytes left over give two or three characters,
    completed to four with [=] when [padding] is set. *)
Fixpoint b64url_encode (padding : bool) (data : string) : string :=
  match data with
  | EmptyString => EmptyString
  | String a EmptyString =>
      String (b64url_char (Z.shiftr (code a) 2))
        (String (b64url_char (Z.shiftl (Z.land (code a) 3) 4))
           (if padding then "==" else ""))
  | String a (String b EmptyString) =>
      String (b64url_char (Z.shiftr (code a) 2))
        (String (b64url_char (Z.lor (Z.shiftl (Z.land (code a) 3) 4)
                                (Z.shiftr (code b) 4)))
           (String (b64url_char (Z.shiftl (Z.land (code b) 15) 2))
              (if padding then "=" else "")))
  | String a (String b (String c rest)) =>
      String (b64url_char (Z.shiftr (code a) 2))
        (String (b64url_char (Z.lor (Z.shiftl (Z.land (code a) 3) 4)
                                (Z.shiftr (code b) 4)))
           (String (b64url_char (Z.lor (Z.shiftl (Z.land (code b) 15) 2)
                                   (Z.shiftr (code c) 6)))
              (String (b64url_char (Z.land (code c) 63))
                 (b64url_encode padding rest))))
  end.

(** Checks over all sextets and over all pairs of bytes. *)
Definition below (n : nat) : list Z := map Z.of_nat (seq 0 n).

Definition translated (c : ascii) : ascii :=
  if Ascii.eqb c "-" then "+"%char
  else if Ascii.eqb c "_" then "/"%char else c.

Definition sextet_ok (v : Z) : bool :=
  negb (Ascii.eqb (translated (b64url_char v)) "=")
  && match table_a2b_base64 (translated (b64url_char v)) with
     | Some w => w =? v
     | None => false
     end
  && (code (b64url_char v) <? 128).

Definition is_sextet (v : Z) : bool := (0 <=? v) && (v <? 64).

Definition pair_ok (a b : Z) : bool :=
  let v0 := Z.shiftr a 2 in
  let v1 := Z.lor (Z.shiftl (Z.land a 3) 4) (Z.shiftr b 4) in
  let v2 := Z.lor (Z.shiftl (Z.land a 15) 2) (Z.shiftr b 6) in
  let v3 := Z.land b 63 in
  is_sextet v0 && is_sextet v1 && is_sextet v2 && is_sextet v3
  && is_sextet (Z.shiftl (Z.land a 3) 4)
  && is_sextet (Z.shiftl (Z.land a 15) 2)
  (* first byte of a group, from bytes 1 and 2 *)
  && (Z.land (Z.lor (Z.shiftl v0 2) (Z.shiftr v1 4)) 255 =? a)
  && (Z.land v1 15 =? Z.shiftr b 4)
  (* second and third byte, from bytes 2 and 3 *)
  && (Z.land (Z.lor (Z.shiftl (Z.shiftr a 4) 4) (Z.shiftr v2 2)) 255 =? a)
  && (Z.land (Z.lor (Z.shiftl (Z.land v2 3) 6) v3) 255 =? b)
  (* a last group of one or two bytes *)
  && (Z.land (Z.lor (Z.shiftl v0 2)
                (Z.shiftr (Z.shiftl (Z.land a 3) 4) 4)) 255 =? a)
  && (Z.land (Z.lor (Z.shiftl (Z.shiftr a 4) 4)
                (Z.shiftr (Z.shiftl (Z.land a 15) 2) 2)) 255 =? a).

(** A plain-text part whose data is [hi] without its padding. *)
Definition unpadded_message : Message :=
  mkMessage (Some (mkPayload (Some hi_headers)
                     (Some [mkPart (Some "text/plain")
                              (Some (mkPartBody (Some "aGk")))]))).

(** The listing of [three_sent] when the second message is that one. *)
Definition second_unpadded : Script :=
  mkScript
    [ret (mkListResponse (Some [mkStub (Some "m1"); mkStub (Some "m2")])
            (Some "page-2"));
     ret (mkListResponse (Some [mkStub (Some "m3")]) None)]
    []
    [("m1", ret hi_message); ("m2", ret unpadded_message);
     ("m3", ret hi_message)].

(* ===================================================================== *)
(** ** Further vocabulary: texts without spaces                            *)
(* ===================================================================== *)

Fixpoint spaceless (s : string) : bool :=
  match s with
  | EmptyString => true
  | String c rest => negb (Ascii.eqb c " ") && spaceless rest
  end.

(* ===================================================================== *)
(** ** [app.py]: saving addresses to a file                                *)
(* ===================================================================== *)

Definition dquote : ascii := "034"%char.
Definition newline : ascii := "010"%char.

(** [f'email = "{email}"'], line 239 *)
Definition email_line (email : string) : string :=
  "email = " ++ String dquote (email ++ String dquote "").

(** [sep.join(items)] *)
Fixpoint join (sep : string) (items : list string) : string :=
  match items with
  | [] => ""
  | x :: rest =>
      match rest with
      | [] => x
      | _ :: _ => x ++ sep ++ join sep rest
      end
  end.

(** The text written to the file, line 239. *)
Definition saved_text (emails : list string) : string :=
  join (String newline "") (map email_line emails).

(** The file system as the handler uses it: [write_text] is
    [with open(path, 'w') as file: file.write(text)] and returns the
    next state with the [str] of the exception if one was raised;
    [read_text] is the content of a file, to say what a write left. *)
Class FileSystem (FS : Type) : Type := {
  write_text : FS -> string -> string -> FS * (string + unit);
  read_text : FS -> string -> option string
}.

(** The JSON object of the request body, read with
    [data.get('emails', [])]. *)
Record SaveRequest : Type := mkSaveRequest {
  json_emails : option (list string)
}.

Inductive save_body : Type :=
| MessageBody (message : string)
| SaveErrorBody (error : string).

(** [save_emails_to_file], lines 232-247. *)
Definition save_emails_to_file {FS : Type} `{FileSystem FS}
  (data : SaveRequest) (fs : FS) : FS * (save_body * Z) :=
  let emails := get_default (json_emails data) [] in
  let email_data := saved_text emails in
  match write_text fs "emails.txt" email_data with
  | (fs', inr _) => (fs', (MessageBody "Emails saved to file successfully", 200))
  | (fs', inl e) => (fs', (SaveErrorBody ("Failed to save emails: " ++ e), 500))
  end.

(** *** Reading the file back *)

(** [s.split(sep)] for a separator of one character. *)
Fixpoint split_on (sep : ascii) (s : string) : list string :=
  match s with
  | EmptyString => [EmptyString]
  | String c rest =>
      if Ascii.eqb c sep then EmptyString :: split_on sep rest
      else
        match split_on sep rest with
        | w :: ws => String c w :: ws
        | [] => [String c EmptyString]
        end
  end.

Fixpoint free_of (sep : ascii) (s : string) : bool :=
  match s with
  | EmptyString => true
  | String c rest => negb (Ascii.eqb c sep) && free_of sep rest
  end.

(** The text before a closing quote that ends the line. *)
Fixpoint before_last_quote (s : string) : option string :=
  match s with
  | EmptyString => None
  | String c rest =>
      match rest with
      | EmptyString => if Ascii.eqb c dquote then Some EmptyString else None
      | String _ _ => option_map (String c) (before_last_quote rest)
      end
  end.

(** The address of a line [email = "..."]. *)
Definition address_of_line (line : string) : option string :=
  match line with
  | String "e" (String "m" (String "a" (String "i" (String "l"
      (String " " (String "=" (String " " (String q rest)))))))) =>
      if Ascii.eqb q dquote then before_last_quote rest else None
  | _ => None
  end.

Fixpoint all_some {A} (l : list (option A)) : option (list A) :=
  match l with
  | [] => Some []
  | None :: _ => None
  | Some x :: rest => option_map (cons x) (all_some rest)
  end.

(** The addresses of a saved file, line by line; an empty file holds
    none. *)
Definition saved_emails (text : string) : option (list string) :=
  match text with
  | EmptyString => Some []
  | _ => all_some (map address_of_line (split_on newline text))
  end.

(** A disk in memory: its files, and the paths that refuse a write. *)
Record Disk : Type := mkDisk {
  files : list (string * string);
  locked : list string
}.

Fixpoint lookup_file (path : string) (fs : list (string * string))
  : option string :=
  match fs with
  | [] => None
  | (p, text) :: rest =>
      if String.eqb p path then Some text else lookup_file path rest
  end.

Definition in_memory : FileSystem Disk := {|
  write_text := fun d path text =>
    if existsb (String.eqb path) (locked d)
    then (d, inl "[Errno 13] Permission denied")
    else (mkDisk ((path, text) :: files d) (locked d), inr tt);
  read_text := fun d path => lookup_file path (files d)
|}.

(* ===================================================================== *)
(** ** Further vocabulary: the pages before a failure                      *)
(* ===================================================================== *)

Section Listed.
Context {Svc : Type} `{Provider Svc}.
Variables user_id query : string.

(** [listed n s tok s' tok']: from state [s] and cursor [tok], [n]
    listing calls are answered with a cursor, the last of which is
    [tok'], and leave the provider in [s']. *)
Inductive listed
  : nat -> Svc -> option string -> Svc -> option string -> Prop :=
| listed_zero s tok : listed O s tok s tok
| listed_succ n s tok s1 r s' tok' :
    messages_list s user_id query tok false = (s1, inr r) ->
    truthy (resp_nextPageToken r) = true ->
    listed n s1 (resp_nextPageToken r) s' tok' ->
    listed (S n) s tok s' tok'.

End Listed.

(** Sent mail on two pages, then a received listing whose second call
    fails. *)
Definition received_listing_fails : Script :=
  mkScript
    [ret (mkListResponse (Some (stubs_upto 50)) (Some "page-2"));
     ret (mkListResponse (Some (stubs_upto 13)) None);
     ret (mkListResponse (Some (stubs_upto 7)) (Some "next"));
     raise (ClientError "HttpError" false "429 rate limit exceeded")]
    [] [].

(** A listing whose second entry has no ['id']. *)
Definition second_without_id : Script :=
  mkScript
    [ret (mkListResponse (Some [mkStub (Some "m1"); mkStub None]) None)]
    []
    [("m1", ret hi_message)].

(** A listing whose second page cannot be listed. *)
Definition second_page_fails : Script :=
  mkScript
    [ret (mkListResponse (Some [mkStub (Some "m1")]) (Some "page-2"));
     raise (ClientError "JSONDecodeError" true "Expecting value")]
    []
    [("m1", ret hi_message)].

(* ===================================================================== *)
(** ** Further vocabulary: the dates [strptime] reads                      *)
(* ===================================================================== *)

(** A date written as three fields separated by dashes.  The year has
    exactly four digits.  The month has two digits with a value from 1 to
    12, or one digit from 1 to 9.  The day has two digits with a value
    from 1 to 31, or one digit from 1 to 9, or a space and one digit from
    1 to 9.  The three numbers name a day of the calendar. *)
Definition digit_value (c : ascii) : Z := code c - 48.

Definition year_field (t : string) : option Z :=
  match t with
  | String y1 (String y2 (String y3 (String y4 EmptyString))) =>
      if forallb is_digit [y1; y2; y3; y4]
      then Some (1000 * digit_value y1 + 100 * digit_value y2
                 + 10 * digit_value y3 + digit_value y4)
      else None
  | _ => None
  end.

Definition month_field (t : string) : option Z :=
  match t with
  | String m1 EmptyString =>
      if is_digit m1 && (1 <=? digit_value m1)
      then Some (digit_value m1) else None
  | String m1 (String m2 EmptyString) =>
      let m := 10 * digit_value m1 + digit_value m2 in
      if is_digit m1 && is_digit m2 && (1 <=? m) && (m <=? 12)
      then Some m else None
  | _ => None
  end.

Definition day_field (t : string) : option Z :=
  match t with
  | String d1 EmptyString =>
      if is_digit d1 && (1 <=? digit_value d1)
      then Some (digit_value d1) else None
  | String d1 (String d2 EmptyString) =>
      if Ascii.eqb d1 " " then
        if is_digit d2 && (1 <=? digit_value d2)
        then Some (digit_value d2) else None
      else
        let d := 10 * digit_value d1 + digit_value d2 in
        if is_digit d1 && is_digit d2 && (1 <=? d) && (d <=? 31)
        then Some d else None
  | _ => None
  end.

Definition spec_parse_fields (s : string) : option date :=
  match split_on "-" s with
  | [year_text; month_text; day_text] =>
      match year_field year_text, month_field month_text,
            day_field day_text with
      | Some y, Some m, Some d =>
          if check_date_args y m d then Some (mkdate y m d) else None
      | _, _, _ => None
      end
  | _ => None
  end.

(** A platform whose table of decimal digits has the Arabic-Indic digits
    U+0660 to U+0669 (the bytes D9 A0 to D9 A9) beside the ASCII ones. *)
Definition arabic_indic_platform : Platform := {|
  unicode_digit := fun s =>
    match s with
    | String b0 (String b1 rest) =>
        if (code b0 =? 217) && (160 <=? code b1) && (code b1 <=? 169)
        then Some (code b1 - 160, rest) else None
    | _ => None
    end;
  libc_year := fun y => decimal y;
  utf8_error_text := fun _ => "'utf-8' codec can't decode bytes"
|}.

(** 2024-01-01 with the year in Arabic-Indic digits. *)
Definition arabic_indic_new_year : string :=
  String "217" (String "162" (String "217" (String "160"
    (String "217" (String "162" (String "217" (String "164"
      "-01-01"))))))).

(* ===================================================================== *)
(** ** Further vocabulary: UTF-8                                           *)
(* ===================================================================== *)

(** A Unicode scalar value: a code point up to U+10FFFF that is not a
    surrogate. *)
Definition scalar_value (cp : Z) : bool :=
  (0 <=? cp) && (cp <=? 1114111)
  && negb ((55296 <=? cp) && (cp <=? 57343)).

(** The UTF-8 bytes of a code point (RFC 3629, section 3): one byte below
    U+0080, two below U+0800, three below U+10000, four from there. *)
Definition utf8_encode_cp (cp : Z) : string :=
  let tail (n : Z) := byte_of (Z.lor 128 (Z.land (Z.shiftr cp n) 63)) in
  if cp <? 128 then String (byte_of cp) ""
  else if cp <? 2048 then
    String (byte_of (Z.lor 192 (Z.shiftr cp 6))) (String (tail 0) "")
  else if cp <? 65536 then
    String (byte_of (Z.lor 224 (Z.shiftr cp 12)))
      (String (tail 6) (String (tail 0) ""))
  else
    String (byte_of (Z.lor 240 (Z.shiftr cp 18)))
      (String (tail 12) (String (tail 6) (String (tail 0) ""))).

Fixpoint utf8_encode (cps : list Z) : string :=
  match cps with
  | [] => ""
  | cp :: rest => utf8_encode_cp cp ++ utf8_encode rest
  end.

(** The code points of a text in UTF-8, read off the lead bytes. *)
Fixpoint code_points (s : string) : list Z :=
  match s with
  | EmptyString => []
  | String b0 s1 =>
      let c0 := code b0 in
      let low (b : ascii) := Z.land (code b) 63 in
      if c0 <? 128 then c0 :: code_points s1
      else if c0 <? 224 then
        match s1 with
        | String b1 s2 =>
            Z.lor (Z.shiftl (Z.land c0 31) 6) (low b1) :: code_points s2
        | _ => []
        end
      else if c0 <? 240 then
        match s1 with
        | String b1 (String b2 s3) =>
            Z.lor (Z.shiftl (Z.land c0 15) 12)
              (Z.lor (Z.shiftl (low b1) 6) (low b2))
            :: code_points s3
        | _ => []
        end
      else
        match s1 with
        | String b1 (String b2 (String b3 s4)) =>
            Z.lor (Z.shiftl (Z.land c0 7) 18)
              (Z.lor (Z.shiftl (low b1) 12)
                 (Z.lor (Z.shiftl (low b2) 6) (low b3)))
            :: code_points s4
        | _ => []
        end
  end.

(** A check over a range of integers, [lo], [lo + 1], ..., [n] of them. *)
Fixpoint all_from (n : nat) (lo : Z) (p : Z -> bool) : bool :=
  match n with
  | O => true
  | S n' => if p lo then all_from n' (lo + 1) p else false
  end.

(** *** Messages the body scan fails on *)

(** A first part with no ['mimeType'], then an HTML part: no part is
    [text/plain]. *)
Definition untyped_part : Part :=
  mkPart None (Some (mkPartBody (Some "aGk="))).

Definition untyped_then_html : Message :=
  mkMessage (Some (mkPayload (Some hi_headers)
                     (Some [untyped_part; html_part]))).

(** A [text/plain] part in Latin-1: the byte E9, an e with an acute
    accent, is not UTF-8. *)
Definition latin1_part : Part :=
  mkPart (Some "text/plain") (Some (mkPartBody (Some "6Q=="))).

Definition latin1_message : Message :=
  mkMessage (Some (mkPayload (Some hi_headers) (Some [latin1_part]))).

(** A payload with neither ['headers'] nor ['parts']. *)
Definition bare_payload_message : Message :=
  mkMessage (Some (mkPayload None None)).

(** A body in UTF-8 beyond ASCII: [café] and the euro sign. *)
Definition cafe_text : string :=
  utf8_encode [99; 97; 102; 233; 32; 8364].

Definition cafe_message : Message :=
  mkMessage (Some (mkPayload (Some hi_headers)
    (Some [html_part;
           mkPart (Some "text/plain")
             (Some (mkPartBody (Some (b64url_encode true cafe_text))));
           bye_part]))).
(* ===================================================================== *)
(** ** Properties of the date model                                        *)
(* ===================================================================== *)

Section DateFacts.

Lemma valid_bounds dt :
  valid dt = true ->
  1 <= year dt <= 9999 /\ 1 <= month dt <= 12
  /\ 1 <= day dt <= days_in_month (year dt) (month dt).
Proof.
  unfold valid, check_date_args, MINYEAR, MAXYEAR.
  rewrite !andb_true_iff, !Z.leb_le. lia.
Qed.

Lemma month_cases m :
  1 <= m <= 12 ->
  m = 1 \/ m = 2 \/ m = 3 \/ m = 4 \/ m = 5 \/ m = 6 \/
  m = 7 \/ m = 8 \/ m = 9 \/ m = 10 \/ m = 11 \/ m = 12.
Proof. lia. Qed.

Ltac each_month m H :=
  destruct (month_cases m H)
    as [->|[->|[->|[->|[->|[->|[->|[->|[->|[->|[->| ->]]]]]]]]]]].

Lemma days_in_month_le y m : 1 <= m <= 12 -> 28 <= days_in_month y m <= 31.
Proof.
  intros Hm. unfold days_in_month.
  each_month m Hm; destruct (is_leap y); simpl; lia.
Qed.

(** A year is 365 days long, and a leap year a day longer. *)
Lemma days_before_year_succ y :
  1 <= y ->
  days_before_year (y + 1)
  = days_before_year y + 365 + (if is_leap y then 1 else 0).
Proof.
  intros Hy. unfold days_before_year, is_leap.
  replace (y + 1 - 1) with y by lia.
  destruct (Z.rem y 4 =? 0) eqn:E4; destruct (Z.rem y 100 =? 0) eqn:E100;
    destruct (Z.rem y 400 =? 0) eqn:E400; simpl;
    rewrite ?Z.eqb_eq, ?Z.eqb_neq in *;
    Z.to_euclidean_division_equations; lia.
Qed.

Lemma days_before_month_succ y m :
  1 <= m < 12 ->
  days_before_month y (m + 1) = days_before_month y m + days_in_month y m.
Proof.
  intros Hm. unfold days_before_month, days_in_month.
  assert (Hm' : 1 <= m <= 12) by lia.
  each_month m Hm'; try lia; destruct (is_leap y); reflexivity.
Qed.

(** [tomorrow] is one day later on the day count of the proleptic
    Gregorian calendar. *)
Lemma toordinal_tomorrow dt :
  valid dt = true -> toordinal (tomorrow dt) = toordinal dt + 1.
Proof.
  intros Hv. destruct (valid_bounds dt Hv) as (Hy & Hm & Hd).
  unfold tomorrow, toordinal, ymd_to_ord.
  destruct (Z.ltb_spec (day dt) (days_in_month (year dt) (month dt))); simpl.
  - lia.
  - destruct (Z.ltb_spec (month dt) 12); simpl.
    + rewrite days_before_month_succ by lia. lia.
    + assert (Hm12 : month dt = 12) by lia.
      rewrite Hm12 in *. rewrite days_before_year_succ by lia.
      unfold days_before_month, days_in_month in *. simpl in *.
      destruct (is_leap (year dt)); simpl; lia.
Qed.

Lemma tomorrow_valid dt :
  valid dt = true -> dt <> date_max -> valid (tomorrow dt) = true.
Proof.
  intros Hv Hmax. destruct (valid_bounds dt Hv) as (Hy & Hm & Hd).
  pose proof (days_in_month_le (year dt) (month dt) Hm) as Hdim.
  unfold tomorrow.
  destruct (Z.ltb_spec (day dt) (days_in_month (year dt) (month dt))).
  - unfold valid, check_date_args, MINYEAR, MAXYEAR; simpl.
    rewrite !andb_true_iff, !Z.leb_le. lia.
  - destruct (Z.ltb_spec (month dt) 12).
    + pose proof (days_in_month_le (year dt) (month dt + 1)).
      unfold valid, check_date_args, MINYEAR, MAXYEAR; simpl.
      rewrite !andb_true_iff, !Z.leb_le. lia.
    + assert (year dt <> 9999).
      { intros Hy9. apply Hmax. destruct dt as [y m d]; simpl in *.
        assert (m = 12) by lia. subst m y.
        unfold days_in_month in *. simpl in *.
        unfold date_max. f_equal. lia. }
      unfold valid, check_date_args, MINYEAR, MAXYEAR; simpl.
      rewrite !andb_true_iff, !Z.leb_le.
      unfold days_in_month; simpl. lia.
Qed.

(** [dt + timedelta(days=1)] is [tomorrow dt], except on the last date the
    type holds, where it raises. *)
Lemma add_days_1 dt :
  valid dt = true ->
  add_days dt 1
  = if (year dt =? 9999) && (month dt =? 12) && (day dt =? 31)
    then raise (OverflowError "date value out of range")
    else ret (tomorrow dt).
Proof.
  intros Hv. destruct (valid_bounds dt Hv) as (Hy & Hm & Hd).
  pose proof (days_in_month_le (year dt) (month dt) Hm) as Hdim.
  unfold add_days, normalize_y_m_d, tomorrow, MINYEAR, MAXYEAR.
  destruct (Z.ltb_spec (day dt + 1) 1); [lia|]. cbn [orb].
  destruct (Z.ltb_spec (days_in_month (year dt) (month dt)) (day dt + 1)).
  - destruct (Z.eqb_spec (day dt + 1) 0); [lia|].
    destruct (Z.eqb_spec (day dt + 1)
                (days_in_month (year dt) (month dt) + 1)); [|lia].
    destruct (Z.ltb_spec (day dt) (days_in_month (year dt) (month dt)));
      [lia|].
    destruct (Z.ltb_spec 12 (month dt + 1)).
    + assert (Hm12 : month dt = 12) by lia.
      rewrite Hm12 in *. unfold days_in_month in *; simpl in *.
      destruct (Z.ltb_spec 12 12); [lia|].
      destruct (Z.eqb_spec (day dt) 31); [|lia].
      destruct (Z.eqb_spec (year dt) 9999) as [E|E]; simpl.
      * rewrite E. reflexivity.
      * destruct (Z.leb_spec 1 (year dt + 1)); [|lia].
        destruct (Z.leb_spec (year dt + 1) 9999); [|lia]. reflexivity.
    + destruct (Z.ltb_spec (month dt) 12); [|lia].
      destruct (Z.eqb_spec (month dt) 12); [lia|].
      rewrite andb_false_r. simpl.
      destruct (Z.leb_spec 1 (year dt)); [|lia].
      destruct (Z.leb_spec (year dt) 9999); [|lia]. reflexivity.
  - destruct (Z.ltb_spec (day dt) (days_in_month (year dt) (month dt)));
      [|lia].
    destruct (Z.leb_spec 1 (year dt)); [|lia].
    destruct (Z.leb_spec (year dt) 9999); [|lia]. simpl.
    destruct (Z.eqb_spec (day dt) 31); [|now rewrite andb_false_r].
    destruct (Z.eqb_spec (month dt) 12);
      [|now rewrite andb_false_r].
    exfalso. rewrite e0 in *. unfold days_in_month in *; simpl in *. lia.
Qed.

Lemma is_date_max dt :
  (year dt =? 9999) && (month dt =? 12) && (day dt =? 31) = true
  <-> dt = date_max.
Proof.
  rewrite !andb_true_iff, !Z.eqb_eq. unfold date_max. split.
  - intros [[? ?] ?]. destruct dt; simpl in *; congruence.
  - intros ->. simpl. auto.
Qed.

End DateFacts.

(* ===================================================================== *)
(** ** The date range compiler                                             *)
(* ===================================================================== *)

Section DateRangeFacts.
Context `{Platform}.

Lemma strptime_Ymd_valid s dt : strptime_Ymd s = inr dt -> valid dt = true.
Proof.
  unfold strptime_Ymd.
  destruct (re_Ymd s) as [|[[[y m] d] [|c rest]] tl]; try discriminate.
  destruct (check_date_args y m d) eqn:E; try discriminate.
  intros [= <-]. exact E.
Qed.

Lemma strptime_Ymd_raises s e :
  strptime_Ymd s = inl e -> isinstance_ValueError e = true.
Proof.
  unfold strptime_Ymd.
  destruct (re_Ymd s) as [|[[[y m] d] [|c rest]] tl];
    try destruct (check_date_args y m d); intros [= <-]; reflexivity.
Qed.

(** The outcome of [build_date_query] by cases on the two parses. *)
Lemma build_date_query_cases start_s end_s :
  build_date_query start_s end_s
  = match strptime_Ymd start_s, strptime_Ymd end_s with
    | inr start_dt, inr end_dt =>
        if date_ltb end_dt start_dt
        then inl (ValueError "End date must be on or after start date")
        else if (year end_dt =? 9999) && (month end_dt =? 12)
                && (day end_dt =? 31)
        then inl (OverflowError "date value out of range")
        else inr ("after:" ++ strftime_Ymd start_dt
                  ++ " before:" ++ strftime_Ymd (tomorrow end_dt))
    | _, _ => inl (ValueError "Dates must be in YYYY-MM-DD format")
    end.
Proof.
  unfold build_date_query.
  destruct (strptime_Ymd start_s) as [e|start_dt] eqn:Es; simpl.
  - rewrite (strptime_Ymd_raises _ _ Es). reflexivity.
  - destruct (strptime_Ymd end_s) as [e|end_dt] eqn:Ee; simpl.
    + rewrite (strptime_Ymd_raises _ _ Ee). reflexivity.
    + destruct (date_ltb end_dt start_dt); [reflexivity|].
      rewrite (add_days_1 end_dt (strptime_Ymd_valid _ _ Ee)).
      destruct ((year end_dt =? 9999) && (month end_dt =? 12)
                && (day end_dt =? 31)); reflexivity.
Qed.

Lemma strftime_Ymd_four_digits dt :
  1000 <= year dt ->
  strftime_Ymd dt
  = zpad4 (year dt) ++ "/" ++ zpad2 (month dt) ++ "/" ++ zpad2 (day dt).
Proof.
  intros Hy. unfold strftime_Ymd, strftime_Y.
  destruct (Z.leb_spec 1000 (year dt)); [reflexivity|lia].
Qed.

(** *** The exact form is accepted *)








End DateRangeFacts.

(** C1 (as amended).  For input strings that parse as calendar dates with
    start <= end, and an end date before 9999-12-31, [build_date_query]
    returns exactly [after:S before:E], where S is the start date and E
    the day after the end date (one more on the day count), both printed
    by [%Y/%m/%d]: four digits, a slash, two digits, a slash, two digits
    whenever the year has four digits. *)
Theorem build_date_query_after_before `{Platform}
  (start_s end_s : string) (start_dt end_dt : date) :
  strptime_Ymd start_s = inr start_dt ->
  strptime_Ymd end_s = inr end_dt ->
  date_ltb end_dt start_dt = false ->
  end_dt <> date_max ->
  build_date_query start_s end_s
  = inr ("after:" ++ strftime_Ymd start_dt
         ++ " before:" ++ strftime_Ymd (tomorrow end_dt))
  /\ toordinal (tomorrow end_dt) = toordinal end_dt + 1
  /\ valid (tomorrow end_dt) = true
  /\ (1000 <= year start_dt ->
      strftime_Ymd start_dt
      = zpad4 (year start_dt) ++ "/" ++ zpad2 (month start_dt)
        ++ "/" ++ zpad2 (day start_dt))
  /\ (1000 <= year end_dt ->
      strftime_Ymd (tomorrow end_dt)
      = zpad4 (year (tomorrow end_dt)) ++ "/"
        ++ zpad2 (month (tomorrow end_dt)) ++ "/"
        ++ zpad2 (day (tomorrow end_dt))).
Proof.
  intros Hs He Hle Hmax.
  pose proof (strptime_Ymd_valid _ _ He) as Hv.
  repeat split.
  - rewrite build_date_query_cases, Hs, He, Hle.
    destruct ((year end_dt =? 9999) && (month end_dt =? 12)
              && (day end_dt =? 31)) eqn:E; [|reflexivity].
    apply is_date_max in E. contradiction.
  - apply toordinal_tomorrow, Hv.
  - apply tomorrow_valid; assumption.
  - apply strftime_Ymd_four_digits.
  - intros Hy. apply strftime_Ymd_four_digits.
    unfold tomorrow.
    destruct (day end_dt <? days_in_month (year end_dt) (month end_dt));
      [simpl; lia|].
    destruct (month end_dt <? 12); simpl; lia.
Qed.

(** The scenario of the specification: 2024-01-01 to 2024-01-31. *)
Lemma build_date_query_after_before_witness :
  @build_date_query sample_platform "2024-01-01" "2024-01-31"
  = inr "after:2024/01/01 before:2024/02/01".
Proof.
  destruct (@build_date_query_after_before sample_platform
              "2024-01-01" "2024-01-31"
              (mkdate 2024 1 1) (mkdate 2024 1 31)) as (Hq & _).
  - reflexivity.
  - reflexivity.
  - reflexivity.
  - discriminate.
  - exact Hq.
Defined.

(** C1 as stated fails on the last day of the calendar: both strings
    parse, start <= end, and the addition of one day raises. *)
Lemma build_date_query_last_day_overflows :
  @strptime_Ymd sample_platform "2024-01-01" = inr (mkdate 2024 1 1)
  /\ @strptime_Ymd sample_platform "9999-12-31" = inr (mkdate 9999 12 31)
  /\ date_ltb (mkdate 9999 12 31) (mkdate 2024 1 1) = false
  /\ @build_date_query sample_platform "2024-01-01" "9999-12-31"
     = inl (OverflowError "date value out of range").
Proof. repeat split; reflexivity. Qed.




(* ===================================================================== *)
(** ** The record of one message                                           *)
(* ===================================================================== *)

Section ExtractionFacts.
Context `{Platform}.

Lemma last_default_irrelevant {A} (a : A) l d d' :
  last (a :: l) d = last (a :: l) d'.
Proof.
  revert a. induction l as [|b l IH]; intros a; [reflexivity|].
  change (last (b :: l) d = last (b :: l) d'). apply IH.
Qed.

Lemma last_cons {A} (a : A) l d : last (a :: l) d = last l a.
Proof.
  destruct l as [|b l]; [reflexivity|].
  change (last (b :: l) d = last (b :: l) a). apply last_default_irrelevant.
Qed.

(** What the header loop leaves in the dictionary: for each of the three
    names the value of its last occurrence, or what was there before. *)
Lemma for_header_in_last headers :
  forall d0 d,
    for_header_in headers d0 = inr d ->
    field_to d = last (map Some (occurrences "To" headers)) (field_to d0)
    /\ field_subject d
       = last (map Some (occurrences "Subject" headers)) (field_subject d0)
    /\ field_date d
       = last (map Some (occurrences "Date" headers)) (field_date d0)
    /\ field_message d = field_message d0.
Proof.
  induction headers as [|h rest IH]; intros d0 d.
  - intros [= <-]. simpl. auto.
  - cbn [for_header_in]. unfold occurrences, header_is.
    cbn [flat_map].
    destruct (header_name h) as [name|]; [|discriminate].
    cbn [getitem bind].
    destruct (String.eqb name "To") eqn:ETo.
    { apply String.eqb_eq in ETo. subst name.
      destruct (header_value h) as [v|]; [|discriminate].
      cbn [getitem bind]. intros Hrest.
      destruct (IH _ _ Hrest) as (Ht & Hs & Hd & Hm).
      cbn [String.eqb Ascii.eqb Bool.eqb app map] in *.
      rewrite last_cons. auto. }
    destruct (String.eqb name "Subject") eqn:ESu.
    { apply String.eqb_eq in ESu. subst name.
      destruct (header_value h) as [v|]; [|discriminate].
      cbn [getitem bind]. intros Hrest.
      destruct (IH _ _ Hrest) as (Ht & Hs & Hd & Hm).
      cbn [String.eqb Ascii.eqb Bool.eqb app map] in *.
      rewrite last_cons. auto. }
    destruct (String.eqb name "Date") eqn:EDa.
    { apply String.eqb_eq in EDa. subst name.
      destruct (header_value h) as [v|]; [|discriminate].
      cbn [getitem bind]. intros Hrest.
      destruct (IH _ _ Hrest) as (Ht & Hs & Hd & Hm).
      cbn [String.eqb Ascii.eqb Bool.eqb app map] in *.
      rewrite last_cons. auto. }
    intros Hrest. cbn [app]. apply (IH _ _ Hrest).
Qed.

(** The header loop raises nothing but [KeyError]. *)
Lemma for_header_in_raises headers :
  forall d0 e, for_header_in headers d0 = inl e -> exists k, e = KeyError k.
Proof.
  induction headers as [|h rest IH]; intros d0 e; [discriminate|].
  cbn [for_header_in].
  destruct (header_name h) as [name|]; cbn [getitem bind];
    [|intros [= <-]; eauto].
  destruct (String.eqb name "To");
    [destruct (header_value h); cbn [getitem bind];
     [apply IH | intros [= <-]; eauto]|].
  destruct (String.eqb name "Subject");
    [destruct (header_value h); cbn [getitem bind];
     [apply IH | intros [= <-]; eauto]|].
  destruct (String.eqb name "Date");
    [destruct (header_value h); cbn [getitem bind];
     [apply IH | intros [= <-]; eauto]|].
  apply IH.
Qed.

(** The part loop sets nothing but the body. *)
Lemma for_part_in_fields parts :
  forall d0 d,
    for_part_in parts d0 = inr d ->
    field_to d = field_to d0 /\ field_subject d = field_subject d0
    /\ field_date d = field_date d0.
Proof.
  induction parts as [|p rest IH]; intros d0 d.
  - intros [= <-]. auto.
  - cbn [for_part_in].
    destruct (part_mimeType p) as [m|]; [|discriminate].
    cbn [getitem bind].
    destruct (String.eqb m "text/plain"); [|apply IH].
    destruct (part_body p) as [b|]; [|discriminate]. cbn [getitem bind].
    destruct (body_data b) as [data|]; [|discriminate]. cbn [getitem bind].
    destruct (urlsafe_b64decode data) as [e|bytes]; [discriminate|].
    cbn [bind].
    destruct (decode_utf8 bytes) as [e|text]; [discriminate|].
    cbn [bind]. intros [= <-]. auto.
Qed.

(** Parts of another declared type are passed over. *)
Lemma for_part_in_skip before rest d0 :
  (forall p, In p before -> other_type p) ->
  for_part_in (before ++ rest) d0 = for_part_in rest d0.
Proof.
  induction before as [|p before IH]; intros Hother; [reflexivity|].
  cbn [app for_part_in].
  destruct (Hother p (or_introl eq_refl)) as (m & Hm & Hne).
  rewrite Hm. cbn [getitem bind]. rewrite Hne. apply IH. intros q Hq. apply Hother. now right.
Qed.

(** Parts that are not [text/plain] are passed over, or one of them has
    no MIME type at all. *)
Lemma for_part_in_not_plain before rest d0 :
  (forall p, In p before -> is_text_plain p = false) ->
  (exists k, for_part_in (before ++ rest) d0 = inl (KeyError k))
  \/ for_part_in (before ++ rest) d0 = for_part_in rest d0.
Proof.
  induction before as [|p before IH]; intros Hnot; [now right|].
  cbn [app for_part_in].
  pose proof (Hnot p (or_introl eq_refl)) as Hp. unfold is_text_plain in Hp.
  destruct (part_mimeType p) as [m|]; cbn [getitem bind]; [|left; eauto].
  rewrite Hp. apply IH. intros q Hq. apply Hnot. now right.
Qed.

Lemma extract_email_data_unfold message payload headers :
  message_payload message = Some payload ->
  payload_headers payload = Some headers ->
  extract_email_data message
  = bind (for_header_in headers empty_email_data)
      (fun email_data =>
         match payload_parts payload with
         | Some parts => for_part_in parts email_data
         | None => ret email_data
         end).
Proof. intros Hp Hh. unfold extract_email_data. rewrite Hp. simpl. rewrite Hh. reflexivity. Qed.

(** A message that lacks one of the keys raises [KeyError]. *)
Lemma extract_email_data_lacks_key message :
  lacks_key message ->
  exists k, extract_email_data message = inl (KeyError k).
Proof.
  intros [ | parts | headers before part after Hbefore Hpart Hdata].
  - exists "payload". reflexivity.
  - exists "headers". reflexivity.
  - unfold extract_email_data. cbn [message_payload getitem bind].
    cbn [payload_headers payload_parts].
    destruct headers as [headers|]; cbn [getitem bind]; [|eauto].
    destruct (for_header_in headers empty_email_data) as [e|d0] eqn:Hh.
    + destruct (for_header_in_raises _ _ _ Hh) as [k ->]. cbn [bind]. eauto.
    + cbn [bind].
      destruct (for_part_in_not_plain before (part :: after) d0 Hbefore)
        as [Hk | ->]; [exact Hk|].
      cbn [for_part_in]. unfold is_text_plain in Hpart.
      destruct (part_mimeType part) as [m|]; [|discriminate].
      cbn [getitem bind]. rewrite Hpart.
      destruct Hdata as [-> | ->]; cbn [getitem bind body_data]; eauto.
Qed.

End ExtractionFacts.

(** C3 (as amended).  When a message's header list has more than one
    header named exactly [To], [Subject] or [Date] (the match is on the
    exact name, letter case included), the record holds the value of the
    LAST occurrence of each: the loop has no [break] and a later header
    overwrites an earlier one. *)
Theorem extract_email_data_last_header `{Platform}
  (message : Message) (payload : Payload) (headers : list Header)
  (record : EmailData) :
  message_payload message = Some payload ->
  payload_headers payload = Some headers ->
  extract_email_data message = inr record ->
  field_to record = last_occurrence "To" headers
  /\ field_subject record = last_occurrence "Subject" headers
  /\ field_date record = last_occurrence "Date" headers.
Proof.
  intros Hp Hh. rewrite (extract_email_data_unfold _ _ _ Hp Hh).
  destruct (for_header_in headers empty_email_data) as [e|d0] eqn:Hd0;
    [discriminate|].
  cbn [bind]. intros Hparts.
  destruct (for_header_in_last _ _ _ Hd0) as (Ht & Hs & Hd & _).
  assert (Hsame : field_to record = field_to d0
                  /\ field_subject record = field_subject d0
                  /\ field_date record = field_date d0).
  { destruct (payload_parts payload) as [parts|].
    - apply (for_part_in_fields _ _ _ Hparts).
    - injection Hparts as <-. auto. }
  destruct Hsame as (-> & -> & ->). unfold last_occurrence. auto.
Qed.

Lemma extract_email_data_last_header_witness :
  @extract_email_data sample_platform two_recipients
  = inr (mkEmailData (Some "second@x") None None None)
  /\ Some "second@x" = last_occurrence "To" two_recipients_headers
  /\ None = last_occurrence "Subject" two_recipients_headers
  /\ None = last_occurrence "Date" two_recipients_headers.
Proof.
  split; [reflexivity|].
  exact (@extract_email_data_last_header sample_platform two_recipients
           (mkPayload (Some two_recipients_headers) None)
           two_recipients_headers
           (mkEmailData (Some "second@x") None None None)
           eq_refl eq_refl eq_refl).
Defined.

(** C3 as stated fails: with two [To] headers the record holds the
    second value, not the first. *)
Lemma extract_email_data_first_header_counterexample :
  first_occurrence "To" two_recipients_headers = Some "first@x"
  /\ @extract_email_data sample_platform two_recipients
     = inr (mkEmailData (Some "second@x") None None None).
Proof. split; reflexivity. Qed.



(* ===================================================================== *)
(** ** Pagination                                                          *)
(* ===================================================================== *)

Section PaginationFacts.
Context `{Platform} {Svc : Type} `{Provider Svc}.
Variables user_id query : string.

(** One turn of a loop whose listing call is known. *)
Ltac turn Hcall :=
  cbn [count_messages_loop count_messages_by_thread_loop
       get_sent_email_details_loop];
  unfold mbind, call; rewrite Hcall; cbn beta iota zeta.

Lemma count_messages_loop_pages s tok rs s' :
  pages user_id query s tok rs s' ->
  forall bound total,
    (List.length rs <= bound)%nat ->
    count_messages_loop bound user_id query total tok s
    = Some (s', inr (total + list_sum (map page_size rs))%nat).
Proof.
  induction 1 as [s tok s' r Hcall Hlast
                 | s tok s1 r rs s' Hcall Hmore Hrest IH];
    intros bound total Hb;
    (destruct bound as [|bound]; [simpl in Hb; lia|]); turn Hcall.
  - rewrite Hlast. cbn [negb]. unfold mret. do 3 f_equal.
    unfold page_size. simpl. lia.
  - rewrite Hmore. cbn [negb]. rewrite IH by (simpl in Hb; lia).
    do 3 f_equal. unfold page_size. simpl. lia.
Qed.

Lemma count_messages_loop_running s tok rs s' :
  pages user_id query s tok rs s' ->
  forall bound total,
    (bound < List.length rs)%nat ->
    count_messages_loop bound user_id query total tok s = None.
Proof.
  induction 1 as [s tok s' r Hcall Hlast
                 | s tok s1 r rs s' Hcall Hmore Hrest IH];
    intros bound total Hb;
    (destruct bound as [|bound]; [reflexivity|]).
  - simpl in Hb. lia.
  - turn Hcall. rewrite Hmore. cbn [negb]. apply IH. simpl in Hb. lia.
Qed.

Lemma count_messages_loop_open s tok n :
  open_pages user_id query s tok n ->
  forall total, count_messages_loop n user_id query total tok s = None.
Proof.
  induction 1 as [s tok | s tok s1 r n Hcall Hmore Hrest IH]; intros total.
  - reflexivity.
  - turn Hcall. rewrite Hmore. cbn [negb]. apply IH.
Qed.

Lemma count_messages_loop_returns bound :
  forall s tok total s' t,
    count_messages_loop bound user_id query total tok s = Some (s', inr t) ->
    exists rs,
      pages user_id query s tok rs s'
      /\ (List.length rs <= bound)%nat
      /\ t = (total + list_sum (map page_size rs))%nat.
Proof.
  induction bound as [|bound IH]; intros s tok total s' t; [discriminate|].
  cbn [count_messages_loop]. unfold mbind, call.
  destruct (messages_list s user_id query tok false) as [s1 [e|r]] eqn:Hcall;
    [discriminate|].
  cbn beta iota zeta.
  destruct (truthy (resp_nextPageToken r)) eqn:Hmore; cbn [negb].
  - intros Hrest. destruct (IH _ _ _ _ _ Hrest) as (rs & Hrs & Hlen & ->).
    exists (r :: rs). split; [|split].
    + eapply pages_more; eassumption.
    + simpl. lia.
    + unfold page_size. simpl. lia.
  - intros [= <- <-]. exists [r]. split; [|split].
    + apply pages_last; assumption.
    + simpl. lia.
    + unfold page_size. simpl. lia.
Qed.

(** The same four facts for the thread-level loop. *)

Lemma count_messages_by_thread_loop_pages s tok rs s' :
  thread_pages user_id query s tok rs s' ->
  forall bound total,
    (List.length rs <= bound)%nat ->
    count_messages_by_thread_loop bound user_id query total tok s
    = Some (s', inr (total + list_sum (map thread_page_size rs))%nat).
Proof.
  induction 1 as [s tok s' r Hcall Hlast
                 | s tok s1 r rs s' Hcall Hmore Hrest IH];
    intros bound total Hb;
    (destruct bound as [|bound]; [simpl in Hb; lia|]); turn Hcall.
  - rewrite Hlast. cbn [negb]. unfold mret. do 3 f_equal.
    unfold thread_page_size. simpl. lia.
  - rewrite Hmore. cbn [negb]. rewrite IH by (simpl in Hb; lia).
    do 3 f_equal. unfold thread_page_size. simpl. lia.
Qed.

Lemma count_messages_by_thread_loop_running s tok rs s' :
  thread_pages user_id query s tok rs s' ->
  forall bound total,
    (bound < List.length rs)%nat ->
    count_messages_by_thread_loop bound user_id query total tok s = None.
Proof.
  induction 1 as [s tok s' r Hcall Hlast
                 | s tok s1 r rs s' Hcall Hmore Hrest IH];
    intros bound total Hb;
    (destruct bound as [|bound]; [reflexivity|]).
  - simpl in Hb. lia.
  - turn Hcall. rewrite Hmore. cbn [negb]. apply IH. simpl in Hb. lia.
Qed.

Lemma count_messages_by_thread_loop_open s tok n :
  open_thread_pages user_id query s tok n ->
  forall total,
    count_messages_by_thread_loop n user_id query total tok s = None.
Proof.
  induction 1 as [s tok | s tok s1 r n Hcall Hmore Hrest IH]; intros total.
  - reflexivity.
  - turn Hcall. rewrite Hmore. cbn [negb]. apply IH.
Qed.

Lemma count_messages_by_thread_loop_returns bound :
  forall s tok total s' t,
    count_messages_by_thread_loop bound user_id query total tok s
    = Some (s', inr t) ->
    exists rs,
      thread_pages user_id query s tok rs s'
      /\ (List.length rs <= bound)%nat
      /\ t = (total + list_sum (map thread_page_size rs))%nat.
Proof.
  induction bound as [|bound IH]; intros s tok total s' t; [discriminate|].
  cbn [count_messages_by_thread_loop]. unfold mbind, call.
  destruct (threads_list s user_id query tok) as [s1 [e|r]] eqn:Hcall;
    [discriminate|].
  cbn beta iota zeta.
  destruct (truthy (threads_nextPageToken r)) eqn:Hmore; cbn [negb].
  - intros Hrest. destruct (IH _ _ _ _ _ Hrest) as (rs & Hrs & Hlen & ->).
    exists (r :: rs). split; [|split].
    + eapply thread_pages_more; eassumption.
    + simpl. lia.
    + unfold thread_page_size. simpl. lia.
  - intros [= <- <-]. exists [r]. split; [|split].
    + apply thread_pages_last; assumption.
    + simpl. lia.
    + unfold thread_page_size. simpl. lia.
Qed.

End PaginationFacts.

(** C2.  When the listing calls of [count_messages] are answered by the
    responses r1..rN, each but the last with a cursor and the last with
    none, it returns the sum of the sizes of their item lists (the loop
    asks for a first page before it tests anything, so N >= 1; an empty
    result set is one response without items): 0 when every list is
    empty, 63 for two pages of 50 and 13. *)
Theorem count_messages_sums_pages {Svc : Type} `{Provider Svc}
  (user_id query : string) (s s' : Svc) (rs : list ListResponse)
  (bound : nat) :
  pages user_id query s None rs s' ->
  (List.length rs <= bound)%nat ->
  count_messages bound user_id query s
  = Some (s', inr (list_sum (map page_size rs)))
  /\ (Forall (fun r => page_size r = O) rs ->
      count_messages bound user_id query s = Some (s', inr O))
  /\ (map page_size rs = [50; 13]%nat ->
      count_messages bound user_id query s = Some (s', inr 63%nat)).
Proof.
  intros Hrs Hb.
  assert (Hsum : count_messages bound user_id query s
                 = Some (s', inr (list_sum (map page_size rs)))).
  { unfold count_messages.
    rewrite (count_messages_loop_pages _ _ _ _ _ _ Hrs) by assumption.
    reflexivity. }
  split; [exact Hsum|]. split.
  - intros Hempty. rewrite Hsum. do 3 f_equal.
    clear -Hempty. induction Hempty as [|r rs Hr _ IH]; [reflexivity|].
    simpl. rewrite Hr, IH. reflexivity.
  - intros Hsizes. rewrite Hsum, Hsizes. reflexivity.
Qed.

(** Two pages of 50 and 13 entries give 63. *)
Lemma count_messages_sums_pages_witness :
  @count_messages Script (scripted two_pages) 2 "me"
    "after:2024/01/01 before:2024/02/01 label:sent" two_pages
  = Some (mkScript [] (threads_script two_pages) [], inr 63%nat).
Proof.
  refine (proj2 (proj2
    (@count_messages_sums_pages Script (scripted two_pages) "me" _
       two_pages _
       [mkListResponse (Some (stubs_upto 50)) (Some "page-2");
        mkListResponse (Some (stubs_upto 13)) None] 2 _ _)) eq_refl).
  - eapply pages_more; [reflexivity | reflexivity |].
    apply pages_last; reflexivity.
  - apply le_n.
Defined.

(** C6.  The loops of [count_messages] and [count_messages_by_thread]
    end exactly at the first response without a cursor: when the
    responses r1..rN are as in C2 the loop has not ended after fewer than
    N calls and has ended, in the state that follows the N-th, after N;
    as long as the responses carry a cursor the loop goes on, whatever
    their number; and a loop that returned a total has seen such a
    sequence. *)
Theorem pagination_ends_at_missing_cursor {Svc : Type} `{Provider Svc}
  (user_id query : string) (s : Svc) :
  (forall rs s',
      pages user_id query s None rs s' ->
      (exists total,
          count_messages (List.length rs) user_id query s
          = Some (s', inr total))
      /\ (forall bound,
             (bound < List.length rs)%nat ->
             count_messages bound user_id query s = None))
  /\ (forall n,
         open_pages user_id query s None n ->
         count_messages n user_id query s = None)
  /\ (forall bound s' total,
         count_messages bound user_id query s = Some (s', inr total) ->
         exists rs,
           pages user_id query s None rs s'
           /\ (List.length rs <= bound)%nat)
  /\ (forall rs s',
         thread_pages user_id query s None rs s' ->
         (exists total,
             count_messages_by_thread (List.length rs) user_id query s
             = Some (s', inr total))
         /\ (forall bound,
                (bound < List.length rs)%nat ->
                count_messages_by_thread bound user_id query s = None))
  /\ (forall n,
         open_thread_pages user_id query s None n ->
         count_messages_by_thread n user_id query s = None)
  /\ (forall bound s' total,
         count_messages_by_thread bound user_id query s
         = Some (s', inr total) ->
         exists rs,
           thread_pages user_id query s None rs s'
           /\ (List.length rs <= bound)%nat).
Proof.
  unfold count_messages, count_messages_by_thread.
  split; [|split; [|split; [|split; [|split]]]].
  - intros rs s' Hrs. split.
    + eexists. apply (count_messages_loop_pages _ _ _ _ _ _ Hrs). apply le_n.
    + intros bound Hb. apply (count_messages_loop_running _ _ _ _ _ _ Hrs).
      exact Hb.
  - intros n Hn. apply (count_messages_loop_open _ _ _ _ _ Hn).
  - intros bound s' total Hret.
    destruct (count_messages_loop_returns _ _ _ _ _ _ _ _ Hret)
      as (rs & Hrs & Hlen & _). eauto.
  - intros rs s' Hrs. split.
    + eexists. apply (count_messages_by_thread_loop_pages _ _ _ _ _ _ Hrs).
      apply le_n.
    + intros bound Hb.
      apply (count_messages_by_thread_loop_running _ _ _ _ _ _ Hrs).
      exact Hb.
  - intros n Hn. apply (count_messages_by_thread_loop_open _ _ _ _ _ Hn).
  - intros bound s' total Hret.
    destruct (count_messages_by_thread_loop_returns _ _ _ _ _ _ _ _ Hret)
      as (rs & Hrs & Hlen & _). eauto.
Qed.

Lemma echoing_open_pages q tok n :
  @open_pages unit echoing "me" q tt tok n.
Proof.
  revert tok. induction n as [|n IH]; intros tok.
  - apply open_zero.
  - eapply open_succ; [reflexivity | reflexivity | apply IH].
Qed.

Lemma echoing_open_thread_pages q tok n :
  @open_thread_pages unit echoing "me" q tt tok n.
Proof.
  revert tok. induction n as [|n IH]; intros tok.
  - apply open_thread_zero.
  - eapply open_thread_succ; [reflexivity | reflexivity | apply IH].
Qed.

(** Against a provider that always sends a cursor the two loops are still
    running after 10001 calls. *)
Lemma pagination_ends_at_missing_cursor_witness :
  @count_messages unit echoing 10001 "me" "label:sent" tt = None
  /\ @count_messages_by_thread unit echoing 10001 "me" "label:sent" tt = None.
Proof.
  destruct (@pagination_ends_at_missing_cursor unit echoing
              "me" "label:sent" tt) as (_ & Hm & _ & _ & Ht & _).
  split.
  - apply Hm. apply echoing_open_pages.
  - apply Ht. apply echoing_open_thread_pages.
Defined.

(* ===================================================================== *)
(** ** The details path                                                    *)
(* ===================================================================== *)

Section DetailsFacts.
Context `{Platform} {Svc : Type} `{Provider Svc}.
Variables user_id query : string.

(** The loop over the stubs of a page never reaches a bound. *)
Lemma for_msg_in_total msgs :
  forall acc s, exists s' r, for_msg_in user_id msgs acc s = Some (s', r).
Proof.
  induction msgs as [|msg rest IH]; intros acc s;
    [eexists _, _; reflexivity|].
  cbn [for_msg_in]. unfold mbind, lift, call.
  destruct (getitem "id" (stub_id msg)) as [e|id];
    [eexists _, _; reflexivity|].
  destruct (messages_get s user_id id) as [s1 [e|message]];
    [eexists _, _; reflexivity|].
  destruct (extract_email_data message) as [e|email_data];
    [eexists _, _; reflexivity|].
  apply IH.
Qed.

(** One record is appended per stub, in the order of the stubs. *)
Lemma for_msg_in_records msgs :
  forall acc s s' acc',
    for_msg_in user_id msgs acc s = Some (s', inr acc') ->
    exists records,
      acc' = (acc ++ records)%list
      /\ Forall2 (fetched_for user_id) msgs records.
Proof.
  induction msgs as [|msg rest IH]; intros acc s s' acc'.
  - intros [= <- <-]. exists []. rewrite app_nil_r. split; constructor.
  - cbn [for_msg_in]. unfold mbind, lift, call.
    destruct (stub_id msg) as [id|] eqn:Hid; [|discriminate].
    cbn [getitem].
    destruct (messages_get s user_id id) as [s1 [e|message]] eqn:Hget;
      [discriminate|].
    destruct (extract_email_data message) as [e|email_data] eqn:Hex;
      [discriminate|].
    intros Hrest. destruct (IH _ _ _ _ Hrest) as (records & -> & Hall).
    exists (email_data :: records). split.
    + rewrite <- app_assoc. reflexivity.
    + constructor; [|exact Hall].
      exists id, s, s1, message. auto.
Qed.

(** The loop stops at the first stub whose processing raises. *)
Lemma for_msg_in_app before after :
  forall acc s,
    for_msg_in user_id (before ++ after) acc s
    = match for_msg_in user_id before acc s with
      | Some (s1, inr acc1) => for_msg_in user_id after acc1 s1
      | other => other
      end.
Proof.
  induction before as [|msg rest IH]; intros acc s; [reflexivity|].
  cbn [app for_msg_in]. unfold mbind, lift, call.
  destruct (getitem "id" (stub_id msg)) as [e|id]; [reflexivity|].
  destruct (messages_get s user_id id) as [s1 [e|message]]; [reflexivity|].
  destruct (extract_email_data message) as [e|email_data]; [reflexivity|].
  apply IH.
Qed.

Ltac details_turn Hcall :=
  cbn [get_sent_email_details_loop];
  unfold mbind at 1; unfold call at 1; rewrite Hcall; cbn beta iota zeta;
  unfold mbind at 1.

Lemma get_sent_email_details_loop_pages s tok acc rs acc' s' :
  detail_pages user_id query s tok acc rs acc' s' ->
  forall bound,
    (List.length rs <= bound)%nat ->
    get_sent_email_details_loop bound user_id query acc tok s
    = Some (s', inr acc').
Proof.
  induction 1 as [s tok acc s1 r s2 acc' Hcall Hpage Hlast
                 | s tok acc s1 r s2 acc' rs acc'' s3 Hcall Hpage Hmore
                     Hrest IH];
    intros bound Hb;
    (destruct bound as [|bound]; [simpl in Hb; lia|]);
    details_turn Hcall; fold (page_stubs r); rewrite Hpage;
    cbn beta iota zeta.
  - rewrite Hlast. reflexivity.
  - rewrite Hmore. cbn [negb]. apply IH. simpl in Hb. lia.
Qed.

Lemma detail_pages_records s tok acc rs acc' s' :
  detail_pages user_id query s tok acc rs acc' s' ->
  exists records,
    acc' = (acc ++ records)%list
    /\ Forall2 (fetched_for user_id) (flat_map page_stubs rs) records.
Proof.
  induction 1 as [s tok acc s1 r s2 acc' Hcall Hpage Hlast
                 | s tok acc s1 r s2 acc' rs acc'' s3 Hcall Hpage Hmore
                     Hrest IH].
  - destruct (for_msg_in_records _ _ _ _ _ Hpage) as (records & -> & Hall).
    exists records. cbn [flat_map]. rewrite app_nil_r. auto.
  - destruct (for_msg_in_records _ _ _ _ _ Hpage) as (records & -> & Hall).
    destruct IH as (more & -> & Hmore_all).
    exists (records ++ more)%list. cbn [flat_map]. split.
    + rewrite app_assoc. reflexivity.
    + apply Forall2_app; assumption.
Qed.

(** Pages completed with a cursor bring the loop back to its head. *)
Lemma get_sent_email_details_loop_completed n s tok acc s' tok' acc' :
  completed user_id query n s tok acc s' tok' acc' ->
  forall bound,
    get_sent_email_details_loop (n + bound) user_id query acc tok s
    = get_sent_email_details_loop bound user_id query acc' tok' s'.
Proof.
  induction 1 as [s tok acc
                 | n s tok acc s1 r s2 acc2 s' tok' acc' Hcall Hpage Hmore
                     Hrest IH];
    intros bound; [reflexivity|].
  cbn [Nat.add]. details_turn Hcall. fold (page_stubs r). rewrite Hpage.
  cbn beta iota zeta. rewrite Hmore. cbn [negb]. apply IH.
Qed.

(** An exception raised while a page is processed ends the run at once:
    the result is that exception, the state the one in which it was
    raised, and the records gathered so far are gone. *)
Lemma get_sent_email_details_aborts n s0 s tok acc s1 r s2 e bound :
  completed user_id query n s0 None [] s tok acc ->
  messages_list s user_id query tok false = (s1, inr r) ->
  for_msg_in user_id (page_stubs r) acc s1 = Some (s2, inl e) ->
  (n < bound)%nat ->
  get_sent_email_details bound user_id query s0 = Some (s2, inl e).
Proof.
  intros Hdone Hcall Hpage Hb. unfold get_sent_email_details.
  replace bound with (n + S (bound - S n))%nat by lia.
  rewrite (get_sent_email_details_loop_completed _ _ _ _ _ _ _ Hdone).
  details_turn Hcall. fold (page_stubs r). rewrite Hpage. reflexivity.
Qed.

(** A fetch that raises makes the page raise. *)
Lemma for_msg_in_fetch_raises before msg after acc s s1 acc1 id s2 e :
  for_msg_in user_id before acc s = Some (s1, inr acc1) ->
  stub_id msg = Some id ->
  messages_get s1 user_id id = (s2, inl e) ->
  for_msg_in user_id (before ++ msg :: after) acc s = Some (s2, inl e).
Proof.
  intros Hbefore Hid Hget. rewrite for_msg_in_app, Hbefore.
  cbn [for_msg_in]. unfold mbind, lift, call. rewrite Hid. cbn [getitem].
  rewrite Hget. reflexivity.
Qed.

(** A fetched message whose extraction raises makes the page raise. *)
Lemma for_msg_in_extract_raises before msg after acc s s1 acc1 id s2
  message e :
  for_msg_in user_id before acc s = Some (s1, inr acc1) ->
  stub_id msg = Some id ->
  messages_get s1 user_id id = (s2, inr message) ->
  extract_email_data message = inl e ->
  for_msg_in user_id (before ++ msg :: after) acc s = Some (s2, inl e).
Proof.
  intros Hbefore Hid Hget Hex. rewrite for_msg_in_app, Hbefore.
  cbn [for_msg_in]. unfold mbind, lift, call. rewrite Hid. cbn [getitem].
  rewrite Hget, Hex. reflexivity.
Qed.

End DetailsFacts.

(* ===================================================================== *)
(** ** The request handlers                                                *)
(* ===================================================================== *)

Section HandlerFacts.
Context `{Platform} {Svc : Type} `{Provider Svc}.

(** The response of [/sent_details] once the parameters are present, the
    connection is made and the dates compile. *)
Lemma sent_details_runs bound email start_date end_date service date_q :
  missing_parameters (Some email) (Some start_date) (Some end_date) = false ->
  connect email = inr service ->
  build_date_query start_date end_date = inr date_q ->
  sent_details bound (Some email) (Some start_date) (Some end_date)
  = match get_sent_email_details bound "me" (date_q ++ " label:sent") service
    with
    | None => None
    | Some (_, inl e) => Some (handle_exception e)
    | Some (_, inr email_details) => Some (DetailsBody email_details, 200)
    end.
Proof.
  intros Hargs Hconn Hq. unfold sent_details, try_except, arg.
  rewrite Hargs. cbn [get_default]. rewrite Hconn, Hq.
  unfold mbind at 1. unfold lift at 1. unfold mbind at 1.
  destruct (get_sent_email_details bound "me" (date_q ++ " label:sent")
              service) as [[s' [e|email_details]]|]; reflexivity.
Qed.

(** The response of [/dashboard] under the same conditions. *)
Lemma dashboard_runs bound email start_date end_date service date_q :
  missing_parameters (Some email) (Some start_date) (Some end_date) = false ->
  connect email = inr service ->
  build_date_query start_date end_date = inr date_q ->
  dashboard bound (Some email) (Some start_date) (Some end_date)
  = match count_messages bound "me" (date_q ++ " label:sent") service with
    | None => None
    | Some (_, inl e) => Some (handle_exception e)
    | Some (service', inr sent_count) =>
        match count_messages bound "me"
                (date_q ++
                 " label:inbox -label:sent -label:drafts -label:spam -label:trash -from:me")
                service' with
        | None => None
        | Some (_, inl e) => Some (handle_exception e)
        | Some (_, inr received_count) =>
            Some (CountsBody sent_count received_count
                    (start_date ++ " to " ++ end_date), 200)
        end
    end.
Proof.
  intros Hargs Hconn Hq. unfold dashboard, try_except, arg.
  rewrite Hargs. cbn [get_default]. rewrite Hconn, Hq.
  unfold mbind at 1. unfold lift at 1. unfold mbind at 1.
  destruct (count_messages bound "me" (date_q ++ " label:sent") service)
    as [[s' [e|sent_count]]|]; try reflexivity.
  unfold mbind at 1.
  destruct (count_messages bound "me" _ s')
    as [[s'' [e|received_count]]|]; reflexivity.
Qed.

Lemma handle_exception_is_error e :
  exists text status,
    handle_exception e = (ErrorBody text, status)
    /\ (status = 400 \/ status = 500).
Proof.
  unfold handle_exception.
  destruct (isinstance_ValueError e); eauto.
Qed.

End HandlerFacts.

(** C8.  When the fetch of a listed message raises during a details
    request (after any number of completed pages and of records already
    extracted on the current page), [get_sent_email_details] ends at once
    with that exception, in the state the failed call left, and the
    response of [/sent_details] is an error body with status 400 or 500:
    it is never a details body, so none of the records extracted before
    the failure is returned. *)
Theorem sent_details_aborts_on_fetch_error `{Platform} {Svc : Type}
  `{Provider Svc}
  (email start_date end_date date_q : string) (service : Svc)
  (n : nat) (s : Svc) (tok : option string) (acc : list EmailData)
  (s1 : Svc) (r : ListResponse) (before : list Stub) (msg : Stub)
  (after : list Stub) (s2 : Svc) (acc2 : list EmailData) (id : string)
  (s3 : Svc) (e : exn) (bound : nat) :
  missing_parameters (Some email) (Some start_date) (Some end_date) = false ->
  connect email = inr service ->
  build_date_query start_date end_date = inr date_q ->
  completed "me" (date_q ++ " label:sent") n service None [] s tok acc ->
  messages_list s "me" (date_q ++ " label:sent") tok false = (s1, inr r) ->
  page_stubs r = (before ++ msg :: after)%list ->
  for_msg_in "me" before acc s1 = Some (s2, inr acc2) ->
  stub_id msg = Some id ->
  messages_get s2 "me" id = (s3, inl e) ->
  (n < bound)%nat ->
  get_sent_email_details bound "me" (date_q ++ " label:sent") service
  = Some (s3, inl e)
  /\ sent_details bound (Some email) (Some start_date) (Some end_date)
     = Some (handle_exception e)
  /\ (exists text status,
         handle_exception e = (ErrorBody text, status)
         /\ (status = 400 \/ status = 500))
  /\ (forall records status,
         sent_details bound (Some email) (Some start_date) (Some end_date)
         <> Some (DetailsBody records, status)).
Proof.
  intros Hargs Hconn Hq Hdone Hcall Hstubs Hbefore Hid Hget Hb.
  assert (Hrun :
    get_sent_email_details bound "me" (date_q ++ " label:sent") service
    = Some (s3, inl e)).
  { eapply get_sent_email_details_aborts; try eassumption.
    rewrite Hstubs. eapply for_msg_in_fetch_raises; eassumption. }
  assert (Hresp :
    sent_details bound (Some email) (Some start_date) (Some end_date)
    = Some (handle_exception e)).
  { rewrite (sent_details_runs _ _ _ _ _ _ Hargs Hconn Hq), Hrun.
    reflexivity. }
  split; [exact Hrun|]. split; [exact Hresp|].
  split; [apply handle_exception_is_error|].
  intros records status. rewrite Hresp.
  destruct (handle_exception_is_error e) as (text & st & -> & _).
  discriminate.
Qed.

(** The second of three fetches fails: the response is the error, the
    record of the first message is not in it. *)
Lemma sent_details_aborts_on_fetch_error_witness :
  @sent_details sample_platform Script (scripted second_fetch_fails) 5
    (Some "user@example.com") (Some "2024-01-01") (Some "2024-01-31")
  = Some (ErrorBody "Failed to fetch Gmail data: HttpError", 500).
Proof.
  refine (proj1 (proj2
    (@sent_details_aborts_on_fetch_error sample_platform Script
       (scripted second_fetch_fails)
       "user@example.com" "2024-01-01" "2024-01-31"
       "after:2024/01/01 before:2024/02/01" second_fetch_fails
       O second_fetch_fails None []
       (mkScript (tl (list_script second_fetch_fails)) []
          (mailbox second_fetch_fails))
       (mkListResponse (Some [mkStub (Some "m1"); mkStub (Some "m2")])
          (Some "page-2"))
       [mkStub (Some "m1")] (mkStub (Some "m2")) []
       _ [hi_record] "m2" _
       (ClientError "HttpError" false "503") 5
       eq_refl eq_refl eq_refl _ eq_refl eq_refl eq_refl eq_refl eq_refl _))).
  - apply completed_zero.
  - repeat constructor.
Defined.

(** C10.  When a fetched message lacks ['payload'], or ['headers'] in its
    payload, or the ['body']['data'] of its first [text/plain] part,
    [get_sent_email_details] ends with a [KeyError] that nothing inside it
    catches, and [/sent_details] answers 500 with the error's class name;
    a payload without ['parts'] is the one absence that raises nothing. *)
Theorem sent_details_missing_key_is_500 `{Platform} {Svc : Type}
  `{Provider Svc}
  (email start_date end_date date_q : string) (service : Svc)
  (n : nat) (s : Svc) (tok : option string) (acc : list EmailData)
  (s1 : Svc) (r : ListResponse) (before : list Stub) (msg : Stub)
  (after : list Stub) (s2 : Svc) (acc2 : list EmailData) (id : string)
  (s3 : Svc) (message : Message) (bound : nat) :
  missing_parameters (Some email) (Some start_date) (Some end_date) = false ->
  connect email = inr service ->
  build_date_query start_date end_date = inr date_q ->
  completed "me" (date_q ++ " label:sent") n service None [] s tok acc ->
  messages_list s "me" (date_q ++ " label:sent") tok false = (s1, inr r) ->
  page_stubs r = (before ++ msg :: after)%list ->
  for_msg_in "me" before acc s1 = Some (s2, inr acc2) ->
  stub_id msg = Some id ->
  messages_get s2 "me" id = (s3, inr message) ->
  lacks_key message ->
  (n < bound)%nat ->
  (exists key,
      extract_email_data message = inl (KeyError key)
      /\ (message_payload message = None -> key = "payload")
      /\ (forall payload,
             message_payload message = Some payload ->
             payload_headers payload = None -> key = "headers")
      /\ get_sent_email_details bound "me" (date_q ++ " label:sent") service
         = Some (s3, inl (KeyError key)))
  /\ sent_details bound (Some email) (Some start_date) (Some end_date)
     = Some (ErrorBody "Failed to fetch Gmail data: KeyError", 500)
  /\ (forall headers record,
         for_header_in headers empty_email_data = inr record ->
         extract_email_data (mkMessage (Some (mkPayload (Some headers) None)))
         = inr record
         /\ field_message record = None).
Proof.
  intros Hargs Hconn Hq Hdone Hcall Hstubs Hbefore Hid Hget Hlacks Hb.
  destruct (extract_email_data_lacks_key message Hlacks) as [key Hkey].
  assert (Hrun :
    get_sent_email_details bound "me" (date_q ++ " label:sent") service
    = Some (s3, inl (KeyError key))).
  { eapply get_sent_email_details_aborts; try eassumption.
    rewrite Hstubs. eapply for_msg_in_extract_raises; eassumption. }
  split; [|split].
  - exists key. split; [exact Hkey|]. split; [|split; [|exact Hrun]].
    + intros Hnone. unfold extract_email_data in Hkey. rewrite Hnone in Hkey.
      cbn [getitem bind] in Hkey. congruence.
    + intros payload Hsome Hnone. unfold extract_email_data in Hkey.
      rewrite Hsome in Hkey. cbn [getitem bind] in Hkey.
      rewrite Hnone in Hkey. cbn [getitem bind] in Hkey. congruence.
  - rewrite (sent_details_runs _ _ _ _ _ _ Hargs Hconn Hq), Hrun.
    reflexivity.
  - intros headers record Hrec. unfold extract_email_data.
    cbn [message_payload payload_headers payload_parts getitem bind].
    rewrite Hrec. cbn [bind]. split; [reflexivity|].
    apply (for_header_in_last _ _ _ Hrec).
Qed.

(** The second of three messages has a plain-text part without data. *)
Lemma sent_details_missing_key_is_500_witness :
  @sent_details sample_platform Script (scripted second_lacks_data) 5
    (Some "user@example.com") (Some "2024-01-01") (Some "2024-01-31")
  = Some (ErrorBody "Failed to fetch Gmail data: KeyError", 500).
Proof.
  refine (proj1 (proj2
    (@sent_details_missing_key_is_500 sample_platform Script
       (scripted second_lacks_data)
       "user@example.com" "2024-01-01" "2024-01-31"
       "after:2024/01/01 before:2024/02/01" second_lacks_data
       O second_lacks_data None []
       (mkScript (tl (list_script second_lacks_data)) []
          (mailbox second_lacks_data))
       (mkListResponse (Some [mkStub (Some "m1"); mkStub (Some "m2")])
          (Some "page-2"))
       [mkStub (Some "m1")] (mkStub (Some "m2")) []
       _ [hi_record] "m2" _ no_data_message 5
       eq_refl eq_refl eq_refl _ eq_refl eq_refl eq_refl eq_refl eq_refl
       _ _))).
  - apply completed_zero.
  - apply (lacks_data (Some hi_headers) [html_part]
             (mkPart (Some "text/plain") (Some (mkPartBody None))) []).
    + intros p [<-|[]]. reflexivity.
    + reflexivity.
    + right. reflexivity.
  - repeat constructor.
Defined.

Lemma length_flat_map_page_stubs rs :
  List.length (flat_map page_stubs rs) = list_sum (map page_size rs).
Proof.
  induction rs as [|r rs IH]; [reflexivity|].
  cbn [flat_map map]. rewrite length_app, IH. reflexivity.
Qed.

(** C9.  For the same listing responses the details path returns as many
    records as the counting path counts: it turns the pages as the
    counting path does and appends one record per listed stub, the
    records in the order of the listing. *)
Theorem details_count_equals_message_count `{Platform} {Svc : Type}
  `{Provider Svc}
  (user_id query : string) (rs : list ListResponse)
  (counting counting' fetching fetching' : Svc)
  (records : list EmailData) (bound : nat) :
  pages user_id query counting None rs counting' ->
  detail_pages user_id query fetching None [] rs records fetching' ->
  (List.length rs <= bound)%nat ->
  exists total,
    count_messages bound user_id query counting = Some (counting', inr total)
    /\ get_sent_email_details bound user_id query fetching
       = Some (fetching', inr records)
    /\ List.length records = total
    /\ total = List.length (flat_map page_stubs rs)
    /\ Forall2 (fetched_for user_id) (flat_map page_stubs rs) records.
Proof.
  intros Hcount Hfetch Hb.
  destruct (detail_pages_records _ _ _ _ _ _ _ _ Hfetch)
    as (new & Hnew & Hall).
  cbn [app] in Hnew. subst new.
  exists (list_sum (map page_size rs)). split; [|split; [|split; [|split]]].
  - unfold count_messages.
    rewrite (count_messages_loop_pages _ _ _ _ _ _ Hcount) by assumption.
    reflexivity.
  - unfold get_sent_email_details.
    apply (get_sent_email_details_loop_pages _ _ _ _ _ _ _ _ Hfetch).
    assumption.
  - rewrite <- (Forall2_length Hall). apply length_flat_map_page_stubs.
  - symmetry. apply length_flat_map_page_stubs.
  - exact Hall.
Qed.

(** Three messages on two pages: a count of 3 and three records, in the
    order of the listing. *)
Lemma details_count_equals_message_count_witness :
  @count_messages Script (scripted three_sent) 2 "me" "label:sent" three_sent
  = Some (mkScript [] [] (mailbox three_sent), inr 3%nat)
  /\ @get_sent_email_details sample_platform Script (scripted three_sent)
       2 "me" "label:sent" three_sent
     = Some (mkScript [] [] (mailbox three_sent),
             inr [hi_record;
                  mkEmailData (Some "second@x") None None None;
                  hi_record]).
Proof.
  destruct (@details_count_equals_message_count sample_platform Script
              (scripted three_sent) "me" "label:sent"
              [mkListResponse (Some [mkStub (Some "m1"); mkStub (Some "m2")])
                 (Some "page-2");
               mkListResponse (Some [mkStub (Some "m3")]) None]
              three_sent (mkScript [] [] (mailbox three_sent))
              three_sent (mkScript [] [] (mailbox three_sent))
              [hi_record; mkEmailData (Some "second@x") None None None;
               hi_record] 2)
    as (total & Hcount & Hdetails & Hlen & _).
  - eapply pages_more; [reflexivity | reflexivity |].
    apply pages_last; reflexivity.
  - eapply detail_pages_more; [reflexivity | reflexivity | reflexivity |].
    eapply detail_pages_last; reflexivity.
  - apply le_n.
  - subst total. split; [exact Hcount | exact Hdetails].
Defined.

(* ===================================================================== *)
(** ** The two directional queries                                         *)
(* ===================================================================== *)

Lemma split_spaces_nonempty s : split_spaces s <> [].
Proof.
  destruct s as [|c s]; [discriminate|]. cbn [split_spaces].
  destruct (Ascii.eqb c " "); [discriminate|].
  destruct (split_spaces s); discriminate.
Qed.

Lemma split_spaces_app a b :
  split_spaces (a ++ String " " b) = (split_spaces a ++ split_spaces b)%list.
Proof.
  induction a as [|c a IH]; [reflexivity|].
  cbn [append split_spaces]. rewrite IH.
  destruct (Ascii.eqb c " "); [reflexivity|].
  pose proof (split_spaces_nonempty a) as Hne.
  destruct (split_spaces a) as [|w ws]; [contradiction|reflexivity].
Qed.

Lemma query_terms_app a b :
  query_terms (a ++ String " " b) = (query_terms a ++ query_terms b)%list.
Proof. unfold query_terms. rewrite split_spaces_app. apply map_app. Qed.

(** C7.  A request whose parameters are present and whose dates compile
    to the filter [date_q] runs on two queries made from that one filter:
    the sent query, the filter and [label:sent], with which [/dashboard]
    counts first and [/sent_details] fetches; and the received query, the
    filter and [label:inbox] and the negations of [label:sent],
    [label:drafts], [label:spam], [label:trash] and [from:me], with which
    [/dashboard] counts next. *)
Theorem dashboard_directional_queries `{Platform} {Svc : Type}
  `{Provider Svc}
  (bound : nat) (email start_date end_date date_q : string) (service : Svc) :
  missing_parameters (Some email) (Some start_date) (Some end_date) = false ->
  connect email = inr service ->
  build_date_query start_date end_date = inr date_q ->
  let sent_q := date_q ++ " label:sent" in
  let received_q :=
    date_q ++
    " label:inbox -label:sent -label:drafts -label:spam -label:trash -from:me"
  in
  query_terms sent_q = (query_terms date_q ++ [Has "label:sent"])%list
  /\ query_terms received_q
     = (query_terms date_q
        ++ [Has "label:inbox"; Not "label:sent"; Not "label:drafts";
            Not "label:spam"; Not "label:trash"; Not "from:me"])%list
  /\ dashboard bound (Some email) (Some start_date) (Some end_date)
     = match count_messages bound "me" sent_q service with
       | None => None
       | Some (_, inl e) => Some (handle_exception e)
       | Some (service', inr sent_count) =>
           match count_messages bound "me" received_q service' with
           | None => None
           | Some (_, inl e) => Some (handle_exception e)
           | Some (_, inr received_count) =>
               Some (CountsBody sent_count received_count
                       (start_date ++ " to " ++ end_date), 200)
           end
       end
  /\ sent_details bound (Some email) (Some start_date) (Some end_date)
     = match get_sent_email_details bound "me" sent_q service with
       | None => None
       | Some (_, inl e) => Some (handle_exception e)
       | Some (_, inr email_details) =>
           Some (DetailsBody email_details, 200)
       end.
Proof.
  intros Hargs Hconn Hq sent_q received_q.
  split; [|split; [|split]].
  - apply (query_terms_app date_q "label:sent").
  - apply (query_terms_app date_q
      "label:inbox -label:sent -label:drafts -label:spam -label:trash -from:me").
  - apply dashboard_runs; assumption.
  - apply sent_details_runs; assumption.
Qed.

(** January 2024 with 63 messages sent and 7 received. *)
Lemma dashboard_directional_queries_witness :
  @dashboard sample_platform Script (scripted sent_then_received) 2
    (Some "user@example.com") (Some "2024-01-01") (Some "2024-01-31")
  = Some (CountsBody 63 7 "2024-01-01 to 2024-01-31", 200).
Proof.
  destruct (@dashboard_directional_queries sample_platform Script
              (scripted sent_then_received) 2
              "user@example.com" "2024-01-01" "2024-01-31"
              "after:2024/01/01 before:2024/02/01" sent_then_received
              eq_refl eq_refl eq_refl)
    as (_ & _ & Hdash & _).
  rewrite Hdash. reflexivity.
Defined.

(* ===================================================================== *)
(** ** Further properties of the counting and details runs                 *)
(* ===================================================================== *)

(** X1.  [count_messages_by_thread] returns the sum of the sizes of the
    ['threads'] lists of the responses it was given, a response without
    ['threads'] counting for nothing. *)
Theorem count_messages_by_thread_sums_pages {Svc : Type} `{Provider Svc}
  (user_id query : string) (s s' : Svc) (rs : list ThreadsResponse)
  (bound : nat) :
  thread_pages user_id query s None rs s' ->
  (List.length rs <= bound)%nat ->
  count_messages_by_thread bound user_id query s
  = Some (s', inr (list_sum (map thread_page_size rs))).
Proof.
  intros Hrs Hb. unfold count_messages_by_thread.
  rewrite (count_messages_by_thread_loop_pages _ _ _ _ _ _ Hrs)
    by assumption.
  reflexivity.
Qed.

Lemma count_messages_by_thread_sums_pages_witness :
  @count_messages_by_thread Script (scripted two_pages) 3 "me" "label:sent"
    two_pages
  = Some (mkScript (list_script two_pages) [] [], inr 63%nat).
Proof.
  refine (@count_messages_by_thread_sums_pages Script (scripted two_pages)
            "me" _ two_pages _
            [mkThreadsResponse (Some (stubs_upto 50)) (Some "page-2");
             mkThreadsResponse (Some (stubs_upto 13)) None] 3 _ _).
  - eapply thread_pages_more; [reflexivity | reflexivity |].
    apply thread_pages_last; reflexivity.
  - repeat constructor.
Defined.

Section CallLog.
Context `{Platform} {Svc : Type} (P : Provider Svc).
Variables user_id query : string.

Lemma count_messages_loop_logged s tok rs s' :
  @pages Svc P user_id query s tok rs s' ->
  forall bound total log,
    (List.length rs <= bound)%nat ->
    @count_messages_loop _ (logged P) bound user_id query total tok (s, log)
    = Some ((s', (log ++ map (fun t => ListCall user_id query t false)
                           (cursors tok rs))%list),
            inr (total + list_sum (map page_size rs))%nat).
Proof.
  induction 1 as [s tok s' r Hcall Hlast
                 | s tok s1 r rs s' Hcall Hmore Hrest IH];
    intros bound total log Hb;
    (destruct bound as [|bound]; [simpl in Hb; lia|]);
    cbn [count_messages_loop]; unfold mbind, call;
    cbn [messages_list logged fst snd]; rewrite Hcall; cbn beta iota zeta.
  - rewrite Hlast. cbn [negb]. unfold mret. cbn [cursors map].
    do 3 f_equal. unfold page_size. simpl. lia.
  - rewrite Hmore. cbn [negb]. rewrite IH by (simpl in Hb; lia).
    cbn [cursors map]. rewrite <- app_assoc. cbn [app].
    do 3 f_equal. unfold page_size. simpl. lia.
Qed.

Lemma for_msg_in_logged msgs :
  forall acc s s' acc' log,
    @for_msg_in _ Svc P user_id msgs acc s = Some (s', inr acc') ->
    @for_msg_in _ _ (logged P) user_id msgs acc (s, log)
    = Some ((s', (log ++ map (GetCall user_id) (stub_ids msgs))%list),
            inr acc').
Proof.
  induction msgs as [|msg rest IH]; intros acc s s' acc' log.
  - intros [= <- <-]. cbn. rewrite app_nil_r. reflexivity.
  - cbn [for_msg_in]. unfold mbind, lift, call, stub_ids.
    cbn [flat_map].
    destruct (stub_id msg) as [id|]; [|discriminate].
    cbn [getitem messages_get logged fst snd].
    destruct (@messages_get Svc P s user_id id) as [s1 [e|message]];
      [discriminate|].
    destruct (extract_email_data message) as [e|email_data];
      [discriminate|].
    intros Hrest. rewrite (IH _ _ _ _ _ Hrest).
    unfold stub_ids. rewrite <- app_assoc. reflexivity.
Qed.

Lemma get_sent_email_details_loop_logged s tok acc rs acc' s' :
  @detail_pages _ Svc P user_id query s tok acc rs acc' s' ->
  forall bound log,
    (List.length rs <= bound)%nat ->
    @get_sent_email_details_loop _ _ (logged P) bound user_id query acc tok
      (s, log)
    = Some ((s', (log ++ detail_calls user_id query tok rs)%list),
            inr acc').
Proof.
  induction 1 as [s tok acc s1 r s2 acc' Hcall Hpage Hlast
                 | s tok acc s1 r s2 acc' rs acc'' s3 Hcall Hpage Hmore
                     Hrest IH];
    intros bound log Hb;
    (destruct bound as [|bound]; [simpl in Hb; lia|]);
    cbn [get_sent_email_details_loop];
    unfold mbind at 1; unfold call at 1;
    cbn [messages_list logged fst snd]; rewrite Hcall; cbn beta iota zeta;
    unfold mbind at 1; fold (page_stubs r);
    rewrite (for_msg_in_logged _ _ _ _ _ _ Hpage); cbn beta iota zeta.
  - rewrite Hlast. cbn [negb]. unfold mret. cbn [detail_calls].
    rewrite app_nil_r, <- app_assoc. reflexivity.
  - rewrite Hmore. cbn [negb]. rewrite IH by (simpl in Hb; lia).
    cbn [detail_calls]. rewrite <- !app_assoc. reflexivity.
Qed.

Lemma cursors_length tok rs : List.length (cursors tok rs) = List.length rs.
Proof.
  revert tok. induction rs as [|r rs IH]; intros tok; [reflexivity|].
  cbn [cursors List.length]. rewrite IH. reflexivity.
Qed.

Lemma cursors_shift tok rs :
  cursors tok rs
  = firstn (List.length rs) (tok :: map resp_nextPageToken rs).
Proof.
  revert tok. induction rs as [|r rs IH]; intros tok; [reflexivity|].
  cbn [cursors List.length firstn map]. rewrite IH. reflexivity.
Qed.

End CallLog.

(** X2.  The calls of a [count_messages] run, in order: one
    [messages.list] per response, always with the user id and the query
    it was given and with spam and trash excluded; the first without a
    cursor, each later one with the cursor of the response before it.
    Nothing else is called. *)
Theorem count_messages_call_log {Svc : Type} (P : Provider Svc)
  (user_id query : string) (s s' : Svc) (rs : list ListResponse)
  (bound : nat) (log : list Call) :
  @pages Svc P user_id query s None rs s' ->
  (List.length rs <= bound)%nat ->
  @count_messages _ (logged P) bound user_id query (s, log)
  = Some ((s', (log ++ map (fun t => ListCall user_id query t false)
                         (cursors None rs))%list),
          inr (list_sum (map page_size rs)))
  /\ cursors None rs
     = firstn (List.length rs) (None :: map resp_nextPageToken rs).
Proof.
  intros Hrs Hb. split; [|apply cursors_shift].
  unfold count_messages.
  rewrite (count_messages_loop_logged P _ _ _ _ _ _ Hrs) by assumption.
  reflexivity.
Qed.

Lemma count_messages_call_log_witness :
  @count_messages _ (logged (scripted two_pages)) 2 "me" "label:sent"
    (two_pages, [])
  = Some ((mkScript [] (threads_script two_pages) [],
           [ListCall "me" "label:sent" None false;
            ListCall "me" "label:sent" (Some "page-2") false]),
          inr 63%nat).
Proof.
  refine (proj1 (@count_messages_call_log Script (scripted two_pages)
            "me" "label:sent" two_pages _
            [mkListResponse (Some (stubs_upto 50)) (Some "page-2");
             mkListResponse (Some (stubs_upto 13)) None] 2 [] _ _)).
  - eapply pages_more; [reflexivity | reflexivity |].
    apply pages_last; reflexivity.
  - apply le_n.
Defined.

(** X3.  The calls of a [get_sent_email_details] run that returns, in
    order: for each page its [messages.list] call (cursors threaded as
    in the counting loop, spam and trash excluded), followed by one
    [messages.get] per stub of that page, in the order of the page,
    before the next page is asked for. *)
Theorem get_sent_email_details_call_log `{Platform} {Svc : Type}
  (P : Provider Svc) (user_id query : string) (s s' : Svc)
  (rs : list ListResponse) (records : list EmailData) (bound : nat)
  (log : list Call) :
  @detail_pages _ Svc P user_id query s None [] rs records s' ->
  (List.length rs <= bound)%nat ->
  @get_sent_email_details _ _ (logged P) bound user_id query (s, log)
  = Some ((s', (log ++ detail_calls user_id query None rs)%list),
          inr records).
Proof.
  intros Hrs Hb. unfold get_sent_email_details.
  apply (get_sent_email_details_loop_logged P _ _ _ _ _ _ _ _ Hrs).
  assumption.
Qed.

Lemma get_sent_email_details_call_log_witness :
  @get_sent_email_details sample_platform _ (logged (scripted three_sent))
    2 "me" "label:sent" (three_sent, [])
  = Some ((mkScript [] [] (mailbox three_sent),
           [ListCall "me" "label:sent" None false;
            GetCall "me" "m1"; GetCall "me" "m2";
            ListCall "me" "label:sent" (Some "page-2") false;
            GetCall "me" "m3"]),
          inr [hi_record; mkEmailData (Some "second@x") None None None;
               hi_record]).
Proof.
  refine (@get_sent_email_details_call_log sample_platform Script
            (scripted three_sent) "me" "label:sent" three_sent _
            [mkListResponse (Some [mkStub (Some "m1"); mkStub (Some "m2")])
               (Some "page-2");
             mkListResponse (Some [mkStub (Some "m3")]) None]
            _ 2 [] _ _).
  - eapply detail_pages_more; [reflexivity | reflexivity | reflexivity |].
    eapply detail_pages_last; reflexivity.
  - apply le_n.
Defined.

(* ===================================================================== *)
(** ** Further properties of the request handlers                          *)
(* ===================================================================== *)

Section HandlerMore.
Context `{Platform} {Svc : Type} `{Provider Svc}.

Lemma missing_parameters_spec email start_date end_date :
  missing_parameters email start_date end_date = true
  <-> (email = None \/ email = Some "")
      \/ (start_date = None \/ start_date = Some "")
      \/ (end_date = None \/ end_date = Some "").
Proof.
  unfold missing_parameters.
  destruct email as [[|? ?]|], start_date as [[|? ?]|],
    end_date as [[|? ?]|]; cbn; split; intros Hm;
    try discriminate; try tauto;
    repeat match goal with
           | Hd : _ \/ _ |- _ => destruct Hd
           end; discriminate.
Qed.

Lemma handle_exception_shape e :
  (exists text, handle_exception e = (ErrorBody text, 400))
  \/ (exists text, handle_exception e = (ErrorBody text, 500)).
Proof.
  unfold handle_exception. destruct (isinstance_ValueError e); eauto.
Qed.

Lemma try_except_shape email (block : M (Svc := Svc) response) r
  (Q : response -> Prop) :
  (forall service s' r', block service = Some (s', inr r') -> Q r') ->
  (forall e, Q (handle_exception e)) ->
  try_except email block = Some r -> Q r.
Proof.
  intros Hok Herr. unfold try_except.
  destruct (connect email) as [e|service]; [intros [= <-]; apply Herr|].
  destruct (block service) as [[s' [e|r']]|] eqn:Hb; intros [= <-].
  - apply Herr.
  - eapply Hok. eassumption.
Qed.

End HandlerMore.

(** X4.  A [/dashboard] request whose parameters are present, whose
    connection is made and whose dates compile answers 200 with the two
    sums: the sent query is counted first, the received query next, from
    the provider state the first count left and again without a cursor;
    ['date_range'] repeats the two input strings. *)
Theorem dashboard_counts_both_directions `{Platform} {Svc : Type}
  `{Provider Svc}
  (bound : nat) (email start_date end_date date_q : string)
  (service s1 s2 : Svc) (sent_pages received_pages : list ListResponse) :
  missing_parameters (Some email) (Some start_date) (Some end_date) = false ->
  connect email = inr service ->
  build_date_query start_date end_date = inr date_q ->
  pages "me" (date_q ++ " label:sent") service None sent_pages s1 ->
  pages "me"
    (date_q ++
     " label:inbox -label:sent -label:drafts -label:spam -label:trash -from:me")
    s1 None received_pages s2 ->
  (List.length sent_pages <= bound)%nat ->
  (List.length received_pages <= bound)%nat ->
  dashboard bound (Some email) (Some start_date) (Some end_date)
  = Some (CountsBody (list_sum (map page_size sent_pages))
            (list_sum (map page_size received_pages))
            (start_date ++ " to " ++ end_date), 200).
Proof.
  intros Hargs Hconn Hq Hsent Hrecv Hb1 Hb2.
  rewrite (dashboard_runs _ _ _ _ _ _ Hargs Hconn Hq).
  unfold count_messages.
  rewrite (count_messages_loop_pages _ _ _ _ _ _ Hsent) by assumption.
  rewrite (count_messages_loop_pages _ _ _ _ _ _ Hrecv) by assumption.
  reflexivity.
Qed.

Lemma dashboard_counts_both_directions_witness :
  @dashboard sample_platform Script (scripted sent_then_received) 4
    (Some "user@example.com") (Some "2024-01-01") (Some "2024-01-31")
  = Some (CountsBody 63 7 "2024-01-01 to 2024-01-31", 200).
Proof.
  refine (@dashboard_counts_both_directions sample_platform Script
            (scripted sent_then_received) 4
            "user@example.com" "2024-01-01" "2024-01-31"
            "after:2024/01/01 before:2024/02/01"
            sent_then_received
            (mkScript [ret (mkListResponse (Some (stubs_upto 7)) None)] [] [])
            (mkScript [] [] [])
            [mkListResponse (Some (stubs_upto 50)) (Some "page-2");
             mkListResponse (Some (stubs_upto 13)) None]
            [mkListResponse (Some (stubs_upto 7)) None]
            eq_refl eq_refl eq_refl _ _ _ _).
  - eapply pages_more; [reflexivity | reflexivity |].
    apply pages_last; reflexivity.
  - apply pages_last; reflexivity.
  - repeat constructor.
  - repeat constructor.
Defined.

(** X5.  A [/sent_details] request under the same conditions whose
    fetches and extractions all succeed answers 200 with one record per
    listed message, in the order of the listing over all pages. *)
Theorem sent_details_returns_records `{Platform} {Svc : Type}
  `{Provider Svc}
  (bound : nat) (email start_date end_date date_q : string)
  (service s' : Svc) (rs : list ListResponse) (records : list EmailData) :
  missing_parameters (Some email) (Some start_date) (Some end_date) = false ->
  connect email = inr service ->
  build_date_query start_date end_date = inr date_q ->
  detail_pages "me" (date_q ++ " label:sent") service None [] rs records s' ->
  (List.length rs <= bound)%nat ->
  sent_details bound (Some email) (Some start_date) (Some end_date)
  = Some (DetailsBody records, 200)
  /\ Forall2 (fetched_for "me") (flat_map page_stubs rs) records.
Proof.
  intros Hargs Hconn Hq Hrun Hb. split.
  - rewrite (sent_details_runs _ _ _ _ _ _ Hargs Hconn Hq).
    unfold get_sent_email_details.
    rewrite (get_sent_email_details_loop_pages _ _ _ _ _ _ _ _ Hrun)
      by assumption.
    reflexivity.
  - destruct (detail_pages_records _ _ _ _ _ _ _ _ Hrun)
      as (new & Hnew & Hall).
    cbn [app] in Hnew. subst new. exact Hall.
Qed.

Lemma sent_details_returns_records_witness :
  @sent_details sample_platform Script (scripted three_sent) 2
    (Some "user@example.com") (Some "2024-01-01") (Some "2024-01-31")
  = Some (DetailsBody
            [hi_record; mkEmailData (Some "second@x") None None None;
             hi_record], 200).
Proof.
  refine (proj1 (@sent_details_returns_records sample_platform Script
            (scripted three_sent) 2
            "user@example.com" "2024-01-01" "2024-01-31"
            "after:2024/01/01 before:2024/02/01"
            three_sent (mkScript [] [] (mailbox three_sent))
            [mkListResponse (Some [mkStub (Some "m1"); mkStub (Some "m2")])
               (Some "page-2");
             mkListResponse (Some [mkStub (Some "m3")]) None]
            _ eq_refl eq_refl eq_refl _ _)).
  - eapply detail_pages_more; [reflexivity | reflexivity | reflexivity |].
    eapply detail_pages_last; reflexivity.
  - apply le_n.
Defined.

(** X6.  Both handlers answer 400 with the text [Missing email or date
    parameters] whenever one of [email], [start], [end] is absent or
    empty, before anything else happens: whatever the provider, the
    bound and the other parameters are. *)
Theorem handlers_reject_missing_parameters `{Platform} {Svc : Type}
  `{Provider Svc}
  (bound : nat) (email start_date end_date : option string) :
  (email = None \/ email = Some "")
  \/ (start_date = None \/ start_date = Some "")
  \/ (end_date = None \/ end_date = Some "") ->
  dashboard bound email start_date end_date
  = Some (ErrorBody "Missing email or date parameters", 400)
  /\ sent_details bound email start_date end_date
     = Some (ErrorBody "Missing email or date parameters", 400).
Proof.
  intros Hmissing. apply missing_parameters_spec in Hmissing.
  unfold dashboard, sent_details. rewrite Hmissing. split; reflexivity.
Qed.

Lemma handlers_reject_missing_parameters_witness :
  @dashboard sample_platform unit echoing 0 (Some "")
    (Some "2024-01-01") (Some "2024-01-31")
  = Some (ErrorBody "Missing email or date parameters", 400).
Proof.
  refine (proj1 (@handlers_reject_missing_parameters sample_platform unit
                   echoing 0 (Some "") (Some "2024-01-01")
                   (Some "2024-01-31") _)).
  left. right. reflexivity.
Defined.

(** X7.  In both handlers the connection comes before the dates: when
    [connect] raises, the answer is made from that exception even if the
    dates are invalid; when it succeeds and the dates do not compile, the
    answer is 400 with the validation text for a format or range error
    and 500 with the class name for the overflow of 9999-12-31, and no
    remote call is needed (any bound will do). *)
Theorem handlers_validate_after_connecting `{Platform} {Svc : Type}
  `{Provider Svc}
  (bound : nat) (email start_date end_date : string) :
  missing_parameters (Some email) (Some start_date) (Some end_date) = false ->
  (forall e,
      connect email = inl e ->
      dashboard bound (Some email) (Some start_date) (Some end_date)
      = Some (handle_exception e)
      /\ sent_details bound (Some email) (Some start_date) (Some end_date)
         = Some (handle_exception e))
  /\ (forall service e,
         connect email = inr service ->
         build_date_query start_date end_date = inl e ->
         dashboard bound (Some email) (Some start_date) (Some end_date)
         = Some (handle_exception e)
         /\ sent_details bound (Some email) (Some start_date) (Some end_date)
            = Some (handle_exception e)
         /\ (handle_exception e
             = (ErrorBody "Dates must be in YYYY-MM-DD format", 400)
             \/ handle_exception e
                = (ErrorBody "End date must be on or after start date", 400)
             \/ handle_exception e
                = (ErrorBody "Failed to fetch Gmail data: OverflowError",
                   500))).
Proof.
  intros Hargs. split.
  - intros e Hconn. unfold dashboard, sent_details, try_except, arg.
    rewrite Hargs. cbn [get_default]. rewrite Hconn. split; reflexivity.
  - intros service e Hconn Hq.
    unfold dashboard, sent_details, try_except, arg.
    rewrite Hargs. cbn [get_default]. rewrite Hconn.
    split; [unfold mbind at 1; unfold lift at 1; rewrite Hq; reflexivity|].
    split; [unfold mbind at 1; unfold lift at 1; rewrite Hq; reflexivity|].
    rewrite build_date_query_cases in Hq.
    destruct (strptime_Ymd start_date) as [e1|start_dt];
      [injection Hq as <-; left; reflexivity|].
    destruct (strptime_Ymd end_date) as [e2|end_dt];
      [injection Hq as <-; left; reflexivity|].
    destruct (date_ltb end_dt start_dt);
      [injection Hq as <-; right; left; reflexivity|].
    destruct ((year end_dt =? 9999) && (month end_dt =? 12)
              && (day end_dt =? 31)); [|discriminate].
    injection Hq as <-. right; right. reflexivity.
Qed.

Lemma handlers_validate_after_connecting_witness :
  @dashboard sample_platform unit echoing 0 (Some "user@example.com")
    (Some "2024-02-30") (Some "2024-03-01")
  = Some (ErrorBody "Dates must be in YYYY-MM-DD format", 400).
Proof.
  refine (proj1 (proj2 (@handlers_validate_after_connecting sample_platform
            unit echoing 0 "user@example.com" "2024-02-30" "2024-03-01"
            eq_refl) tt (ValueError "Dates must be in YYYY-MM-DD format")
            eq_refl eq_refl)).
Defined.

(** X8.  Whatever the request and the provider, a [/dashboard] answer is
    a counts body with status 200 or an error body with status 400 or
    500, and a [/sent_details] answer is a details body with status 200
    or an error body with status 400 or 500. *)
Theorem handlers_answer_shapes `{Platform} {Svc : Type} `{Provider Svc}
  (bound : nat) (email start_date end_date : option string) (r : response) :
  (dashboard bound email start_date end_date = Some r -> counts_or_error r)
  /\ (sent_details bound email start_date end_date = Some r ->
      details_or_error r).
Proof.
  assert (Herr : forall e, counts_or_error (handle_exception e)
                           /\ details_or_error (handle_exception e)).
  { intros e. unfold counts_or_error, details_or_error.
    destruct (handle_exception_shape e) as [[t ->]|[t ->]].
    - split; right; left; eauto.
    - split; right; right; eauto. }
  split.
  - unfold dashboard.
    destruct (missing_parameters email start_date end_date).
    { intros [= <-]. right; left. eauto. }
    apply try_except_shape; [|apply Herr].
    intros service s' r'. unfold mbind at 1. unfold lift at 1.
    destruct (build_date_query (arg start_date) (arg end_date))
      as [e|date_q]; [discriminate|].
    unfold mbind at 1.
    destruct (count_messages bound "me" (date_q ++ " label:sent") service)
      as [[s1 [e|sent]]|]; try discriminate.
    unfold mbind at 1.
    destruct (count_messages bound "me" _ s1)
      as [[s2 [e|received]]|]; try discriminate.
    intros [= _ <-]. left. eauto.
  - unfold sent_details.
    destruct (missing_parameters email start_date end_date).
    { intros [= <-]. right; left. eauto. }
    apply try_except_shape; [|apply Herr].
    intros service s' r'. unfold mbind at 1. unfold lift at 1.
    destruct (build_date_query (arg start_date) (arg end_date))
      as [e|date_q]; [discriminate|].
    unfold mbind at 1.
    destruct (get_sent_email_details bound "me" (date_q ++ " label:sent")
                service) as [[s1 [e|records]]|]; try discriminate.
    intros [= _ <-]. left. eauto.
Qed.

Lemma handlers_answer_shapes_witness :
  counts_or_error (CountsBody 63 7 "2024-01-01 to 2024-01-31", 200).
Proof.
  refine (proj1 (@handlers_answer_shapes sample_platform Script
            (scripted sent_then_received) 4
            (Some "user@example.com") (Some "2024-01-01") (Some "2024-01-31")
            _) eq_refl).
Defined.

(* ===================================================================== *)
(** ** Further properties of the extraction                                *)
(* ===================================================================== *)

Section DecodingFacts.
Context `{Platform}.

Lemma a2b_base64_raises s :
  forall quad_pos leftchar pads bin e,
    a2b_base64 s quad_pos leftchar pads bin = inl e ->
    exists m, e = BinasciiError m.
Proof.
  induction s as [|c s IH]; intros quad_pos leftchar pads bin e;
    cbn [a2b_base64].
  - destruct (quad_pos =? 0); [discriminate|].
    destruct (quad_pos =? 1); intros [= <-]; eauto.
  - destruct (Ascii.eqb c "=").
    + destruct (2 <=? quad_pos); [|apply IH].
      destruct (4 <=? quad_pos + (pads + 1)); [discriminate|apply IH].
    + destruct (table_a2b_base64 c) as [v|]; [|apply IH].
      destruct (quad_pos =? 0); [apply IH|].
      destruct (quad_pos =? 1); [apply IH|].
      destruct (quad_pos =? 2); apply IH.
Qed.

Lemma urlsafe_b64decode_raises s e :
  urlsafe_b64decode s = inl e -> isinstance_ValueError e = true.
Proof.
  unfold urlsafe_b64decode. destruct (all_ascii s).
  - intros Hd. destruct (a2b_base64_raises _ _ _ _ _ _ Hd) as [m ->].
    reflexivity.
  - intros [= <-]. reflexivity.
Qed.

Lemma decode_utf8_raises s e :
  decode_utf8 s = inl e -> isinstance_ValueError e = true.
Proof.
  unfold decode_utf8. destruct (well_formed s); [discriminate|].
  intros [= <-]. reflexivity.
Qed.

Lemma for_part_in_raises parts :
  forall d0 e,
    for_part_in parts d0 = inl e ->
    (exists k, e = KeyError k) \/ isinstance_ValueError e = true.
Proof.
  induction parts as [|p rest IH]; intros d0 e; [discriminate|].
  cbn [for_part_in].
  destruct (part_mimeType p) as [m|]; cbn [getitem bind];
    [|intros [= <-]; eauto].
  destruct (String.eqb m "text/plain"); [|apply IH].
  destruct (part_body p) as [b|]; cbn [getitem bind];
    [|intros [= <-]; eauto].
  destruct (body_data b) as [data|]; cbn [getitem bind];
    [|intros [= <-]; eauto].
  destruct (urlsafe_b64decode data) as [e1|bytes] eqn:H64; cbn [bind].
  { intros [= <-]. right. eapply urlsafe_b64decode_raises; eassumption. }
  destruct (decode_utf8 bytes) as [e2|text] eqn:Hutf; cbn [bind];
    [|discriminate].
  intros [= <-]. right. eapply decode_utf8_raises; eassumption.
Qed.

(** What the extraction of a message can raise. *)
Lemma extract_email_data_raises message e :
  extract_email_data message = inl e ->
  (exists k, e = KeyError k) \/ isinstance_ValueError e = true.
Proof.
  unfold extract_email_data.
  destruct (message_payload message) as [payload|]; cbn [getitem bind];
    [|intros [= <-]; eauto].
  destruct (payload_headers payload) as [headers|]; cbn [getitem bind];
    [|intros [= <-]; eauto].
  destruct (for_header_in headers empty_email_data) as [e1|d0] eqn:Hh;
    cbn [bind].
  { intros [= <-]. left. eapply for_header_in_raises; eassumption. }
  destruct (payload_parts payload) as [parts|]; [|discriminate].
  apply for_part_in_raises.
Qed.

End DecodingFacts.

(** X9.  When the record of a fetched message cannot be extracted, the
    details request ends there with what the extraction raised, and the
    answer depends on its kind alone: a missing key gives 500 with
    [Failed to fetch Gmail data: KeyError], and a body that is not
    base64 or not UTF-8 gives 400 with the decoder's own text. *)
Theorem sent_details_extraction_failure `{Platform} {Svc : Type}
  `{Provider Svc}
  (email start_date end_date date_q : string) (service : Svc)
  (n : nat) (s : Svc) (tok : option string) (acc : list EmailData)
  (s1 : Svc) (r : ListResponse) (before : list Stub) (msg : Stub)
  (after : list Stub) (s2 : Svc) (acc2 : list EmailData) (id : string)
  (s3 : Svc) (message : Message) (e : exn) (bound : nat) :
  missing_parameters (Some email) (Some start_date) (Some end_date) = false ->
  connect email = inr service ->
  build_date_query start_date end_date = inr date_q ->
  completed "me" (date_q ++ " label:sent") n service None [] s tok acc ->
  messages_list s "me" (date_q ++ " label:sent") tok false = (s1, inr r) ->
  page_stubs r = (before ++ msg :: after)%list ->
  for_msg_in "me" before acc s1 = Some (s2, inr acc2) ->
  stub_id msg = Some id ->
  messages_get s2 "me" id = (s3, inr message) ->
  extract_email_data message = inl e ->
  (n < bound)%nat ->
  get_sent_email_details bound "me" (date_q ++ " label:sent") service
  = Some (s3, inl e)
  /\ ((exists key,
          e = KeyError key
          /\ sent_details bound (Some email) (Some start_date) (Some end_date)
             = Some (ErrorBody "Failed to fetch Gmail data: KeyError", 500))
      \/ (isinstance_ValueError e = true
          /\ sent_details bound (Some email) (Some start_date)
               (Some end_date)
             = Some (ErrorBody (str e), 400))).
Proof.
  intros Hargs Hconn Hq Hdone Hcall Hstubs Hbefore Hid Hget Hex Hb.
  assert (Hrun :
    get_sent_email_details bound "me" (date_q ++ " label:sent") service
    = Some (s3, inl e)).
  { eapply get_sent_email_details_aborts; try eassumption.
    rewrite Hstubs. eapply for_msg_in_extract_raises; eassumption. }
  split; [exact Hrun|].
  rewrite (sent_details_runs _ _ _ _ _ _ Hargs Hconn Hq), Hrun.
  destruct (extract_email_data_raises _ _ Hex) as [[key ->]|Hve].
  - left. exists key. split; reflexivity.
  - right. split; [exact Hve|]. unfold handle_exception. rewrite Hve.
    reflexivity.
Qed.

Lemma sent_details_extraction_failure_witness :
  @sent_details sample_platform Script (scripted second_unpadded) 5
    (Some "user@example.com") (Some "2024-01-01") (Some "2024-01-31")
  = Some (ErrorBody "Incorrect padding", 400).
Proof.
  destruct (@sent_details_extraction_failure sample_platform Script
       (scripted second_unpadded)
       "user@example.com" "2024-01-01" "2024-01-31"
       "after:2024/01/01 before:2024/02/01" second_unpadded
       O second_unpadded None []
       (mkScript (tl (list_script second_unpadded)) []
          (mailbox second_unpadded))
       (mkListResponse (Some [mkStub (Some "m1"); mkStub (Some "m2")])
          (Some "page-2"))
       [mkStub (Some "m1")] (mkStub (Some "m2")) []
       (mkScript (tl (list_script second_unpadded)) []
          (mailbox second_unpadded))
       [hi_record] "m2"
       (mkScript (tl (list_script second_unpadded)) []
          (mailbox second_unpadded))
       unpadded_message (BinasciiError "Incorrect padding") 5
       eq_refl eq_refl eq_refl (completed_zero _ _ _ _ _)
       eq_refl eq_refl eq_refl eq_refl eq_refl eq_refl)
    as [_ [(key & Hkey & _) | [_ Hanswer]]].
  - repeat constructor.
  - discriminate Hkey.
  - exact Hanswer.
Defined.

(* ===================================================================== *)
(** ** The body comes back from its base64url text                         *)
(* ===================================================================== *)

Lemma append_nil_r s : s ++ "" = s.
Proof. induction s as [|c s IH]; [reflexivity|]. cbn. now rewrite IH. Qed.

Lemma append_assoc s t u : (s ++ t) ++ u = s ++ (t ++ u).
Proof. induction s as [|c s IH]; [reflexivity|]. cbn. now rewrite IH. Qed.

Lemma below_in n v : 0 <= v < Z.of_nat n -> In v (below n).
Proof.
  intros Hv. unfold below.
  replace v with (Z.of_nat (Z.to_nat v)) by lia.
  apply in_map, in_seq. lia.
Qed.

Lemma code_range c : 0 <= code c < 256.
Proof.
  unfold code. pose proof (N_ascii_bounded c). lia.
Qed.

Lemma byte_of_code c n : Z.land n 255 = code c -> byte_of n = c.
Proof.
  intros Hn. unfold byte_of. rewrite Hn. unfold code.
  rewrite N2Z.id. apply ascii_N_embedding.
Qed.

Lemma sextets_checked : forallb sextet_ok (below 64) = true.
Proof. vm_compute. reflexivity. Qed.

Lemma pairs_checked :
  forallb (fun a => forallb (pair_ok a) (below 256)) (below 256) = true.
Proof. vm_compute. reflexivity. Qed.

Lemma sextet_fact v : is_sextet v = true -> sextet_ok v = true.
Proof.
  unfold is_sextet. rewrite andb_true_iff, Z.leb_le, Z.ltb_lt. intros Hv.
  pose proof sextets_checked as Hall. rewrite forallb_forall in Hall.
  apply Hall, below_in. simpl. lia.
Qed.

Lemma pair_fact a b : pair_ok (code a) (code b) = true.
Proof.
  pose proof pairs_checked as Hall. rewrite forallb_forall in Hall.
  pose proof (Hall (code a) (below_in 256 _ (code_range a))) as Ha.
  rewrite forallb_forall in Ha.
  apply Ha, below_in, code_range.
Qed.

Lemma sextet_decodes v :
  is_sextet v = true ->
  Ascii.eqb (translated (b64url_char v)) "=" = false
  /\ table_a2b_base64 (translated (b64url_char v)) = Some v
  /\ code (b64url_char v) < 128.
Proof.
  intros Hv. pose proof (sextet_fact v Hv) as Hok. unfold sextet_ok in Hok.
  rewrite !andb_true_iff, negb_true_iff, Z.ltb_lt in Hok.
  destruct Hok as [[Hne Htab] Hascii].
  destruct (table_a2b_base64 (translated (b64url_char v))) as [w|];
    [|discriminate].
  apply Z.eqb_eq in Htab. subst w. auto.
Qed.

Lemma a2b_sextet v rest quad_pos leftchar pads bin :
  is_sextet v = true ->
  a2b_base64 (String (translated (b64url_char v)) rest)
    quad_pos leftchar pads bin
  = if quad_pos =? 0 then a2b_base64 rest 1 v 0 bin
    else if quad_pos =? 1 then
      a2b_base64 rest 2 (Z.land v 15) 0
        (bin ++ String (byte_of (Z.lor (Z.shiftl leftchar 2)
                                   (Z.shiftr v 4))) "")
    else if quad_pos =? 2 then
      a2b_base64 rest 3 (Z.land v 3) 0
        (bin ++ String (byte_of (Z.lor (Z.shiftl leftchar 4)
                                   (Z.shiftr v 2))) "")
    else
      a2b_base64 rest 0 0 0
        (bin ++ String (byte_of (Z.lor (Z.shiftl leftchar 6) v)) "").
Proof.
  intros Hv. destruct (sextet_decodes v Hv) as (Hne & Htab & _).
  cbn [a2b_base64]. rewrite Hne, Htab. reflexivity.
Qed.

(** The facts of [pair_ok], one by one. *)
Lemma pair_facts a b :
  let v0 := Z.shiftr (code a) 2 in
  let v1 := Z.lor (Z.shiftl (Z.land (code a) 3) 4) (Z.shiftr (code b) 4) in
  let v2 := Z.lor (Z.shiftl (Z.land (code a) 15) 2) (Z.shiftr (code b) 6) in
  let v3 := Z.land (code b) 63 in
  (is_sextet v0 = true /\ is_sextet v1 = true /\ is_sextet v2 = true
   /\ is_sextet v3 = true
   /\ is_sextet (Z.shiftl (Z.land (code a) 3) 4) = true
   /\ is_sextet (Z.shiftl (Z.land (code a) 15) 2) = true)
  /\ (Z.land (Z.lor (Z.shiftl v0 2) (Z.shiftr v1 4)) 255 = code a
      /\ Z.land v1 15 = Z.shiftr (code b) 4)
  /\ (Z.land (Z.lor (Z.shiftl (Z.shiftr (code a) 4) 4) (Z.shiftr v2 2)) 255
      = code a
      /\ Z.land (Z.lor (Z.shiftl (Z.land v2 3) 6) v3) 255 = code b)
  /\ (Z.land (Z.lor (Z.shiftl v0 2)
                (Z.shiftr (Z.shiftl (Z.land (code a) 3) 4) 4)) 255 = code a
      /\ Z.land (Z.lor (Z.shiftl (Z.shiftr (code a) 4) 4)
                   (Z.shiftr (Z.shiftl (Z.land (code a) 15) 2) 2)) 255
         = code a).
Proof.
  intros v0 v1 v2 v3. pose proof (pair_fact a b) as Hok.
  unfold pair_ok in Hok. fold v0 v1 v2 v3 in Hok.
  rewrite !andb_true_iff, !Z.eqb_eq in Hok. tauto.
Qed.

Lemma translate_urlsafe_cons c s :
  translate_urlsafe (String c s) = String (translated c) (translate_urlsafe s).
Proof. reflexivity. Qed.

(** Groups of three bytes: an induction that follows the encoder. *)
Lemma string_ind3 (Q : string -> Prop) :
  Q "" ->
  (forall a, Q (String a "")) ->
  (forall a b, Q (String a (String b ""))) ->
  (forall a b c rest, Q rest -> Q (String a (String b (String c rest)))) ->
  forall s, Q s.
Proof.
  intros H0 H1 H2 H3.
  assert (Hall : forall s, Q s /\ (forall a, Q (String a s))
                           /\ (forall a b, Q (String a (String b s)))).
  { induction s as [|c s (IH0 & IH1 & IH2)]; [auto|].
    split; [apply IH1|]. split; [intros a; apply IH2|].
    intros a b. apply H3, IH0. }
  intros s. apply Hall.
Qed.

Lemma mod3_group n : (S (S (S n)) mod 3 = n mod 3)%nat.
Proof.
  replace (S (S (S n))) with (n + 1 * 3)%nat by lia.
  apply Nat.Div0.mod_add.
Qed.

(** Decoding the text of [b64url_encode]: the bytes come back when the
    text is padded or needs no padding, and [Incorrect padding] is raised
    otherwise. *)
Lemma a2b_base64_encoded padding data :
  forall bin,
    a2b_base64 (translate_urlsafe (b64url_encode padding data)) 0 0 0 bin
    = if padding || (String.length data mod 3 =? 0)%nat
      then inr (bin ++ data)
      else inl (BinasciiError "Incorrect padding").
Proof.
  induction data as [|a|a b|a b c rest IH] using string_ind3; intros bin.
  - cbn [b64url_encode translate_urlsafe a2b_base64 String.length].
    rewrite orb_true_r, append_nil_r. reflexivity.
  - destruct (pair_facts a a)
      as ((S0 & _ & _ & _ & S1 & _) & _ & _ & (B1 & _)).
    cbn [b64url_encode]. rewrite !translate_urlsafe_cons.
    rewrite (a2b_sextet _ _ _ _ _ _ S0). cbn [Z.eqb].
    rewrite (a2b_sextet _ _ _ _ _ _ S1). cbn [Z.eqb].
    rewrite (byte_of_code a _ B1).
    destruct padding; reflexivity.
  - destruct (pair_facts a b)
      as ((S0 & S1 & _ & _ & _ & _) & (B1 & L1) & _ & _).
    destruct (pair_facts b b)
      as ((_ & _ & _ & _ & _ & S2) & _ & _ & (_ & B2)).
    cbn [b64url_encode]. rewrite !translate_urlsafe_cons.
    rewrite (a2b_sextet _ _ _ _ _ _ S0). cbn [Z.eqb].
    rewrite (a2b_sextet _ _ _ _ _ _ S1). cbn [Z.eqb].
    rewrite (byte_of_code a _ B1), L1.
    rewrite (a2b_sextet _ _ _ _ _ _ S2). cbn [Z.eqb Pos.eqb].
    rewrite (byte_of_code b _ B2), append_assoc.
    destruct padding; reflexivity.
  - destruct (pair_facts a b)
      as ((S0 & S1 & _ & _ & _ & _) & (B1 & L1) & _ & _).
    destruct (pair_facts b c)
      as ((_ & _ & S2 & S3 & _ & _) & _ & (B2 & B3) & _).
    cbn [b64url_encode]. rewrite !translate_urlsafe_cons.
    rewrite (a2b_sextet _ _ _ _ _ _ S0). cbn [Z.eqb].
    rewrite (a2b_sextet _ _ _ _ _ _ S1). cbn [Z.eqb].
    rewrite (byte_of_code a _ B1), L1.
    rewrite (a2b_sextet _ _ _ _ _ _ S2). cbn [Z.eqb Pos.eqb].
    rewrite (byte_of_code b _ B2).
    rewrite (a2b_sextet _ _ _ _ _ _ S3). cbn [Z.eqb Pos.eqb].
    rewrite (byte_of_code c _ B3).
    rewrite IH. cbn [String.length]. rewrite mod3_group.
    rewrite !append_assoc. reflexivity.
Qed.

Lemma b64url_encode_ascii padding data :
  all_ascii (b64url_encode padding data) = true.
Proof.
  induction data as [|a|a b|a b c rest IH] using string_ind3.
  - reflexivity.
  - destruct (pair_facts a a) as ((S0 & _ & _ & _ & S1 & _) & _).
    destruct (sextet_decodes _ S0) as (_ & _ & A0).
    destruct (sextet_decodes _ S1) as (_ & _ & A1).
    cbn [b64url_encode all_ascii]. apply Z.ltb_lt in A0, A1.
    rewrite A0, A1. destruct padding; reflexivity.
  - destruct (pair_facts a b) as ((S0 & S1 & _) & _).
    destruct (pair_facts b b) as ((_ & _ & _ & _ & _ & S2) & _).
    destruct (sextet_decodes _ S0) as (_ & _ & A0).
    destruct (sextet_decodes _ S1) as (_ & _ & A1).
    destruct (sextet_decodes _ S2) as (_ & _ & A2).
    cbn [b64url_encode all_ascii]. apply Z.ltb_lt in A0, A1, A2.
    rewrite A0, A1, A2. destruct padding; reflexivity.
  - destruct (pair_facts a b) as ((S0 & S1 & _) & _).
    destruct (pair_facts b c) as ((_ & _ & S2 & S3 & _) & _).
    destruct (sextet_decodes _ S0) as (_ & _ & A0).
    destruct (sextet_decodes _ S1) as (_ & _ & A1).
    destruct (sextet_decodes _ S2) as (_ & _ & A2).
    destruct (sextet_decodes _ S3) as (_ & _ & A3).
    cbn [b64url_encode all_ascii]. apply Z.ltb_lt in A0, A1, A2, A3.
    rewrite A0, A1, A2, A3, IH. reflexivity.
Qed.

Lemma urlsafe_b64decode_encoded padding data :
  urlsafe_b64decode (b64url_encode padding data)
  = if padding || (String.length data mod 3 =? 0)%nat
    then inr data
    else inl (BinasciiError "Incorrect padding").
Proof.
  unfold urlsafe_b64decode.
  rewrite b64url_encode_ascii, a2b_base64_encoded. reflexivity.
Qed.

Lemma all_ascii_well_formed s : all_ascii s = true -> well_formed s = true.
Proof.
  induction s as [|c s IH]; [reflexivity|].
  cbn [all_ascii well_formed]. rewrite andb_true_iff.
  intros [Hc Hs]. rewrite Hc. apply IH, Hs.
Qed.

(** X10.  A body that the provider sends as base64url text with its
    padding comes back unchanged: when the first [text/plain] part holds
    the encoding of [text], the record's ['message'] is [text] if [text]
    is well-formed UTF-8 (as all ASCII text is), and the extraction
    raises [UnicodeDecodeError] if it is not. *)
Theorem extract_email_data_decodes_encoded_body `{Platform}
  (message : Message) (payload : Payload) (headers : list Header)
  (header_data : EmailData) (before : list Part) (part : Part)
  (after : list Part) (body : PartBody) (text : string) :
  message_payload message = Some payload ->
  payload_headers payload = Some headers ->
  for_header_in headers empty_email_data = inr header_data ->
  payload_parts payload = Some (before ++ part :: after)%list ->
  (forall p, In p before -> other_type p) ->
  part_mimeType part = Some "text/plain" ->
  part_body part = Some body ->
  body_data body = Some (b64url_encode true text) ->
  extract_email_data message
  = (if well_formed text then inr (set_message text header_data)
     else inl (UnicodeDecodeError (utf8_error_text text)))
  /\ (all_ascii text = true -> well_formed text = true).
Proof.
  intros Hp Hh Hd0 Hparts Hother Hty Hb Hdata.
  split; [|apply all_ascii_well_formed].
  rewrite (extract_email_data_unfold _ _ _ Hp Hh), Hd0. cbn [bind].
  rewrite Hparts, for_part_in_skip by assumption.
  cbn [for_part_in]. rewrite Hty. cbn [getitem bind].
  rewrite String.eqb_refl, Hb. cbn [getitem bind].
  rewrite Hdata. cbn [getitem bind].
  rewrite urlsafe_b64decode_encoded. cbn [orb bind].
  unfold decode_utf8. destruct (well_formed text); reflexivity.
Qed.

Lemma extract_email_data_decodes_encoded_body_witness :
  @extract_email_data sample_platform hi_message = inr hi_record.
Proof.
  refine (proj1 (@extract_email_data_decodes_encoded_body sample_platform
            hi_message
            (mkPayload (Some hi_headers)
               (Some [html_part; hi_part; bye_part]))
            hi_headers
            (mkEmailData (Some "a@x") (Some "S") (Some "D") None)
            [html_part] hi_part [bye_part] (mkPartBody (Some "aGk=")) "hi"
            eq_refl eq_refl eq_refl eq_refl _ eq_refl eq_refl eq_refl)).
  intros p [<-|[]]. exists "text/html". split; reflexivity.
Defined.

(** X11.  Base64url text sent without its padding is accepted only when
    the body's length is a multiple of three bytes; for any other length
    the extraction raises [binascii.Error] with the text [Incorrect
    padding]. *)
Theorem extract_email_data_needs_padding `{Platform}
  (message : Message) (payload : Payload) (headers : list Header)
  (header_data : EmailData) (before : list Part) (part : Part)
  (after : list Part) (body : PartBody) (text : string) :
  message_payload message = Some payload ->
  payload_headers payload = Some headers ->
  for_header_in headers empty_email_data = inr header_data ->
  payload_parts payload = Some (before ++ part :: after)%list ->
  (forall p, In p before -> other_type p) ->
  part_mimeType part = Some "text/plain" ->
  part_body part = Some body ->
  body_data body = Some (b64url_encode false text) ->
  well_formed text = true ->
  extract_email_data message
  = if (String.length text mod 3 =? 0)%nat
    then inr (set_message text header_data)
    else inl (BinasciiError "Incorrect padding").
Proof.
  intros Hp Hh Hd0 Hparts Hother Hty Hb Hdata Hwf.
  rewrite (extract_email_data_unfold _ _ _ Hp Hh), Hd0. cbn [bind].
  rewrite Hparts, for_part_in_skip by assumption.
  cbn [for_part_in]. rewrite Hty. cbn [getitem bind].
  rewrite String.eqb_refl, Hb. cbn [getitem bind].
  rewrite Hdata. cbn [getitem bind].
  rewrite urlsafe_b64decode_encoded. cbn [orb].
  destruct (String.length text mod 3 =? 0)%nat; cbn [bind]; [|reflexivity].
  unfold decode_utf8. rewrite Hwf. reflexivity.
Qed.

Lemma extract_email_data_needs_padding_witness :
  @extract_email_data sample_platform unpadded_message
  = inl (BinasciiError "Incorrect padding").
Proof.
  refine (@extract_email_data_needs_padding sample_platform
            unpadded_message
            (mkPayload (Some hi_headers)
               (Some [mkPart (Some "text/plain")
                        (Some (mkPartBody (Some "aGk")))]))
            hi_headers
            (mkEmailData (Some "a@x") (Some "S") (Some "D") None)
            [] (mkPart (Some "text/plain") (Some (mkPartBody (Some "aGk"))))
            [] (mkPartBody (Some "aGk")) "hi"
            eq_refl eq_refl eq_refl eq_refl _ eq_refl eq_refl eq_refl
            eq_refl).
  intros p [].
Defined.

(* ===================================================================== *)
(** ** Further properties of the date range compiler                       *)
(* ===================================================================== *)

Section DateOrder.

Lemma days_before_year_mono y1 y2 :
  1 <= y1 <= y2 -> days_before_year y1 <= days_before_year y2.
Proof.
  intros Hy. unfold days_before_year.
  Z.to_euclidean_division_equations. lia.
Qed.

Lemma month_end_bound y m :
  1 <= m <= 12 ->
  days_before_month y m + days_in_month y m
  <= 365 + (if is_leap y then 1 else 0).
Proof.
  intros Hm. unfold days_before_month, days_in_month.
  destruct (month_cases m Hm)
    as [->|[->|[->|[->|[->|[->|[->|[->|[->|[->|[->| ->]]]]]]]]]]];
    destruct (is_leap y); simpl; lia.
Qed.

Lemma days_before_month_mono y m1 m2 :
  1 <= m1 -> m1 < m2 -> m2 <= 12 ->
  days_before_month y m1 + days_in_month y m1 <= days_before_month y m2.
Proof.
  intros H1 H12 H2. unfold days_before_month, days_in_month.
  assert (Hm1 : 1 <= m1 <= 12) by lia.
  assert (Hm2 : 1 <= m2 <= 12) by lia.
  destruct (month_cases m1 Hm1)
    as [->|[->|[->|[->|[->|[->|[->|[->|[->|[->|[->| ->]]]]]]]]]]];
    destruct (month_cases m2 Hm2)
      as [->|[->|[->|[->|[->|[->|[->|[->|[->|[->|[->| ->]]]]]]]]]]];
    try lia; destruct (is_leap y); simpl; lia.
Qed.

Lemma days_before_month_nonneg y m : 1 <= m <= 12 -> 0 <= days_before_month y m.
Proof.
  intros Hm. unfold days_before_month.
  destruct (month_cases m Hm)
    as [->|[->|[->|[->|[->|[->|[->|[->|[->|[->|[->| ->]]]]]]]]]]];
    destruct (is_leap y); simpl; lia.
Qed.

(** The order of dates is the order of their day counts. *)
Lemma toordinal_lt a b :
  valid a = true -> valid b = true ->
  date_ltb a b = true -> toordinal a < toordinal b.
Proof.
  intros Ha Hb. destruct (valid_bounds a Ha) as (Hya & Hma & Hda).
  destruct (valid_bounds b Hb) as (Hyb & Hmb & Hdb).
  unfold date_ltb, toordinal, ymd_to_ord.
  rewrite orb_true_iff, andb_true_iff, orb_true_iff, andb_true_iff,
    !Z.ltb_lt, !Z.eqb_eq.
  intros [Hy|[Hy [Hm|[Hm Hd]]]].
  - pose proof (month_end_bound (year a) (month a) Hma).
    pose proof (days_before_year_succ (year a) (proj1 Hya)).
    pose proof (days_before_year_mono (year a + 1) (year b)).
    pose proof (days_before_month_nonneg (year b) (month b) Hmb).
    lia.
  - rewrite Hy in *.
    pose proof (days_before_month_mono (year b) (month a) (month b)).
    lia.
  - rewrite Hy, Hm in *. lia.
Qed.

Lemma date_ltb_total a b :
  date_ltb a b = false -> a = b \/ date_ltb b a = true.
Proof.
  destruct a as [ya ma da], b as [yb mb db]. unfold date_ltb. cbn.
  intros Hf.
  destruct (Z.ltb_spec ya yb); [discriminate|].
  destruct (Z.eqb_spec ya yb) as [->|].
  - destruct (Z.ltb_spec yb yb); [lia|]. rewrite Z.eqb_refl.
    destruct (Z.ltb_spec ma mb); [discriminate|].
    destruct (Z.eqb_spec ma mb) as [->|].
    + destruct (Z.ltb_spec mb mb); [lia|]. rewrite Z.eqb_refl.
      destruct (Z.ltb_spec da db); [discriminate|].
      destruct (Z.ltb_spec db da); [now right|].
      left. f_equal. lia.
    + destruct (Z.ltb_spec mb ma); [now right|]. lia.
  - destruct (Z.ltb_spec yb ya); [now right|]. lia.
Qed.

Lemma date_ltb_ordinal a b :
  valid a = true -> valid b = true ->
  (date_ltb a b = true <-> toordinal a < toordinal b).
Proof.
  intros Ha Hb. split; [apply toordinal_lt; assumption|].
  intros Hlt. destruct (date_ltb a b) eqn:E; [reflexivity|].
  destruct (date_ltb_total a b E) as [->|Hba]; [lia|].
  pose proof (toordinal_lt b a Hb Ha Hba). lia.
Qed.

End DateOrder.

(** X12.  For two strings that parse, [build_date_query] raises the
    range error exactly when the end date falls on an earlier day than
    the start date; otherwise (the end date before 9999-12-31) the two
    bounds of the filter it returns are in order and lie as many days
    apart as the inclusive range has days: at least one. *)
Theorem build_date_query_covers_the_days `{Platform}
  (start_s end_s : string) (start_dt end_dt : date) :
  strptime_Ymd start_s = inr start_dt ->
  strptime_Ymd end_s = inr end_dt ->
  (build_date_query start_s end_s
   = inl (ValueError "End date must be on or after start date")
   <-> toordinal end_dt < toordinal start_dt)
  /\ (toordinal start_dt <= toordinal end_dt ->
      end_dt <> date_max ->
      build_date_query start_s end_s
      = inr ("after:" ++ strftime_Ymd start_dt
             ++ " before:" ++ strftime_Ymd (tomorrow end_dt))
      /\ toordinal (tomorrow end_dt) - toordinal start_dt
         = (toordinal end_dt - toordinal start_dt) + 1
      /\ toordinal start_dt < toordinal (tomorrow end_dt)).
Proof.
  intros Hs He.
  pose proof (strptime_Ymd_valid _ _ Hs) as Hvs.
  pose proof (strptime_Ymd_valid _ _ He) as Hve.
  pose proof (date_ltb_ordinal end_dt start_dt Hve Hvs) as Hord.
  rewrite build_date_query_cases, Hs, He. split.
  - rewrite <- Hord.
    destruct (date_ltb end_dt start_dt); [tauto|].
    destruct ((year end_dt =? 9999) && (month end_dt =? 12)
              && (day end_dt =? 31)); split; discriminate.
  - intros Hle Hmax.
    destruct (date_ltb end_dt start_dt) eqn:E.
    { apply (toordinal_lt _ _ Hve Hvs) in E. lia. }
    destruct ((year end_dt =? 9999) && (month end_dt =? 12)
              && (day end_dt =? 31)) eqn:Emax.
    { apply is_date_max in Emax. contradiction. }
    pose proof (toordinal_tomorrow end_dt Hve).
    split; [reflexivity|]. lia.
Qed.

Lemma build_date_query_covers_the_days_witness :
  @build_date_query sample_platform "2024-01-01" "2024-01-31"
  = inr "after:2024/01/01 before:2024/02/01"
  /\ toordinal (mkdate 2024 2 1) - toordinal (mkdate 2024 1 1) = 30 + 1
  /\ toordinal (mkdate 2024 1 1) < toordinal (mkdate 2024 2 1).
Proof.
  refine (proj2 (@build_date_query_covers_the_days sample_platform
            "2024-01-01" "2024-01-31" (mkdate 2024 1 1) (mkdate 2024 1 31)
            eq_refl eq_refl) _ _).
  - vm_compute. discriminate.
  - discriminate.
Defined.

Section FilterTerms.

Lemma split_spaces_spaceless s : spaceless s = true -> split_spaces s = [s].
Proof.
  induction s as [|c s IH]; [reflexivity|].
  cbn [spaceless split_spaces]. rewrite andb_true_iff, negb_true_iff.
  intros [-> Hs]. rewrite (IH Hs). reflexivity.
Qed.

Lemma spaceless_app s t :
  spaceless (s ++ t) = spaceless s && spaceless t.
Proof.
  induction s as [|c s IH]; [reflexivity|].
  cbn [append spaceless]. rewrite IH, andb_assoc. reflexivity.
Qed.

Lemma digit_char_spaceless n :
  0 <= n <= 9 -> negb (Ascii.eqb (digit_char n) " ") = true.
Proof.
  intros Hn.
  assert (Hall : forallb (fun d => negb (Ascii.eqb (digit_char d) " "))
                   (below 10) = true) by reflexivity.
  rewrite forallb_forall in Hall. apply Hall, below_in. simpl. lia.
Qed.

Lemma zpad2_spaceless n : 0 <= n <= 99 -> spaceless (zpad2 n) = true.
Proof.
  intros Hn. unfold zpad2. cbn [spaceless].
  rewrite !digit_char_spaceless; [reflexivity| |];
    Z.to_euclidean_division_equations; lia.
Qed.

Lemma zpad4_spaceless n : 0 <= n <= 9999 -> spaceless (zpad4 n) = true.
Proof.
  intros Hn. unfold zpad4. cbn [spaceless].
  rewrite !digit_char_spaceless; [reflexivity| | | |];
    Z.to_euclidean_division_equations; lia.
Qed.

Lemma four_digit_date_spaceless dt :
  valid dt = true ->
  spaceless (zpad4 (year dt) ++ "/" ++ zpad2 (month dt)
             ++ "/" ++ zpad2 (day dt)) = true.
Proof.
  intros Hv. destruct (valid_bounds dt Hv) as (Hy & Hm & Hd).
  pose proof (days_in_month_le (year dt) (month dt) Hm).
  rewrite !spaceless_app, zpad4_spaceless, !zpad2_spaceless by lia.
  reflexivity.
Qed.

Lemma date_ltb_false_year a b : date_ltb a b = false -> year b <= year a.
Proof.
  unfold date_ltb. rewrite orb_false_iff, Z.ltb_ge. tauto.
Qed.

Lemma tomorrow_year dt : year dt <= year (tomorrow dt).
Proof.
  unfold tomorrow.
  destruct (day dt <? days_in_month (year dt) (month dt)); [simpl; lia|].
  destruct (month dt <? 12); simpl; lia.
Qed.

End FilterTerms.

(** X13.  From the year 1000 on, the filter that [build_date_query]
    returns has exactly two terms, [after:YYYY/MM/DD] and
    [before:YYYY/MM/DD], neither of them negated, in a text of 34
    characters; with [label:sent] after it the sent query has three. *)
Theorem build_date_query_two_terms `{Platform}
  (start_s end_s : string) (start_dt end_dt : date) :
  strptime_Ymd start_s = inr start_dt ->
  strptime_Ymd end_s = inr end_dt ->
  date_ltb end_dt start_dt = false ->
  end_dt <> date_max ->
  1000 <= year start_dt ->
  exists after_day before_day,
    after_day = zpad4 (year start_dt) ++ "/" ++ zpad2 (month start_dt)
                ++ "/" ++ zpad2 (day start_dt)
    /\ before_day = zpad4 (year (tomorrow end_dt)) ++ "/"
                    ++ zpad2 (month (tomorrow end_dt)) ++ "/"
                    ++ zpad2 (day (tomorrow end_dt))
    /\ build_date_query start_s end_s
       = inr ("after:" ++ after_day ++ " before:" ++ before_day)
    /\ query_terms ("after:" ++ after_day ++ " before:" ++ before_day)
       = [Has ("after:" ++ after_day); Has ("before:" ++ before_day)]
    /\ query_terms (("after:" ++ after_day ++ " before:" ++ before_day)
                    ++ " label:sent")
       = [Has ("after:" ++ after_day); Has ("before:" ++ before_day);
          Has "label:sent"]
    /\ String.length ("after:" ++ after_day ++ " before:" ++ before_day)
       = 34%nat.
Proof.
  intros Hs He Hle Hmax Hy.
  pose proof (strptime_Ymd_valid _ _ Hs) as Hvs.
  pose proof (strptime_Ymd_valid _ _ He) as Hve.
  pose proof (tomorrow_valid _ Hve Hmax) as Hvt.
  pose proof (date_ltb_false_year _ _ Hle) as Hyear.
  pose proof (tomorrow_year end_dt) as Hty.
  eexists _, _. split; [reflexivity|]. split; [reflexivity|].
  assert (Hterms :
    query_terms
      ("after:" ++ (zpad4 (year start_dt) ++ "/" ++ zpad2 (month start_dt)
                    ++ "/" ++ zpad2 (day start_dt))
       ++ " before:" ++ (zpad4 (year (tomorrow end_dt)) ++ "/"
                         ++ zpad2 (month (tomorrow end_dt)) ++ "/"
                         ++ zpad2 (day (tomorrow end_dt))))
    = [Has ("after:" ++ (zpad4 (year start_dt) ++ "/"
                         ++ zpad2 (month start_dt)
                         ++ "/" ++ zpad2 (day start_dt)));
       Has ("before:" ++ (zpad4 (year (tomorrow end_dt)) ++ "/"
                          ++ zpad2 (month (tomorrow end_dt)) ++ "/"
                          ++ zpad2 (day (tomorrow end_dt))))]).
  { rewrite <- append_assoc.
    change (" before:" ++ ?t) with (String " " ("before:" ++ t)).
    rewrite query_terms_app. unfold query_terms.
    rewrite !split_spaces_spaceless.
    - reflexivity.
    - change (spaceless ("before:" ++ ?t)) with (spaceless t).
      apply four_digit_date_spaceless, Hvt.
    - change (spaceless ("after:" ++ ?t)) with (spaceless t).
      apply four_digit_date_spaceless, Hvs. }
  split; [|split; [exact Hterms|split]].
  - rewrite build_date_query_cases, Hs, He, Hle.
    destruct ((year end_dt =? 9999) && (month end_dt =? 12)
              && (day end_dt =? 31)) eqn:Emax.
    { apply is_date_max in Emax. contradiction. }
    rewrite !strftime_Ymd_four_digits by lia. reflexivity.
  - rewrite query_terms_app, Hterms. reflexivity.
  - reflexivity.
Qed.

Lemma build_date_query_two_terms_witness :
  query_terms "after:2024/01/01 before:2024/02/01"
  = [Has "after:2024/01/01"; Has "before:2024/02/01"].
Proof.
  destruct (@build_date_query_two_terms sample_platform
              "2024-01-01" "2024-01-31" (mkdate 2024 1 1) (mkdate 2024 1 31)
              eq_refl eq_refl eq_refl)
    as (after_day & before_day & -> & -> & _ & Hterms & _).
  - discriminate.
  - vm_compute. discriminate.
  - exact Hterms.
Defined.

(* ===================================================================== *)
(** ** Saving addresses to a file                                          *)
(* ===================================================================== *)

Section SavedText.

Lemma split_on_nonempty sep s : split_on sep s <> [].
Proof.
  destruct s as [|c s]; [discriminate|]. cbn [split_on].
  destruct (Ascii.eqb c sep); [discriminate|].
  destruct (split_on sep s); discriminate.
Qed.

Lemma split_on_app sep a b :
  split_on sep (a ++ String sep b)
  = (split_on sep a ++ split_on sep b)%list.
Proof.
  induction a as [|c a IH].
  - cbn [append split_on]. rewrite Ascii.eqb_refl. reflexivity.
  - cbn [append split_on]. rewrite IH.
    destruct (Ascii.eqb c sep); [reflexivity|].
    pose proof (split_on_nonempty sep a) as Hne.
    destruct (split_on sep a) as [|w ws]; [contradiction|reflexivity].
Qed.

Lemma split_on_free sep s : free_of sep s = true -> split_on sep s = [s].
Proof.
  induction s as [|c s IH]; [reflexivity|].
  cbn [free_of split_on]. rewrite andb_true_iff, negb_true_iff.
  intros [-> Hs]. rewrite (IH Hs). reflexivity.
Qed.

Lemma free_of_app sep s t :
  free_of sep (s ++ t) = free_of sep s && free_of sep t.
Proof.
  induction s as [|c s IH]; [reflexivity|].
  cbn [append free_of]. rewrite IH, andb_assoc. reflexivity.
Qed.

Lemma email_line_free email :
  free_of newline email = true -> free_of newline (email_line email) = true.
Proof.
  intros He. unfold email_line.
  change ("email = " ++ ?t) with
    (String "e" (String "m" (String "a" (String "i" (String "l"
       (String " " (String "=" (String " " t)))))))).
  cbn [free_of]. rewrite free_of_app, He. reflexivity.
Qed.

Lemma before_last_quote_app email :
  before_last_quote (email ++ String dquote "") = Some email.
Proof.
  induction email as [|c email IH]; [reflexivity|].
  cbn [append before_last_quote]. rewrite IH.
  destruct email; reflexivity.
Qed.

Lemma address_of_email_line email :
  address_of_line (email_line email) = Some email.
Proof.
  unfold email_line. cbn [append address_of_line].
  rewrite Ascii.eqb_refl. apply before_last_quote_app.
Qed.

Lemma split_on_join lines :
  lines <> [] ->
  Forall (fun l => free_of newline l = true) lines ->
  split_on newline (join (String newline "") lines) = lines.
Proof.
  induction lines as [|x rest IH]; [contradiction|].
  intros _ Hfree. inversion Hfree as [|? ? Hx Hrest]; subst.
  destruct rest as [|y rest].
  - cbn [join]. apply split_on_free, Hx.
  - change (join (String newline "") (x :: y :: rest))
      with (x ++ String newline (join (String newline "") (y :: rest))).
    rewrite split_on_app, (split_on_free _ _ Hx), IH;
      [reflexivity | discriminate | assumption].
Qed.

Lemma all_some_addresses emails :
  all_some (map address_of_line (map email_line emails)) = Some emails.
Proof.
  induction emails as [|e rest IH]; [reflexivity|].
  cbn [map all_some]. rewrite address_of_email_line, IH. reflexivity.
Qed.

(** The saved text read back gives the addresses. *)
Lemma saved_emails_saved_text emails :
  Forall (fun e => free_of newline e = true) emails ->
  saved_emails (saved_text emails) = Some emails.
Proof.
  intros Hfree. destruct emails as [|e rest]; [reflexivity|].
  unfold saved_emails, saved_text.
  assert (Hne : exists c t,
            join (String newline "") (map email_line (e :: rest))
            = String c t).
  { cbn [map join]. destruct (map email_line rest); cbn; eauto. }
  destruct Hne as (c & t & Hct). rewrite Hct, <- Hct.
  rewrite split_on_join.
  - apply all_some_addresses.
  - discriminate.
  - apply Forall_map. eapply Forall_impl; [|exact Hfree].
    intros a Ha. apply email_line_free, Ha.
Qed.

End SavedText.

(** X14.  What [save_emails_to_file] writes determines the addresses it
    was given, as long as no address contains a newline: after a
    successful save on a file system that keeps what is written, the
    text of [emails.txt] read back line by line gives the posted list
    (the empty list, or a body without ['emails'], leaves an empty
    file), and two such lists never give the same text.  An address with
    a newline breaks this: one address can be saved as two lines. *)
Theorem save_emails_to_file_round_trip {FS : Type} `{FileSystem FS}
  (data : SaveRequest) (fs fs' : FS) (emails : list string) :
  (forall d path text d',
      write_text d path text = (d', inr tt) ->
      read_text d' path = Some text) ->
  get_default (json_emails data) [] = emails ->
  Forall (fun e => free_of newline e = true) emails ->
  save_emails_to_file data fs
  = (fs', (MessageBody "Emails saved to file successfully", 200)) ->
  (exists text,
      read_text fs' "emails.txt" = Some text
      /\ saved_emails text = Some emails)
  /\ (forall others,
         Forall (fun e => free_of newline e = true) others ->
         saved_text others = saved_text emails -> others = emails)
  /\ saved_text [String "a" (String dquote (String newline "email = "))
                 ++ String dquote "b"]
     = saved_text ["a"; "b"].
Proof.
  intros Hlaw Hemails Hfree Hsaved. split; [|split].
  - unfold save_emails_to_file in Hsaved. rewrite Hemails in Hsaved.
    destruct (write_text fs "emails.txt" (saved_text emails))
      as [d' [e|[]]] eqn:Hw; [discriminate|].
    injection Hsaved as <-.
    exists (saved_text emails). split.
    + apply (Hlaw _ _ _ _ Hw).
    + apply saved_emails_saved_text, Hfree.
  - intros others Hothers Heq.
    pose proof (saved_emails_saved_text others Hothers) as H1.
    pose proof (saved_emails_saved_text emails Hfree) as H2.
    rewrite Heq in H1. congruence.
  - reflexivity.
Qed.

Lemma in_memory_keeps_text d path text d' :
  @write_text Disk in_memory d path text = (d', inr tt) ->
  @read_text Disk in_memory d' path = Some text.
Proof.
  cbn [write_text read_text in_memory].
  destruct (existsb (String.eqb path) (locked d)); [discriminate|].
  intros [= <-]. cbn [files lookup_file]. rewrite String.eqb_refl.
  reflexivity.
Qed.

Lemma save_emails_to_file_round_trip_witness :
  exists text,
    @read_text Disk in_memory
      (mkDisk [("emails.txt",
                saved_text ["a@example.com"; "b@example.com"]);
               ("emails.txt", "email = old")] [])
      "emails.txt" = Some text
    /\ saved_emails text = Some ["a@example.com"; "b@example.com"].
Proof.
  refine (proj1 (@save_emails_to_file_round_trip Disk in_memory
            (mkSaveRequest (Some ["a@example.com"; "b@example.com"]))
            (mkDisk [("emails.txt", "email = old")] []) _
            ["a@example.com"; "b@example.com"]
            in_memory_keeps_text eq_refl _ eq_refl)).
  repeat constructor.
Defined.

(* ===================================================================== *)
(** ** Failures of the listing calls                                       *)
(* ===================================================================== *)

Section ListingFailures.
Context `{Platform} {Svc : Type} `{Provider Svc}.
Variables user_id query : string.

Lemma count_messages_loop_listing_raises n s tok s1 tok1 :
  listed user_id query n s tok s1 tok1 ->
  forall s2 e bound total,
    messages_list s1 user_id query tok1 false = (s2, inl e) ->
    (n < bound)%nat ->
    count_messages_loop bound user_id query total tok s = Some (s2, inl e).
Proof.
  induction 1 as [s tok | n s tok s1 r s' tok' Hcall Hmore Hrest IH];
    intros s2 e bound total Hraise Hb;
    (destruct bound as [|bound]; [lia|]);
    cbn [count_messages_loop]; unfold mbind, call.
  - rewrite Hraise. reflexivity.
  - rewrite Hcall. cbn beta iota zeta. rewrite Hmore. cbn [negb].
    eapply IH; [eassumption|lia].
Qed.

Lemma get_sent_email_details_listing_raises n s0 s tok acc s1 e bound :
  completed user_id query n s0 None [] s tok acc ->
  messages_list s user_id query tok false = (s1, inl e) ->
  (n < bound)%nat ->
  get_sent_email_details bound user_id query s0 = Some (s1, inl e).
Proof.
  intros Hdone Hraise Hb. unfold get_sent_email_details.
  replace bound with (n + S (bound - S n))%nat by lia.
  rewrite (get_sent_email_details_loop_completed _ _ _ _ _ _ _ _ _ Hdone).
  cbn [get_sent_email_details_loop]. unfold mbind at 1. unfold call at 1.
  rewrite Hraise. reflexivity.
Qed.

Lemma for_msg_in_missing_id before msg after acc s s1 acc1 :
  for_msg_in user_id before acc s = Some (s1, inr acc1) ->
  stub_id msg = None ->
  for_msg_in user_id (before ++ msg :: after) acc s
  = Some (s1, inl (KeyError "id")).
Proof.
  intros Hbefore Hid. rewrite for_msg_in_app, Hbefore.
  cbn [for_msg_in]. unfold mbind, lift. rewrite Hid. reflexivity.
Qed.

End ListingFailures.

Lemma handle_exception_by_class (e : exn) :
  (isinstance_ValueError e = false ->
   handle_exception e
   = (ErrorBody ("Failed to fetch Gmail data: " ++ type_name e), 500))
  /\ (isinstance_ValueError e = true ->
      handle_exception e = (ErrorBody (str e), 400)).
Proof.
  unfold handle_exception. split; intros ->; reflexivity.
Qed.

(** X15.  [/dashboard] returns no partial totals: when the sent count
    has completed and a listing call of the received count raises (after
    any number of pages), [count_messages] ends with that exception and
    the answer is made from it alone, the sent total being dropped: 500
    with nothing but the class name, or, for an exception of a
    [ValueError] class, 400 with the exception's own text. *)
Theorem dashboard_drops_partial_totals `{Platform} {Svc : Type}
  `{Provider Svc}
  (bound : nat) (email start_date end_date date_q : string)
  (service s1 s2 s3 : Svc) (sent_pages : list ListResponse)
  (n : nat) (tok : option string) (e : exn) :
  missing_parameters (Some email) (Some start_date) (Some end_date) = false ->
  connect email = inr service ->
  build_date_query start_date end_date = inr date_q ->
  pages "me" (date_q ++ " label:sent") service None sent_pages s1 ->
  listed "me"
    (date_q ++
     " label:inbox -label:sent -label:drafts -label:spam -label:trash -from:me")
    n s1 None s2 tok ->
  messages_list s2 "me"
    (date_q ++
     " label:inbox -label:sent -label:drafts -label:spam -label:trash -from:me")
    tok false = (s3, inl e) ->
  (List.length sent_pages <= bound)%nat ->
  (n < bound)%nat ->
  count_messages bound "me"
    (date_q ++
     " label:inbox -label:sent -label:drafts -label:spam -label:trash -from:me")
    s1 = Some (s3, inl e)
  /\ dashboard bound (Some email) (Some start_date) (Some end_date)
     = Some (handle_exception e)
  /\ (isinstance_ValueError e = false ->
      handle_exception e
      = (ErrorBody ("Failed to fetch Gmail data: " ++ type_name e), 500))
  /\ (isinstance_ValueError e = true ->
      handle_exception e = (ErrorBody (str e), 400)).
Proof.
  intros Hargs Hconn Hq Hsent Hlisted Hraise Hb1 Hb2.
  assert (Hrecv :
    count_messages bound "me"
      (date_q ++
       " label:inbox -label:sent -label:drafts -label:spam -label:trash -from:me")
      s1 = Some (s3, inl e)).
  { unfold count_messages.
    eapply count_messages_loop_listing_raises; eassumption. }
  split; [exact Hrecv|]. split; [|apply handle_exception_by_class].
  rewrite (dashboard_runs _ _ _ _ _ _ Hargs Hconn Hq).
  unfold count_messages at 1.
  rewrite (count_messages_loop_pages _ _ _ _ _ _ Hsent) by assumption.
  rewrite Hrecv. reflexivity.
Qed.

Lemma dashboard_drops_partial_totals_witness :
  @dashboard sample_platform Script (scripted received_listing_fails) 4
    (Some "user@example.com") (Some "2024-01-01") (Some "2024-01-31")
  = Some (ErrorBody "Failed to fetch Gmail data: HttpError", 500).
Proof.
  refine (proj1 (proj2
    (@dashboard_drops_partial_totals sample_platform Script
       (scripted received_listing_fails) 4
       "user@example.com" "2024-01-01" "2024-01-31"
       "after:2024/01/01 before:2024/02/01"
       received_listing_fails
       (mkScript (tl (tl (list_script received_listing_fails))) [] [])
       (mkScript (tl (tl (tl (list_script received_listing_fails)))) [] [])
       (mkScript [] [] [])
       [mkListResponse (Some (stubs_upto 50)) (Some "page-2");
        mkListResponse (Some (stubs_upto 13)) None]
       1 (Some "next") (ClientError "HttpError" false "429 rate limit exceeded")
       eq_refl eq_refl eq_refl _ _ eq_refl _ _))).
  - eapply pages_more; [reflexivity | reflexivity |].
    apply pages_last; reflexivity.
  - eapply listed_succ; [reflexivity | reflexivity | apply listed_zero].
  - repeat constructor.
  - repeat constructor.
Defined.

(** X16.  A listing entry without ['id'] ends the details request with
    [KeyError] before anything is fetched for it: the provider is left
    as the fetches before it left it, and the answer is 500 with
    [Failed to fetch Gmail data: KeyError]. *)
Theorem sent_details_stub_without_id `{Platform} {Svc : Type}
  `{Provider Svc}
  (email start_date end_date date_q : string) (service : Svc)
  (n : nat) (s : Svc) (tok : option string) (acc : list EmailData)
  (s1 : Svc) (r : ListResponse) (before : list Stub) (msg : Stub)
  (after : list Stub) (s2 : Svc) (acc2 : list EmailData) (bound : nat) :
  missing_parameters (Some email) (Some start_date) (Some end_date) = false ->
  connect email = inr service ->
  build_date_query start_date end_date = inr date_q ->
  completed "me" (date_q ++ " label:sent") n service None [] s tok acc ->
  messages_list s "me" (date_q ++ " label:sent") tok false = (s1, inr r) ->
  page_stubs r = (before ++ msg :: after)%list ->
  for_msg_in "me" before acc s1 = Some (s2, inr acc2) ->
  stub_id msg = None ->
  (n < bound)%nat ->
  get_sent_email_details bound "me" (date_q ++ " label:sent") service
  = Some (s2, inl (KeyError "id"))
  /\ sent_details bound (Some email) (Some start_date) (Some end_date)
     = Some (ErrorBody "Failed to fetch Gmail data: KeyError", 500).
Proof.
  intros Hargs Hconn Hq Hdone Hcall Hstubs Hbefore Hid Hb.
  assert (Hrun :
    get_sent_email_details bound "me" (date_q ++ " label:sent") service
    = Some (s2, inl (KeyError "id"))).
  { eapply get_sent_email_details_aborts; try eassumption.
    rewrite Hstubs. eapply for_msg_in_missing_id; eassumption. }
  split; [exact Hrun|].
  rewrite (sent_details_runs _ _ _ _ _ _ Hargs Hconn Hq), Hrun.
  reflexivity.
Qed.

Lemma sent_details_stub_without_id_witness :
  @sent_details sample_platform Script (scripted second_without_id) 1
    (Some "user@example.com") (Some "2024-01-01") (Some "2024-01-31")
  = Some (ErrorBody "Failed to fetch Gmail data: KeyError", 500).
Proof.
  refine (proj2
    (@sent_details_stub_without_id sample_platform Script
       (scripted second_without_id)
       "user@example.com" "2024-01-01" "2024-01-31"
       "after:2024/01/01 before:2024/02/01" second_without_id
       O second_without_id None []
       (mkScript [] [] (mailbox second_without_id))
       (mkListResponse (Some [mkStub (Some "m1"); mkStub None]) None)
       [mkStub (Some "m1")] (mkStub None) []
       (mkScript [] [] (mailbox second_without_id)) [hi_record] 1
       eq_refl eq_refl eq_refl (completed_zero _ _ _ _ _)
       eq_refl eq_refl eq_refl eq_refl _)).
  repeat constructor.
Defined.

(** X17.  A listing call that raises during a details request, after any
    number of completed pages, ends [get_sent_email_details] with that
    exception in the state the failed call left; the answer of
    [/sent_details] is made from the exception alone and holds none of
    the records of the pages before. *)
Theorem sent_details_listing_failure `{Platform} {Svc : Type}
  `{Provider Svc}
  (email start_date end_date date_q : string) (service : Svc)
  (n : nat) (s : Svc) (tok : option string) (acc : list EmailData)
  (s1 : Svc) (e : exn) (bound : nat) :
  missing_parameters (Some email) (Some start_date) (Some end_date) = false ->
  connect email = inr service ->
  build_date_query start_date end_date = inr date_q ->
  completed "me" (date_q ++ " label:sent") n service None [] s tok acc ->
  messages_list s "me" (date_q ++ " label:sent") tok false = (s1, inl e) ->
  (n < bound)%nat ->
  get_sent_email_details bound "me" (date_q ++ " label:sent") service
  = Some (s1, inl e)
  /\ sent_details bound (Some email) (Some start_date) (Some end_date)
     = Some (handle_exception e)
  /\ (isinstance_ValueError e = false ->
      handle_exception e
      = (ErrorBody ("Failed to fetch Gmail data: " ++ type_name e), 500))
  /\ (isinstance_ValueError e = true ->
      handle_exception e = (ErrorBody (str e), 400)).
Proof.
  intros Hargs Hconn Hq Hdone Hraise Hb.
  assert (Hrun :
    get_sent_email_details bound "me" (date_q ++ " label:sent") service
    = Some (s1, inl e)).
  { eapply get_sent_email_details_listing_raises; eassumption. }
  split; [exact Hrun|]. split; [|apply handle_exception_by_class].
  rewrite (sent_details_runs _ _ _ _ _ _ Hargs Hconn Hq), Hrun.
  reflexivity.
Qed.

Lemma sent_details_listing_failure_witness :
  @sent_details sample_platform Script (scripted second_page_fails) 3
    (Some "user@example.com") (Some "2024-01-01") (Some "2024-01-31")
  = Some (ErrorBody "Expecting value", 400).
Proof.
  refine (proj1 (proj2
    (@sent_details_listing_failure sample_platform Script
       (scripted second_page_fails)
       "user@example.com" "2024-01-01" "2024-01-31"
       "after:2024/01/01 before:2024/02/01" second_page_fails
       1 (mkScript (tl (list_script second_page_fails)) []
            (mailbox second_page_fails))
       (Some "page-2") [hi_record]
       (mkScript [] [] (mailbox second_page_fails))
       (ClientError "JSONDecodeError" true "Expecting value") 3
       eq_refl eq_refl eq_refl _ eq_refl _))).
  - eapply completed_succ;
      [reflexivity | reflexivity | reflexivity | apply completed_zero].
  - repeat constructor.
Defined.

(* ===================================================================== *)
(** ** Headers of other names                                              *)
(* ===================================================================== *)

Lemma for_header_in_other_name `{Platform} before h after name :
  header_name h = Some name ->
  name <> "To" -> name <> "Subject" -> name <> "Date" ->
  forall d0,
    for_header_in (before ++ h :: after) d0
    = for_header_in (before ++ after) d0.
Proof.
  intros Hname HTo HSu HDa.
  apply String.eqb_neq in HTo, HSu, HDa.
  induction before as [|x before IH]; intros d0.
  - cbn [app for_header_in]. rewrite Hname. cbn [getitem bind].
    rewrite HTo, HSu, HDa. reflexivity.
  - cbn [app for_header_in].
    destruct (header_name x) as [n|]; cbn [getitem bind]; [|reflexivity].
    destruct (String.eqb n "To");
      [destruct (header_value x); cbn [getitem bind];
       [apply IH | reflexivity]|].
    destruct (String.eqb n "Subject");
      [destruct (header_value x); cbn [getitem bind];
       [apply IH | reflexivity]|].
    destruct (String.eqb n "Date");
      [destruct (header_value x); cbn [getitem bind];
       [apply IH | reflexivity]|].
    apply IH.
Qed.

(** X18.  A header whose name is not exactly [To], [Subject] or [Date]
    (another header, or one of the three in another letter case) changes
    nothing: with it or without it, wherever it stands in the list, the
    extraction gives the same record or raises the same exception, even
    if the header has no ['value']. *)
Theorem extract_email_data_ignores_other_headers `{Platform}
  (before after : list Header) (h : Header) (name : string)
  (parts : option (list Part)) :
  header_name h = Some name ->
  name <> "To" -> name <> "Subject" -> name <> "Date" ->
  extract_email_data
    (mkMessage (Some (mkPayload (Some (before ++ h :: after)%list) parts)))
  = extract_email_data
      (mkMessage (Some (mkPayload (Some (before ++ after)%list) parts))).
Proof.
  intros Hname HTo HSu HDa. unfold extract_email_data.
  cbn [message_payload payload_headers payload_parts getitem bind].
  rewrite (for_header_in_other_name before h after name Hname HTo HSu HDa).
  reflexivity.
Qed.

Lemma extract_email_data_ignores_other_headers_witness :
  @extract_email_data sample_platform two_recipients
  = @extract_email_data sample_platform
      (mkMessage (Some (mkPayload
         (Some [mkHeader (Some "To") (Some "first@x");
                mkHeader (Some "To") (Some "second@x")]) None))).
Proof.
  refine (@extract_email_data_ignores_other_headers sample_platform
            [mkHeader (Some "To") (Some "first@x")]
            [mkHeader (Some "To") (Some "second@x")]
            (mkHeader (Some "to") (Some "lower@x")) "to" None
            eq_refl _ _ _); discriminate.
Defined.
